(** * ash-ui: the state logic of the component library

    A shallow embedding of the pieces of ash-ui that carry logic:
    the DataTable hooks (sorting, pagination, row selection), the
    DateRangePicker date utilities (range membership, disabling policy,
    month grid), the click handlers of Button and DayCell, and the Modal
    focus trap and close button.

    Conventions.
    - A React hook is modelled by explicit state passing: the state held
      by [useState] is a value, a handler is a function from the state
      the closure captured to the state it stores.
    - A callback prop is a function on an abstract world [W] (what the
      parent can observe); an optional prop is an [option].
    - JavaScript numbers that the components use as counters (pages,
      sizes, indices) are integers, modelled in [Z].
    - The platform (the [Date] objects of the host, date-fns, the
      click and focus behaviour of the browser) is modelled next to
      the code that relies on it, after its specification. *)

From Stdlib Require Import ZArith List Bool Lia String.
From stdpp Require Import gmap strings list pretty.

Local Open Scope Z_scope.

(* ===================================================================== *)
(** * DataTable/hooks.ts *)
(* ===================================================================== *)

Module DataTable.

(** ** useSort *)

(** [type SortDirection = 'asc' | 'desc' | null]: the two strings are
    the constructors, [null] is [None]. *)
Inductive Direction : Type := asc | desc.

Definition SortDirection : Type := option Direction.

Record SortState : Type := mkSort { key : string; direction : SortDirection }.

#[global] Instance Direction_eq_dec : EqDecision Direction.
Proof. solve_decision. Defined.

#[global] Instance SortState_eq_dec : EqDecision SortState.
Proof. solve_decision. Defined.

(** The argument of [useState]: the caller's [initialSort], or the
    unsorted state [{ key: '', direction: null }]. *)
Definition initialSortState (initialSort : option SortState) : SortState :=
  match initialSort with
  | Some s => mkSort (key s) (direction s)
  | None => mkSort EmptyString None
  end.

Section UseSort.
Context {W : Type}.
(** [onSortChange?: (sort: SortState) => void] *)
Variable onSortChange : option (SortState -> W -> W).

(** [onSortChange?.(newSort)] *)
Definition notifySort (s : SortState) (w : W) : W :=
  match onSortChange with
  | Some cb => cb s w
  | None => w
  end.

(** The updater passed to [setSort], on the previous state. *)
Definition nextSort (k : string) (prev : SortState) : SortState :=
  let newDirection :=
    if negb (String.eqb (key prev) k) then Some asc
    else match direction prev with
         | Some asc => Some desc
         | _ => Some asc
         end in
  mkSort k newDirection.

(** [handleSort(key)]: the new state is computed from the previous
    one, handed to the callback, and returned to React to be stored. *)
Definition handleSort (k : string) (st : SortState * W) : SortState * W :=
  let newSort := nextSort k (fst st) in
  (newSort, notifySort newSort (snd st)).

(** A sequence of header clicks, oldest first. *)
Definition clicks (ks : list string) (st : SortState * W) : SortState * W :=
  fold_left (fun s k => handleSort k s) ks st.

Definition isSorted (sort : SortState) (k : string) : bool :=
  String.eqb (key sort) k && bool_decide (direction sort <> None).

Definition getSortDirection (sort : SortState) (k : string) : SortDirection :=
  if String.eqb (key sort) k then direction sort else None.
End UseSort.

(** What "flips" means on the three-valued direction. *)
Definition flip (d : SortDirection) : SortDirection :=
  match d with
  | Some asc => Some desc
  | _ => Some asc
  end.

(** The states stored after each click of [ks], oldest first. *)
Fixpoint sortTrace (ks : list string) (s : SortState) : list SortState :=
  match ks with
  | [] => []
  | k :: rest => let s' := nextSort k s in s' :: sortTrace rest s'
  end.

(** ** usePagination *)

(** [Math.ceil(a / b)] on integers with [b > 0]. *)
Definition ceil_div (a b : Z) : Z := - ((- a) / b).

Record PaginationConfig (W : Type) : Type := mkConfig {
  cfg_page : Z;
  cfg_pageSize : Z;
  cfg_total : Z;
  onPageChange : Z -> W -> W;
  onPageSizeChange : Z -> W -> W
}.
Arguments mkConfig {W}.
Arguments cfg_page {W}.
Arguments cfg_pageSize {W}.
Arguments cfg_total {W}.
Arguments onPageChange {W}.
Arguments onPageSizeChange {W}.

(** The two [useState] cells of the hook. *)
Record PaginationLocal : Type := mkLocal { localPage : Z; localPageSize : Z }.

Definition initialLocal : PaginationLocal := mkLocal 1 10.

Section UsePagination.
Context {W : Type}.
Variable config : option (PaginationConfig W).
Variable loc : PaginationLocal.

Definition page : Z :=
  match config with Some c => cfg_page c | None => localPage loc end.
Definition pageSize : Z :=
  match config with Some c => cfg_pageSize c | None => localPageSize loc end.
Definition total : Z :=
  match config with Some c => cfg_total c | None => 0 end.

Definition totalPages : Z := ceil_div total pageSize.

(** Handlers act on the pair of the hook's own state and the world
    the callbacks of [config] act on. *)
Definition handlePageChange (newPage : Z) (st : PaginationLocal * W)
  : PaginationLocal * W :=
  let clampedPage := Z.max 1 (Z.min newPage totalPages) in
  match config with
  | Some c => (fst st, onPageChange c clampedPage (snd st))
  | None => (mkLocal clampedPage (localPageSize (fst st)), snd st)
  end.

Definition handlePageSizeChange (newSize : Z) (st : PaginationLocal * W)
  : PaginationLocal * W :=
  match config with
  | Some c => (fst st, onPageChange c 1 (onPageSizeChange c newSize (snd st)))
  | None => (mkLocal 1 newSize, snd st)
  end.

Definition handleNextPage (st : PaginationLocal * W) : PaginationLocal * W :=
  if page <? totalPages then handlePageChange (page + 1) st else st.

Definition handlePrevPage (st : PaginationLocal * W) : PaginationLocal * W :=
  if 1 <? page then handlePageChange (page - 1) st else st.

Definition canNextPage : bool := page <? totalPages.
Definition canPrevPage : bool := 1 <? page.
Definition startIndex : Z := (page - 1) * pageSize + 1.
Definition endIndex : Z := Z.min (page * pageSize) total.
End UsePagination.

(** The four handlers the hook returns, as requests; each is run by the
    render that follows the previous update, so the state its closure
    captured is the current one. *)
Inductive PageAction : Type :=
| SetPage (p : Z)
| SetPageSize (s : Z)
| NextPage
| PrevPage.

Definition runAction {W} (config : option (PaginationConfig W))
    (a : PageAction) (st : PaginationLocal * W) : PaginationLocal * W :=
  match a with
  | SetPage p => handlePageChange config (fst st) p st
  | SetPageSize s => handlePageSizeChange config s st
  | NextPage => handleNextPage config (fst st) st
  | PrevPage => handlePrevPage config (fst st) st
  end.

(** A parent that records every page it is handed, newest first, and
    ignores page-size notifications. *)
Definition recordingConfig (p ps t : Z) : PaginationConfig (list Z) :=
  mkConfig p ps t (fun q log => q :: log) (fun _ log => log).

(** ** useRowSelection *)

(** A row key is [string | number]; a JavaScript [Set] tells the string
    ['1'] from the number [1]. *)
Inductive RowKey : Type :=
| KStr (s : string)
| KNum (n : Z).

#[global] Instance RowKey_eq_dec : EqDecision RowKey.
Proof. solve_decision. Defined.

#[global] Instance RowKey_countable : Countable RowKey.
Proof.
  refine (inj_countable'
            (fun k => match k with KStr s => inl s | KNum n => inr n end)
            (fun x => match x with inl s => KStr s | inr n => KNum n end) _).
  intros [s|n]; reflexivity.
Defined.

Section UseRowSelection.
Context {T : Type}.
Variable enableSelection : bool.
(** [getRowKey?: (row: T, index: number) => string | number] *)
Variable getRowKey : option (T -> Z -> RowKey).

(** [getRowKey ? getRowKey(row, index) : index] *)
Definition keyOf (row : T) (index : Z) : RowKey :=
  match getRowKey with
  | Some f => f row index
  | None => KNum index
  end.

(** [toggleRow(row, index, isSelected?)] run by a render whose
    [selectedRowKeys] is [sel]: the value left in the state cell.
    [isSelected = None] is the absent (undefined) third argument. *)
Definition toggleRow (row : T) (index : Z) (isSelected : option bool)
    (sel : gset RowKey) : gset RowKey :=
  if negb enableSelection then sel
  else
    let k := keyOf row index in
    match isSelected with
    | None => if bool_decide (k ∈ sel) then sel ∖ {[ k ]} else sel ∪ {[ k ]}
    | Some true => sel ∪ {[ k ]}
    | Some false => sel ∖ {[ k ]}
    end.

(** [rows.forEach((row, index) => newSelection.add(key))], counting
    the index from [i]. *)
Fixpoint addAll (rows : list T) (i : Z) (acc : gset RowKey) : gset RowKey :=
  match rows with
  | [] => acc
  | row :: rest => addAll rest (i + 1) (acc ∪ {[ keyOf row i ]})
  end.

Definition toggleAllRows (rows : list T) (isSelected : bool)
    (sel : gset RowKey) : gset RowKey :=
  if negb enableSelection then sel
  else if isSelected then addAll rows 0 ∅ else ∅.

Definition clearSelection (sel : gset RowKey) : gset RowKey := ∅.

Definition isRowSelected (row : T) (index : Z) (sel : gset RowKey) : bool :=
  if negb enableSelection then false
  else bool_decide (keyOf row index ∈ sel).

(** The keys of [rows], each row with its position counted from [i]. *)
Fixpoint keysFrom (rows : list T) (i : Z) : list RowKey :=
  match rows with
  | [] => []
  | row :: rest => keyOf row i :: keysFrom rest (i + 1)
  end.
End UseRowSelection.

(** ** DataTable.tsx: what the component derives from the hooks *)

(** A run of pagination requests, oldest first. *)
Definition runActions {W} (config : option (PaginationConfig W))
    (acts : list PageAction) (st : PaginationLocal * W) : PaginationLocal * W :=
  fold_left (fun s a => runAction config a s) acts st.

(** The [aria-sort] attribute of a header cell: absent ([None]) unless
    the column is the sorted one. *)
Definition ariaSort (sort : SortState) (columnId : string) : option string :=
  if isSorted sort columnId
  then Some (match getSortDirection sort columnId with
             | Some asc => "ascending"
             | _ => "descending"
             end)
  else None.

Section TableSelection.
Context {T : Type}.
Variable enableSelection : bool.
Variable getRowKey : option (T -> Z -> RowKey).

(** An element of [rows]: a row and the key the component passes
    where the hooks expect an index ([rowWithKey.key as number]). *)
Record RowWithKey : Type := mkRow { row : T; rowKey : Z }.

(** [if (!enableSelection || rows.length === 0) return false;
    return rows.every(...)] *)
Definition allRowsSelected (rows : list RowWithKey) (sel : gset RowKey) : bool :=
  if negb enableSelection || (length rows =? 0)%nat then false
  else forallb (fun r => isRowSelected enableSelection getRowKey
                           (row r) (rowKey r) sel) rows.

(** [handleSelectAll], run by a render whose selection is [sel]. *)
Definition handleSelectAll (rows : list RowWithKey) (sel : gset RowKey)
  : gset RowKey :=
  if negb enableSelection then sel
  else toggleAllRows enableSelection getRowKey (map row rows)
         (negb (allRowsSelected rows sel)) sel.

(** [data.filter((row, index) => selectedRowKeys.has(key))], the
    index counted from [index]. *)
Fixpoint selectedRowsFrom (data : list T) (index : Z) (sel : gset RowKey)
  : list T :=
  match data with
  | [] => []
  | r :: rest =>
      if bool_decide (keyOf getRowKey r index ∈ sel)
      then r :: selectedRowsFrom rest (index + 1) sel
      else selectedRowsFrom rest (index + 1) sel
  end.

(** The effect that notifies the parent of the selected rows. *)
Definition notifySelection {W} (onSelectionChange : option (list T -> W -> W))
    (data : list T) (sel : gset RowKey) (w : W) : W :=
  if negb enableSelection then w
  else match onSelectionChange with
       | None => w
       | Some cb => cb (selectedRowsFrom data 0 sel) w
       end.
End TableSelection.
Arguments RowWithKey : clear implicits.

End DataTable.

(* ===================================================================== *)
(** * The platform: ECMAScript [Date] and the date-fns functions used *)
(* ===================================================================== *)

(** [Date] objects and date-fns are not code of this repository. They
    are modelled after the ECMAScript specification (section "Date
    Objects": Day, TimeWithinDay, DaysInYear, DayFromYear, YearFromTime,
    MonthFromTime, DateFromTime, WeekDay, MakeTime, MakeDay, MakeDate)
    and after the date-fns sources, in two layers.

    [JSDate], here, is the arithmetic of the calendar. A [Date] of
    this module is a valid date, given by a time value that is any
    integer, and the methods read and write that time value as a local
    time: they are the methods of a [Date] object for as long as no
    date leaves the range of time values and local time keeps one
    offset from UTC. Comparing two dates by their instants, as
    [isBefore] and [isAfter] do, depends on neither.

    [Host], further down, has the [Date] objects themselves: a time
    value that is at most 8.64e15 ms either way or NaN (an Invalid
    Date), local time through LocalTime and UTC for any time zone, and
    TimeClip in every setter.

    A [Date] object that the source mutates after copying it
    ([new Date(x)] then [setDate]) is a value in both, and the setter
    returns the new value. *)

Module JSDate.

Definition msPerDay : Z := 86400000.

Record Date : Type := mkDate { getTime : Z }.

Definition Day (t : Z) : Z := t / msPerDay.
Definition TimeWithinDay (t : Z) : Z := t mod msPerDay.

Definition DaysInYear (y : Z) : Z :=
  if negb (y mod 4 =? 0) then 365
  else if negb (y mod 100 =? 0) then 366
  else if negb (y mod 400 =? 0) then 365
  else 366.

Definition InLeapYear (y : Z) : Z := DaysInYear y - 365.

(** The day number of the first day of year [y]. *)
Definition DayFromYear (y : Z) : Z :=
  365 * (y - 1970) + (y - 1969) / 4 - (y - 1901) / 100 + (y - 1601) / 400.

(** The specification asks for the largest [y] with
    [DayFromYear y <= d]; this computes it from an estimate that is off
    by at most one year ([YearFromDay_spec] below). *)
Definition YearFromDay (d : Z) : Z :=
  let y := 1970 + (400 * d) / 146097 in
  if d <? DayFromYear y then y - 1
  else if d <? DayFromYear (y + 1) then y
  else y + 1.

Definition DayWithinYear (d : Z) : Z := d - DayFromYear (YearFromDay d).

(** The day within the year on which month [m] (0 = January) starts;
    [leap] is 1 in a leap year and 0 otherwise. Month 12 stands for
    the start of the next year. *)
Definition monthStart (leap m : Z) : Z :=
  if m <=? 0 then 0
  else if m =? 1 then 31
  else if m =? 2 then 59 + leap
  else if m =? 3 then 90 + leap
  else if m =? 4 then 120 + leap
  else if m =? 5 then 151 + leap
  else if m =? 6 then 181 + leap
  else if m =? 7 then 212 + leap
  else if m =? 8 then 243 + leap
  else if m =? 9 then 273 + leap
  else if m =? 10 then 304 + leap
  else if m =? 11 then 334 + leap
  else 365 + leap.

(** MonthFromTime's table, on the day within the year. *)
Definition monthOfDay (leap dwy : Z) : Z :=
  if dwy <? 31 then 0
  else if dwy <? 59 + leap then 1
  else if dwy <? 90 + leap then 2
  else if dwy <? 120 + leap then 3
  else if dwy <? 151 + leap then 4
  else if dwy <? 181 + leap then 5
  else if dwy <? 212 + leap then 6
  else if dwy <? 243 + leap then 7
  else if dwy <? 273 + leap then 8
  else if dwy <? 304 + leap then 9
  else if dwy <? 334 + leap then 10
  else 11.

Definition YearFromTime (t : Z) : Z := YearFromDay (Day t).
Definition MonthFromTime (t : Z) : Z :=
  monthOfDay (InLeapYear (YearFromTime t)) (DayWithinYear (Day t)).
Definition DateFromTime (t : Z) : Z :=
  DayWithinYear (Day t)
  - monthStart (InLeapYear (YearFromTime t)) (MonthFromTime t) + 1.
Definition WeekDay (t : Z) : Z := (Day t + 4) mod 7.

Definition MakeTime (hour min sec ms : Z) : Z :=
  hour * 3600000 + min * 60000 + sec * 1000 + ms.

(** The day number of day [date] of month [month] of [year]; months and
    days outside their range carry over. *)
Definition MakeDay (year month date : Z) : Z :=
  let ym := year + month / 12 in
  let mn := month mod 12 in
  DayFromYear ym + monthStart (InLeapYear ym) mn + date - 1.

Definition MakeDate (day time : Z) : Z := day * msPerDay + time.

(** The calendar day a date falls on, as a day number. *)
Definition dayOf (d : Date) : Z := Day (getTime d).

(** *** Methods of [Date] *)

Definition getFullYear (d : Date) : Z := YearFromTime (getTime d).
Definition getMonth (d : Date) : Z := MonthFromTime (getTime d).
Definition getDate (d : Date) : Z := DateFromTime (getTime d).
Definition getDay (d : Date) : Z := WeekDay (getTime d).

Definition setDate (d : Date) (dt : Z) : Date :=
  mkDate (MakeDate (MakeDay (getFullYear d) (getMonth d) dt)
                   (TimeWithinDay (getTime d))).

Definition setFullYear (d : Date) (y m dt : Z) : Date :=
  mkDate (MakeDate (MakeDay y m dt) (TimeWithinDay (getTime d))).

Definition setHours (d : Date) (h m s ms : Z) : Date :=
  mkDate (MakeDate (Day (getTime d)) (MakeTime h m s ms)).

(** *** date-fns *)

Definition isBefore (date dateToCompare : Date) : bool :=
  getTime date <? getTime dateToCompare.

Definition isAfter (date dateToCompare : Date) : bool :=
  getTime dateToCompare <? getTime date.

Definition startOfDay (d : Date) : Date := setHours d 0 0 0 0.

Definition isSameDay (a b : Date) : bool :=
  getTime (startOfDay a) =? getTime (startOfDay b).

Definition isSameMonth (a b : Date) : bool :=
  (getFullYear a =? getFullYear b) && (getMonth a =? getMonth b).

Definition startOfMonth (d : Date) : Date :=
  setHours (setDate d 1) 0 0 0 0.

Definition endOfMonth (d : Date) : Date :=
  setHours (setFullYear d (getFullYear d) (getMonth d + 1) 0) 23 59 59 999.

(** [while (+currentDate <= endTime) { dates.push(toDate(currentDate));
    currentDate.setDate(currentDate.getDate() + 1);
    currentDate.setHours(0, 0, 0, 0) }]. Each turn advances the date by
    one day, so the loop makes one turn per day of the interval;
    [fuel] bounds the number of turns. *)
Fixpoint eachDayLoop (fuel : nat) (currentDate : Date) (endTime : Z)
  : list Date :=
  match fuel with
  | O => []
  | S fuel' =>
      if getTime currentDate <=? endTime then
        currentDate ::
          eachDayLoop fuel'
            (setHours (setDate currentDate (getDate currentDate + 1)) 0 0 0 0)
            endTime
      else []
  end.

(** [eachDayOfInterval({ start, end })] for [start <= end], with as much
    fuel as the interval has days. *)
Definition eachDayOfInterval (start end_ : Date) : list Date :=
  let currentDate := setHours start 0 0 0 0 in
  eachDayLoop
    (Z.to_nat (Day (getTime end_) - Day (getTime currentDate) + 1))
    currentDate (getTime end_).

End JSDate.

(* ===================================================================== *)
(** * DateRangePicker/utils.ts and DayCell.tsx *)
(* ===================================================================== *)

Module DateRangePicker.
Import JSDate.

Record DateRangeValue : Type := mkRange {
  from : option Date;
  to : option Date
}.

(** ['none' | 'past' | 'future' | ((date: Date) => boolean)] *)
Inductive DisabledDateStrategy : Type :=
| StrategyNone
| StrategyPast
| StrategyFuture
| StrategyFn (f : Date -> bool).

Definition isSameDate (date1 date2 : option Date) : bool :=
  match date1, date2 with
  | Some a, Some b => isSameDay a b
  | _, _ => false
  end.

Definition isDateInRange (date : Date) (range : DateRangeValue) : bool :=
  match from range, to range with
  | Some f, Some t =>
      let start := if isBefore f t then f else t in
      let end_ := if isAfter f t then f else t in
      negb (isBefore date start) && negb (isAfter date end_)
  | _, _ => false
  end.

Definition isRangeStart (date : Date) (range : DateRangeValue) : bool :=
  match from range with
  | Some f => isSameDate (Some date) (Some f)
  | None => false
  end.

Definition isRangeEnd (date : Date) (range : DateRangeValue) : bool :=
  match to range with
  | Some t => isSameDate (Some date) (Some t)
  | None => false
  end.

(** [isDateDisabled]; [now] is what [new Date()] returns when the
    function runs. An absent optional argument is [None]. *)
Definition isDateDisabled (now : Date) (date : Date)
    (strategy : option DisabledDateStrategy)
    (minDate maxDate : option Date)
    (customPredicate : option (Date -> bool)) : bool :=
  if match customPredicate with Some p => p date | None => false end then true
  else if match minDate with Some m => isBefore date m | None => false end
  then true
  else if match maxDate with Some m => isAfter date m | None => false end
  then true
  else
    match strategy with
    | Some StrategyNone => false
    | Some StrategyPast => isBefore date now
    | Some StrategyFuture => isAfter date now
    | Some (StrategyFn f) => f date
    | None => false
    end.

(** The disabling policy in the words of the specification: what it
    means for the named strategy to match a date, relative to the
    current date [now]. *)
Definition strategyMatches (now date : Date)
    (strategy : option DisabledDateStrategy) : Prop :=
  match strategy with
  | Some StrategyPast => getTime date < getTime now
  | Some StrategyFuture => getTime now < getTime date
  | Some (StrategyFn f) => f date = true
  | Some StrategyNone => False
  | None => False
  end.

(** The policy as the specification words it: a disjunction of four
    conditions. *)
Definition disabledBySpec (now date : Date)
    (strategy : option DisabledDateStrategy)
    (minDate maxDate : option Date)
    (customPredicate : option (Date -> bool)) : Prop :=
  (exists p, customPredicate = Some p /\ p date = true) \/
  (exists m, minDate = Some m /\ getTime date < getTime m) \/
  (exists m, maxDate = Some m /\ getTime m < getTime date) \/
  strategyMatches now date strategy.

(** Each date of [l] falls on the calendar day after the one before
    it, and is later in time. *)
Definition consecutiveDays (l : list Date) : Prop :=
  forall (i : nat) (a b : Date),
    l !! i = Some a -> l !! S i = Some b ->
    dayOf b = dayOf a + 1 /\ getTime a < getTime b.

(** The calendar day of [d] is the day of exactly one position of [l]. *)
Definition appearsOnce (d : Date) (l : list Date) : Prop :=
  exists i : nat,
    (exists x, l !! i = Some x /\ isSameDay x d = true) /\
    (forall (j : nat) (y : Date),
        l !! j = Some y -> isSameDay y d = true -> j = i).

(** [for (let i = daysToPrepend; i > 0; i--)]: [i] counts down. *)
Fixpoint prependLoop (prevMonthEnd : Date) (i : nat) : list Date :=
  match i with
  | O => []
  | S i' =>
      setDate prevMonthEnd (getDate prevMonthEnd - Z.of_nat i + 1)
        :: prependLoop prevMonthEnd i'
  end.

(** [for (let i = 0; i < daysToAppend; i++)]: [n] turns are left. *)
Fixpoint appendLoop (nextMonthStart : Date) (i : Z) (n : nat) : list Date :=
  match n with
  | O => []
  | S n' =>
      setDate nextMonthStart (getDate nextMonthStart + i)
        :: appendLoop nextMonthStart (i + 1) n'
  end.

(** [days.slice(i, j)] for [0 <= i <= j]. *)
Definition slice {A} (l : list A) (i j : nat) : list A :=
  take (j - i) (drop i l).

(** [for (let i = 0; i < days.length; i += 7)
       weeks.push(days.slice(i, i + 7))]; [fuel] bounds the turns. *)
Fixpoint weeksLoop (fuel : nat) (i : nat) (days : list Date)
  : list (list Date) :=
  match fuel with
  | O => []
  | S fuel' =>
      if (i <? length days)%nat
      then slice days i (i + 7) :: weeksLoop fuel' (i + 7) days
      else []
  end.

(** [getDaysInMonth] on the dates of [JSDate]: the grid for as long as
    no date leaves the range and local time keeps one offset.
    [Host.getDaysInMonth] is the function on [Date] objects. *)
Definition getDaysInMonth (month : Date) (showOutsideDays : bool)
  : list (list Date) :=
  let start := startOfMonth month in
  let end_ := endOfMonth month in
  let firstDayOfWeek := getDay start in
  let lastDayOfWeek := getDay end_ in
  let daysToPrepend := firstDayOfWeek in
  let daysToAppend := 6 - lastDayOfWeek in
  let daysInMonth := eachDayOfInterval start end_ in
  let days :=
    if showOutsideDays && (0 <? daysToPrepend) then
      let prevMonthEnd := setDate start 0 in
      prependLoop prevMonthEnd (Z.to_nat daysToPrepend)
    else [] in
  let days := days ++ daysInMonth in
  let days :=
    if showOutsideDays && (0 <? daysToAppend) then
      let nextMonthStart := setDate end_ (getDate end_ + 1) in
      days ++ appendLoop nextMonthStart 0 (Z.to_nat daysToAppend)
    else days in
  weeksLoop (length days) 0 days.

(** The first and the last day of the month of [month], as day
    numbers, and the number of days of the neighbouring months that
    complete its first and last week. *)
Definition monthFirstDay (month : Date) : Z := dayOf month - getDate month + 1.
Definition monthLastDay (month : Date) : Z :=
  MakeDay (getFullYear month) (getMonth month + 1) 0.
Definition daysBefore (month : Date) : Z := (monthFirstDay month + 4) mod 7.
Definition daysAfter (month : Date) : Z := 6 - (monthLastDay month + 4) mod 7.

(** The list [days] of [getDaysInMonth] before it is cut into weeks,
    written without the tests [daysToPrepend > 0] and
    [daysToAppend > 0] (a loop of zero turns adds nothing). *)
Definition daysOf (month : Date) (showOutsideDays : bool) : list Date :=
  let start := startOfMonth month in
  let end_ := endOfMonth month in
  (if showOutsideDays
   then prependLoop (setDate start 0) (Z.to_nat (getDay start))
   else [])
  ++ eachDayOfInterval start end_
  ++ (if showOutsideDays
      then appendLoop (setDate end_ (getDate end_ + 1)) 0
             (Z.to_nat (6 - getDay end_))
      else []).

(** [isToday]; [now] is what [new Date()] returns. *)
Definition isToday (now date : Date) : bool := isSameDay date now.

Definition clampDate (date : Date) (minDate maxDate : option Date) : Date :=
  match minDate with
  | Some m =>
      if isBefore date m then m
      else match maxDate with
           | Some mx => if isAfter date mx then mx else date
           | None => date
           end
  | None =>
      match maxDate with
      | Some mx => if isAfter date mx then mx else date
      | None => date
      end
  end.

(** ['long' | 'short' | 'narrow'] *)
Inductive WeekdayFormat : Type := long | short | narrow.

(** ** DayCell *)

Section DayCell.
Context {W : Type}.

Record DayCellProps : Type := mkDayCell {
  date : Date;
  isDisabled : bool;
  isFocusable : bool;
  onClick : option (Date -> W -> W);
  onMouseEnter : option (Date -> W -> W);
  onMouseLeave : option (Date -> W -> W);
  onFocus : option (Date -> W -> W)
}.

Definition call (cb : option (Date -> W -> W)) (d : Date) (w : W) : W :=
  match cb with
  | Some f => f d w
  | None => w
  end.

Definition handleClick (p : DayCellProps) (w : W) : W :=
  if negb (isDisabled p) then call (onClick p) (date p) w else w.

Definition handleMouseEnter (p : DayCellProps) (w : W) : W :=
  if negb (isDisabled p) then call (onMouseEnter p) (date p) w else w.

Definition handleMouseLeave (p : DayCellProps) (w : W) : W :=
  if negb (isDisabled p) then call (onMouseLeave p) (date p) w else w.

Definition handleFocus (p : DayCellProps) (w : W) : W :=
  if isFocusable p then call (onFocus p) (date p) w else w.

(** [onKeyDown]: space and Enter trigger the click. *)
Definition handleKeyDown (p : DayCellProps) (isSpaceOrEnter : bool) (w : W)
  : W :=
  if isSpaceOrEnter && negb (isDisabled p) then handleClick p w else w.
End DayCell.
Arguments DayCellProps : clear implicits.

End DateRangePicker.

(* ===================================================================== *)
(** * The host: [Date] objects, their range and the local time zone *)
(* ===================================================================== *)

(** A [Date] object holds a time value in UTC: an integer of at most
    [maxTime] in absolute value, or NaN, which makes it an Invalid
    Date. Its local-time methods go through LocalTime and UTC, and its
    setters through TimeClip (ECMAScript, "Date Objects"); a method of
    an Invalid Date returns NaN. The functions of [JSDate] do the
    arithmetic on the local time value. The time zone is a parameter:
    the function LocalTZA of the specification. The month grid and the
    weekday header are modelled here on these objects, statement by
    statement as in [DateRangePicker] above. *)

Module Host.
Import JSDate.

(** A Number that holds an integer, or NaN. *)
Definition Number : Type := option Z.
Definition NaN : Number := None.

(** A [Date] object, by its time value: NaN is an Invalid Date. *)
Definition DateObject : Type := Number.

(** The largest time value: 100 000 000 days from the epoch, either
    way. *)
Definition maxTime : Z := 8640000000000000.

Definition TimeClip (time : Z) : Number :=
  if maxTime <? Z.abs time then NaN else Some time.

(** [a - b], [a + k] and the comparisons of Numbers: NaN in, NaN out,
    and every comparison with NaN is false. *)
Definition sub (a b : Number) : Number :=
  match a, b with
  | Some x, Some y => Some (x - y)
  | _, _ => NaN
  end.

Definition plus (a : Number) (k : Z) : Number := option_map (fun x => x + k) a.

Definition lt (a b : Number) : bool :=
  match a, b with
  | Some x, Some y => x <? y
  | _, _ => false
  end.

Definition le (a b : Number) : bool :=
  match a, b with
  | Some x, Some y => x <=? y
  | _, _ => false
  end.

(** The number of turns of a loop that counts up to, or down from, [n]
    one by one. *)
Definition turns (n : Number) : nat :=
  match n with
  | Some k => Z.to_nat k
  | None => O
  end.

(** A zone that keeps one offset from UTC. *)
Definition fixedOffset (offset : Z) : Z -> bool -> Z := fun _ _ => offset.

(** Pacific/Apia around the end of 2011: ten hours behind UTC until
    10:00 UTC on 30 December 2011, fourteen hours ahead from then on,
    so that 30 December 2011 is no local day. A local time in the gap
    is read with the offset before the change. *)
Definition apiaChange : Z := MakeDate (MakeDay 2011 11 30) (MakeTime 10 0 0 0).
Definition apia : Z -> bool -> Z :=
  fun t isUTC =>
    if isUTC
    then if t <? apiaChange then -36000000 else 50400000
    else if t <? apiaChange + 50400000 then -36000000 else 50400000.

Section Zone.
(** [LocalTZA(t, isUTC)]: the offset of local time in milliseconds, at
    the instant [t] when [isUTC], at the local time value [t]
    otherwise. *)
Variable LocalTZA : Z -> bool -> Z.

Definition LocalTime (t : Z) : Z := t + LocalTZA t true.
Definition UTC (t : Z) : Z := t - LocalTZA t false.

(** *** Methods of [Date] *)

(** The local date and time of a valid object. *)
Definition localDate (o : DateObject) : option Date :=
  option_map (fun t => mkDate (LocalTime t)) o.

(** The object a setter leaves, from the local date and time it
    computed. *)
Definition ofLocal (d : Date) : DateObject := TimeClip (UTC (getTime d)).

Definition getFullYear (o : DateObject) : Number :=
  option_map JSDate.getFullYear (localDate o).
Definition getMonth (o : DateObject) : Number :=
  option_map JSDate.getMonth (localDate o).
Definition getDate (o : DateObject) : Number :=
  option_map JSDate.getDate (localDate o).
Definition getDay (o : DateObject) : Number :=
  option_map JSDate.getDay (localDate o).

(** The local calendar day of the object, as a day number. *)
Definition dayOf (o : DateObject) : Number :=
  option_map JSDate.dayOf (localDate o).

(** The setters return the object they leave: Invalid Date when the
    object is one, when an argument is NaN, or when the new time value
    is out of the range. *)
Definition setDate (o : DateObject) (date : Number) : DateObject :=
  match localDate o, date with
  | Some d, Some dt => ofLocal (JSDate.setDate d dt)
  | _, _ => NaN
  end.

(** [setFullYear] reads an Invalid Date as time value 0. *)
Definition setFullYear (o : DateObject) (year month : Number) (date : Z)
  : DateObject :=
  let d := match localDate o with
           | Some d => d
           | None => mkDate 0
           end in
  match year, month with
  | Some y, Some m => ofLocal (JSDate.setFullYear d y m date)
  | _, _ => NaN
  end.

Definition setHours (o : DateObject) (h m s ms : Z) : DateObject :=
  match localDate o with
  | Some d => ofLocal (JSDate.setHours d h m s ms)
  | None => NaN
  end.

(** *** date-fns

    After the sources of date-fns 3 and later, where an interval with
    an Invalid Date is an empty interval (version 2 throws a
    RangeError there). *)

Definition startOfDay (date : DateObject) : DateObject := setHours date 0 0 0 0.

Definition isSameDay (a b : DateObject) : bool :=
  match startOfDay a, startOfDay b with
  | Some x, Some y => x =? y
  | _, _ => false
  end.

Definition isSameMonth (a b : DateObject) : bool :=
  match getFullYear a, getFullYear b, getMonth a, getMonth b with
  | Some ya, Some yb, Some ma, Some mb => (ya =? yb) && (ma =? mb)
  | _, _, _, _ => false
  end.

Definition startOfMonth (date : DateObject) : DateObject :=
  setHours (setDate date (Some 1)) 0 0 0 0.

Definition endOfMonth (date : DateObject) : DateObject :=
  let month := getMonth date in
  setHours (setFullYear date (getFullYear date) (plus month 1) 0) 23 59 59 999.

(** [while (+currentDate <= endTime) { dates.push(toDate(currentDate));
    currentDate.setDate(currentDate.getDate() + step);
    currentDate.setHours(0, 0, 0, 0) }] with [step = 1]; [fuel] bounds
    the number of turns. *)
Fixpoint eachDayLoop (fuel : nat) (currentDate : DateObject) (endTime : Number)
  : list DateObject :=
  match fuel with
  | O => []
  | S fuel' =>
      if le currentDate endTime then
        currentDate ::
          eachDayLoop fuel'
            (setHours (setDate currentDate (plus (getDate currentDate) 1)) 0 0 0 0)
            endTime
      else []
  end.

(** [eachDayOfInterval({ start, end })]. The loop is given one turn
    for each local calendar day from the first date to the last, which
    is as many as it makes when every day advances the date; with an
    Invalid Date on either side its test fails at once. *)
Definition eachDayOfInterval (start end_ : DateObject) : list DateObject :=
  let reversed := lt end_ start in
  let endTime := if reversed then start else end_ in
  let currentDate := setHours (if reversed then end_ else start) 0 0 0 0 in
  let dates :=
    eachDayLoop
      (turns (plus (sub (dayOf endTime) (dayOf currentDate)) 1))
      currentDate endTime in
  if reversed then reverse dates else dates.

(** *** DateRangePicker/utils.ts on [Date] objects *)

(** [for (let i = daysToPrepend; i > 0; i--)] *)

Fixpoint prependLoop (prevMonthEnd : DateObject) (i : nat) : list DateObject :=
  match i with
  | O => []
  | S i' =>
      setDate prevMonthEnd
        (plus (sub (getDate prevMonthEnd) (Some (Z.of_nat i))) 1)
        :: prependLoop prevMonthEnd i'
  end.

(** [for (let i = 0; i < daysToAppend; i++)]: [n] turns are left. *)
Fixpoint appendLoop (nextMonthStart : DateObject) (i : Z) (n : nat)
  : list DateObject :=
  match n with
  | O => []
  | S n' =>
      setDate nextMonthStart (plus (getDate nextMonthStart) i)
        :: appendLoop nextMonthStart (i + 1) n'
  end.

Fixpoint weeksLoop (fuel : nat) (i : nat) (days : list DateObject)
  : list (list DateObject) :=
  match fuel with
  | O => []
  | S fuel' =>
      if (i <? length days)%nat
      then DateRangePicker.slice days i (i + 7) :: weeksLoop fuel' (i + 7) days
      else []
  end.

Definition getDaysInMonth (month : DateObject) (showOutsideDays : bool)
  : list (list DateObject) :=
  let start := startOfMonth month in
  let end_ := endOfMonth month in
  let firstDayOfWeek := getDay start in
  let lastDayOfWeek := getDay end_ in
  let daysToPrepend := firstDayOfWeek in
  let daysToAppend := sub (Some 6) lastDayOfWeek in
  let daysInMonth := eachDayOfInterval start end_ in
  let days :=
    if showOutsideDays && lt (Some 0) daysToPrepend then
      let prevMonthEnd := setDate start (Some 0) in
      prependLoop prevMonthEnd (turns daysToPrepend)
    else [] in
  let days := days ++ daysInMonth in
  let days :=
    if showOutsideDays && lt (Some 0) daysToAppend then
      let nextMonthStart := setDate end_ (plus (getDate end_) 1) in
      days ++ appendLoop nextMonthStart 0 (turns daysToAppend)
    else days in
  weeksLoop (length days) 0 days.

(** Each object of [l] is a valid date that falls on the local
    calendar day after the one before it, and is later in time. *)
Definition consecutiveDays (l : list DateObject) : Prop :=
  forall (i : nat) (a b : DateObject),
    l !! i = Some a -> l !! S i = Some b ->
    (exists day, dayOf a = Some day /\ dayOf b = Some (day + 1)) /\
    lt a b = true.

(** The local calendar day of [d] is the day of exactly one position
    of [l]. *)
Definition appearsOnce (d : DateObject) (l : list DateObject) : Prop :=
  exists i : nat,
    (exists x, l !! i = Some x /\ isSameDay x d = true) /\
    (forall (j : nat) (y : DateObject),
        l !! j = Some y -> isSameDay y d = true -> j = i).

Section Formatting.
(** date-fns [format(date, formatStr)] on a valid date, given by its
    time value. *)
Variable format : Z -> string -> string.

(** [if (!isValid(date)) return ''; return format(date, formatStr)] *)
Definition formatDate (date : DateObject) (formatStr : string) : string :=
  match date with
  | Some t => format t formatStr
  | None => EmptyString
  end.

Fixpoint weekdaysLoop (sunday : DateObject) (pattern : string) (i : Z) (n : nat)
  : list string :=
  match n with
  | O => []
  | S n' =>
      formatDate (setDate sunday (plus (getDate sunday) i)) pattern
        :: weekdaysLoop sunday pattern (i + 1) n'
  end.

(** [getWeekdays]; [now] is what [new Date()] returns. *)
Definition getWeekdays (fmt : DateRangePicker.WeekdayFormat) (now : DateObject)
  : list string :=
  let sunday := setDate now (sub (getDate now) (getDay now)) in
  weekdaysLoop sunday
    (match fmt with
     | DateRangePicker.long => "EEEE"
     | DateRangePicker.short => "EEE"
     | DateRangePicker.narrow => "EEEEE"
     end)
    0 7.
End Formatting.
End Zone.

(** In the zone at [offset]: the object whose local date and time is
    [d], and what it takes for a setter to leave that object, its time
    value in the range of [Date]. *)
Definition objectAt (offset : Z) (d : Date) : DateObject := Some (getTime d - offset).
Definition inRange (offset : Z) (d : Date) : Prop :=
  Z.abs (getTime d - offset) <= maxTime.

(** [d] falls within thirty-eight days of [m]. *)
Definition near (m d : Date) : Prop :=
  JSDate.dayOf m - 38 <= JSDate.dayOf d <= JSDate.dayOf m + 38.

(** The zone keeps the offset [offset] for forty days before and after
    the instant [time]: at the instants of that stretch, and at the
    local times of that stretch. *)
Definition steady (LocalTZA : Z -> bool -> Z) (offset time : Z) : Prop :=
  forall t : Z,
    (Z.abs (t - time) <= 40 * msPerDay -> LocalTZA t true = offset) /\
    (Z.abs (t - (time + offset)) <= 40 * msPerDay -> LocalTZA t false = offset).

End Host.

(* ===================================================================== *)
(** * Button/Button.tsx *)
(* ===================================================================== *)

Module Button.

Section Button.
Context {W : Type}.
(** [React.MouseEvent<HTMLButtonElement>] *)
Variable MouseEvent : Type.

(** The props that decide what a click does. [disabled] is optional;
    absent, it is as good as [false] in [disabled || loading]. *)
Record ButtonProps : Type := mkProps {
  loading : bool;
  disabled : bool;
  onClick : option (MouseEvent -> W -> W)
}.

Definition isDisabled (p : ButtonProps) : bool := disabled p || loading p.

(** [if (loading) return; onClick?.(e);] *)
Definition handleClick (p : ButtonProps) (e : MouseEvent) (w : W) : W :=
  if loading p then w
  else match onClick p with
       | Some f => f e w
       | None => w
       end.

(** The attributes of the rendered [<button>] that matter here. *)
Record ButtonElement : Type := mkElement {
  el_disabled : bool;
  el_onClick : MouseEvent -> W -> W;
  el_aria_busy : bool;
  el_aria_disabled : bool
}.

Definition render (p : ButtonProps) : ButtonElement :=
  mkElement (isDisabled p) (handleClick p) (loading p) (isDisabled p).

(** The platform: neither the browser nor React delivers a click to
    a button element whose [disabled] attribute is set. *)
Definition click (el : ButtonElement) (e : MouseEvent) (w : W) : W :=
  if el_disabled el then w else el_onClick el e w.
End Button.

End Button.

(* ===================================================================== *)
(** * Modal/hooks.ts and Modal.tsx *)
(* ===================================================================== *)

Module Modal.

(** ** The page *)

(** A DOM element, by identity. *)
Definition Element : Type := nat.

(** What the focus trap reads and writes of the page: the elements the
    Tab key visits, in document order, the elements that can take
    focus (a disabled control and a hidden element cannot), the element
    that has focus, and the [keydown] listener the trap registered,
    with the two elements its closure captured. *)
Record Listener : Type := mkListener {
  firstElement : Element;
  lastElement : Element
}.

Record Page : Type := mkPage {
  tabOrder : list Element;
  focusable : list Element;
  activeElement : option Element;
  keydownListener : option Listener
}.

(** [el.focus()]: focus moves to [el] when [el] can take it; on any
    other element the call does nothing. *)
Definition focus (el : Element) (pg : Page) : Page :=
  if bool_decide (el ∈ focusable pg)
  then mkPage (tabOrder pg) (focusable pg) (Some el) (keydownListener pg)
  else pg.

Record KeyboardEvent : Type := mkKey { key : string; shiftKey : bool }.

(** The element after [a] in [l], if [a] is in [l] and not its last. *)
Fixpoint nextIn (l : list Element) (a : Element) : option Element :=
  match l with
  | x :: rest =>
      if Nat.eqb x a then head rest else nextIn rest a
  | [] => None
  end.

(** The platform's sequential focus navigation: Tab moves focus to the
    next element of the tab order and Shift+Tab to the previous one,
    wrapping around at the ends. *)
Definition sequentialNext (order : list Element) (a : option Element)
  : option Element :=
  match a with
  | Some x =>
      match nextIn order x with
      | Some y => Some y
      | None => head order
      end
  | None => head order
  end.

Definition defaultTab (shift : bool) (pg : Page) : Page :=
  mkPage (tabOrder pg) (focusable pg)
         (if shift then sequentialNext (reverse (tabOrder pg)) (activeElement pg)
          else sequentialNext (tabOrder pg) (activeElement pg))
         (keydownListener pg).

(** ** useFocusTrap *)

(** [handleKeyDown]: the page after the handler, and whether it called
    [e.preventDefault()]. *)
Definition handleKeyDown (l : Listener) (e : KeyboardEvent) (pg : Page)
  : Page * bool :=
  if negb (String.eqb (key e) "Tab") then (pg, false)
  else if shiftKey e then
    if bool_decide (activeElement pg = Some (firstElement l))
    then (focus (lastElement l) pg, true)
    else (pg, false)
  else
    if bool_decide (activeElement pg = Some (lastElement l))
    then (focus (firstElement l) pg, true)
    else (pg, false).

(** A key press: the registered listener runs, then the default action
    of the key unless the listener prevented it. Only Tab has a default
    action on focus. *)
Definition keydown (e : KeyboardEvent) (pg : Page) : Page :=
  let '(pg', prevented) :=
    match keydownListener pg with
    | Some l => handleKeyDown l e pg
    | None => (pg, false)
    end in
  if prevented then pg'
  else if String.eqb (key e) "Tab" then defaultTab (shiftKey e) pg'
  else pg'.

(** The hook's [useRef] cell and whether the effect returned a cleanup. *)
Record Trap : Type := mkTrap {
  previouslyFocusedElement : option Element;
  hasCleanup : bool
}.

Definition initialTrap : Trap := mkTrap None false.

(** The body of the effect. [container] is [containerRef.current],
    given by what [querySelectorAll] finds in it for the selector
    [button, [href], input, select, textarea, [tabindex]] (without
    [tabindex = -1]), in document order. The selector goes by tag and
    attribute: it also finds a disabled button, which is neither in
    the tab order nor able to take focus. *)
Definition effect (isOpen trapFocus : bool) (container : option (list Element))
    (t : Trap) (pg : Page) : Trap * Page :=
  if negb isOpen || negb trapFocus then (mkTrap (previouslyFocusedElement t) false, pg)
  else
    match container with
    | None => (mkTrap (previouslyFocusedElement t) false, pg)
    | Some focusableElements =>
        let saved := activeElement pg in
        match focusableElements with
        | [] => (mkTrap saved false, pg)
        | firstElement :: _ =>
            let lastElement := List.last focusableElements firstElement in
            let pg1 := focus firstElement pg in
            (mkTrap saved true,
             mkPage (tabOrder pg1) (focusable pg1) (activeElement pg1)
                    (Some (mkListener firstElement lastElement)))
        end
    end.

(** The cleanup the effect returned, run when the modal closes. *)
Definition cleanup (t : Trap) (pg : Page) : Page :=
  if hasCleanup t then
    let pg1 := mkPage (tabOrder pg) (focusable pg) (activeElement pg) None in
    match previouslyFocusedElement t with
    | Some el => focus el pg1
    | None => pg1
    end
  else pg.

(** Focus is trapped in a dialog whose focusable elements are [inside]:
    the trap's listener is registered and the element that has focus
    is one of [inside]. *)
Definition trapped (order canFocus inside : list Element) (l : Listener)
    (pg : Page) : Prop :=
  tabOrder pg = order /\
  focusable pg = canFocus /\
  keydownListener pg = Some l /\
  exists x, activeElement pg = Some x /\ x ∈ inside.

(** A run of key presses, oldest first. *)
Definition keydowns (es : list KeyboardEvent) (pg : Page) : Page :=
  fold_left (fun p e => keydown e p) es pg.

(** ** useScrollLock *)

(** The two properties of [document.body.style] the hook touches. *)
Record BodyStyle : Type := mkBody { overflow : string; paddingRight : string }.

(** [window.innerWidth] and [document.documentElement.clientWidth]. *)
Record Viewport : Type := mkViewport { innerWidth : Z; clientWidth : Z }.

(** The body of the effect: the style it leaves, and the two values
    its cleanup closure saved ([None]: the effect returned early, with
    no cleanup). *)
Definition scrollLockEffect (isOpen lockScroll : bool) (vp : Viewport)
    (body : BodyStyle) : BodyStyle * option (string * string) :=
  if negb isOpen || negb lockScroll then (body, None)
  else
    let originalOverflow := overflow body in
    let originalPaddingRight := paddingRight body in
    let scrollbarWidth := innerWidth vp - clientWidth vp in
    (mkBody "hidden"
            (if 0 <? scrollbarWidth
             then pretty scrollbarWidth +:+ "px"
             else paddingRight body),
     Some (originalOverflow, originalPaddingRight)).

Definition scrollLockCleanup (saved : option (string * string))
    (body : BodyStyle) : BodyStyle :=
  match saved with
  | Some (originalOverflow, originalPaddingRight) =>
      mkBody originalOverflow originalPaddingRight
  | None => body
  end.

(** ** useEscapeKey and useClickOutside *)

Section Closing.
Context {W : Type}.
(** [onClose: () => void] *)
Variable onClose : W -> W.

(** [useEscapeKey]'s handler: the world after it, and whether it
    called [e.stopPropagation()]. *)
Definition escapeKeyDown (closeOnEsc : bool) (e : KeyboardEvent) (w : W)
  : W * bool :=
  if String.eqb (key e) "Escape" && closeOnEsc then (onClose w, true)
  else (w, false).

(** The [keydown] listener [useEscapeKey] has on the document: none
    while the modal is closed. *)
Definition escapeListener (isOpen closeOnEsc : bool) (e : KeyboardEvent)
    (w : W) : W * bool :=
  if isOpen then escapeKeyDown closeOnEsc e w else (w, false).

(** [useClickOutside]'s handler. [container] is [containerRef.current],
    given by the nodes it contains (itself included); [target] is
    [e.target]. *)
Definition clickOutsideHandler (closeOnOverlayClick : bool)
    (container : option (list Element)) (target : Element) (w : W)
  : W * bool :=
  if negb closeOnOverlayClick then (w, false)
  else match container with
       | None => (w, false)
       | Some nodes =>
           if negb (bool_decide (target ∈ nodes)) then (onClose w, true)
           else (w, false)
       end.

(** The [mousedown] listener [useClickOutside] has on the document. *)
Definition clickOutsideListener (isOpen closeOnOverlayClick : bool)
    (container : option (list Element)) (target : Element) (w : W)
  : W * bool :=
  if isOpen then clickOutsideHandler closeOnOverlayClick container target w
  else (w, false).
End Closing.

(** ** Modal.CloseButton *)

Section CloseButton.
Context {W : Type}.

(** [interface ModalContextType { onClose?: () => void }] *)
Record ModalContextType : Type := mkContext {
  ctx_onClose : option (W -> W)
}.

(** [createContext<ModalContextType>({})]: what [useContext] returns
    outside a [Modal]. *)
Definition defaultContext : ModalContextType := mkContext None.

(** The value [Modal] provides: [{ onClose: handleClose }] with
    [handleClose = () => onClose()]. *)
Definition providedContext (onClose : W -> W) : ModalContextType :=
  mkContext (Some (fun w => onClose w)).

Record ModalCloseButtonProps : Type := mkCloseProps {
  className : string;
  onClose : option (W -> W)
}.

(** The rendered [<button type="button" onClick={handleClose}
    aria-label="Close modal">]. *)
Record CloseButtonElement : Type := mkCloseButton {
  btn_onClick : W -> W;
  btn_ariaLabel : string
}.

Definition warning : string :=
  "Modal.CloseButton used outside of Modal component or without onClose handler".

(** The component: what it renders ([None] is [null]) and the
    console after it ran. *)
Definition ModalCloseButton (props : ModalCloseButtonProps)
    (context : ModalContextType) (console : list string)
  : option CloseButtonElement * list string :=
  let handleClose :=
    match onClose props with
    | Some h => Some h
    | None => ctx_onClose context
    end in
  match handleClose with
  | None => (None, console ++ [warning])
  | Some h => (Some (mkCloseButton h "Close modal"), console)
  end.
End CloseButton.
Arguments ModalContextType : clear implicits.
Arguments ModalCloseButtonProps : clear implicits.
Arguments CloseButtonElement : clear implicits.

End Modal.

(* ===================================================================== *)
(** * Properties *)
(* ===================================================================== *)

(** ** DataTable: sorting *)

Lemma nextSort_other_key (k : string) (prev : DataTable.SortState) :
  DataTable.key prev <> k ->
  DataTable.nextSort k prev = DataTable.mkSort k (Some DataTable.asc).
Proof.
  intros Hne. unfold DataTable.nextSort.
  destruct (String.eqb_spec (DataTable.key prev) k) as [Heq | _]; [contradiction | reflexivity].
Qed.

Lemma nextSort_same_key (k : string) (prev : DataTable.SortState) :
  DataTable.key prev = k ->
  DataTable.nextSort k prev =
    DataTable.mkSort k (DataTable.flip (DataTable.direction prev)).
Proof.
  intros Heq. unfold DataTable.nextSort, DataTable.flip.
  destruct (String.eqb_spec (DataTable.key prev) k) as [_ | Hne]; [| contradiction].
  simpl. destruct (DataTable.direction prev) as [[|]|]; reflexivity.
Qed.

(** With a callback that records what it is handed (newest first), the
    record after a run of clicks is the list of the stored states. *)
Lemma clicks_recorded (ks : list string) (s : DataTable.SortState)
    (log : list DataTable.SortState) :
  snd (DataTable.clicks (Some (fun x l => x :: l)) ks (s, log))
  = rev (DataTable.sortTrace ks s) ++ log.
Proof.
  revert s log. induction ks as [| k ks IH]; intros s log; [reflexivity |].
  unfold DataTable.clicks in *. cbn [fold_left DataTable.sortTrace rev].
  unfold DataTable.handleSort at 2. cbn [fst snd DataTable.notifySort].
  rewrite IH. rewrite <- app_assoc. reflexivity.
Qed.

Lemma last_cons_default {A} (a d : A) (l : list A) :
  List.last (a :: l) d = List.last l a.
Proof.
  revert a d. induction l as [| b l IH]; intros a d; [reflexivity |].
  change (List.last (b :: l) d = List.last (b :: l) a).
  rewrite (IH b d), (IH b a). reflexivity.
Qed.

(** The state left in the hook after a run of clicks is the last one
    computed, whatever the callback does. *)
Lemma clicks_stored {W} (cb : option (DataTable.SortState -> W -> W))
    (ks : list string) (s : DataTable.SortState) (w : W) :
  fst (DataTable.clicks cb ks (s, w)) = List.last (DataTable.sortTrace ks s) s.
Proof.
  revert s w. induction ks as [| k ks IH]; intros s w; [reflexivity |].
  unfold DataTable.clicks in *. cbn [fold_left DataTable.sortTrace].
  unfold DataTable.handleSort at 2. cbn [fst snd].
  rewrite IH. rewrite last_cons_default. reflexivity.
Qed.

(** C2. Whatever clicks came before, a click on column [k] stores
    [(k, asc)] when [k] is not the sorted column and [(k, flipped
    direction)] when it is, where flipping sends [asc] to [desc] and
    both [desc] and [null] to [asc]; the stored state is the one handed
    to [onSortChange], and a recording callback ends up with exactly
    the stored states. *)
Theorem C2_handleSort_toggles :
  forall (W : Type) (cb : DataTable.SortState -> W -> W)
         (initialSort : option DataTable.SortState) (w0 : W)
         (ks : list string) (k : string),
    let st := DataTable.clicks (Some cb) ks
                (DataTable.initialSortState initialSort, w0) in
    let st' := DataTable.handleSort (Some cb) k st in
    (DataTable.key (fst st) <> k ->
       fst st' = DataTable.mkSort k (Some DataTable.asc)) /\
    (DataTable.key (fst st) = k ->
       fst st' = DataTable.mkSort k (DataTable.flip (DataTable.direction (fst st)))) /\
    DataTable.flip (Some DataTable.asc) = Some DataTable.desc /\
    DataTable.flip (Some DataTable.desc) = Some DataTable.asc /\
    DataTable.flip None = Some DataTable.asc /\
    snd st' = cb (fst st') (snd st) /\
    (forall s0 log,
       snd (DataTable.clicks (Some (fun x l => x :: l)) (ks ++ [k]) (s0, log))
       = rev (DataTable.sortTrace (ks ++ [k]) s0) ++ log) /\
    (forall s0 (w : unit),
       fst (DataTable.clicks None (ks ++ [k]) (s0, w))
       = List.last (DataTable.sortTrace (ks ++ [k]) s0) s0).
Proof.
  intros W cb initialSort w0 ks k st st'.
  repeat split.
  - intros Hne. apply nextSort_other_key. exact Hne.
  - intros Heq. apply nextSort_same_key. exact Heq.
  - intros s0 log. apply clicks_recorded.
  - intros s0 w. apply clicks_stored.
Qed.

(** ** DataTable: pagination *)

(** [ceil_div a b] is the least integer [n] with [a <= n * b]. *)
Lemma ceil_div_spec (a b : Z) :
  0 < b ->
  a <= DataTable.ceil_div a b * b /\ (DataTable.ceil_div a b - 1) * b < a.
Proof.
  intros Hb. unfold DataTable.ceil_div.
  pose proof (Z.div_mod (- a) b ltac:(lia)) as Hdm.
  pose proof (Z.mod_pos_bound (- a) b Hb) as Hm.
  nia.
Qed.

Lemma ceil_div_unique (a b n : Z) :
  0 < b -> a <= n * b -> (n - 1) * b < a -> DataTable.ceil_div a b = n.
Proof.
  intros Hb H1 H2. destruct (ceil_div_spec a b Hb) as [H3 H4]. nia.
Qed.

Lemma ceil_div_nonneg (a b : Z) : 0 < b -> 0 <= a -> 0 <= DataTable.ceil_div a b.
Proof.
  intros Hb Ha. destruct (ceil_div_spec a b Hb) as [H3 H4]. nia.
Qed.

(** What a page request is clamped to lies in [1 .. totalPages] as soon
    as there is a page at all. *)
Lemma clamp_in_range (p tp : Z) :
  1 <= tp -> 1 <= Z.max 1 (Z.min p tp) <= tp.
Proof. lia. Qed.

(** Every action hands the recording parent at most two pages, each
    within [1 .. totalPages]. *)
Lemma runAction_delivers_in_range (p ps t : Z) (loc : DataTable.PaginationLocal)
    (a : DataTable.PageAction) (log : list Z) :
  let cfg := Some (DataTable.recordingConfig p ps t) in
  1 <= DataTable.totalPages cfg loc ->
  exists new,
    snd (DataTable.runAction cfg a (loc, log)) = new ++ log /\
    Forall (fun q => 1 <= q <= DataTable.totalPages cfg loc) new.
Proof.
  intros cfg Htp.
  assert (Hc : forall q, 1 <= Z.max 1 (Z.min q (DataTable.totalPages cfg loc))
                         <= DataTable.totalPages cfg loc)
    by (intros q; apply clamp_in_range; exact Htp).
  destruct a as [q | s | |]; cbn [DataTable.runAction fst snd].
  - exists [Z.max 1 (Z.min q (DataTable.totalPages cfg loc))]. split; [reflexivity |].
    constructor; [apply Hc | constructor].
  - exists [1]. split; [reflexivity |]. constructor; [lia | constructor].
  - unfold DataTable.handleNextPage.
    destruct (DataTable.page cfg loc <? DataTable.totalPages cfg loc).
    + eexists [_]. split; [reflexivity |]. constructor; [apply Hc | constructor].
    + exists []. split; [reflexivity | constructor].
  - unfold DataTable.handlePrevPage.
    destruct (1 <? DataTable.page cfg loc).
    + eexists [_]. split; [reflexivity |]. constructor; [apply Hc | constructor].
    + exists []. split; [reflexivity | constructor].
Qed.

(** C4. For a configuration with [total >= 0] and [pageSize >= 1]:
    [totalPages] is the ceiling of [total / pageSize] (the least [n]
    with [total <= n * pageSize]); [startIndex] and [endIndex] are the
    stated expressions; [setPage p] hands [onPageChange] the clamped
    page [max 1 (min p totalPages)]; [nextPage] does so for [page + 1]
    only when [page < totalPages] and [prevPage] for [page - 1] only
    when [page > 1], and otherwise they do nothing; so every page a
    parent is handed lies in [1 .. totalPages] when [totalPages >= 1]. *)
Theorem C4_usePagination_arithmetic :
  forall (W : Type) (c : DataTable.PaginationConfig W)
         (loc : DataTable.PaginationLocal) (w : W),
    0 <= DataTable.cfg_total c ->
    1 <= DataTable.cfg_pageSize c ->
    let cfg := Some c in
    let tp := DataTable.totalPages cfg loc in
    let pg := DataTable.cfg_page c in
    let clamp := fun p => Z.max 1 (Z.min p tp) in
    (DataTable.cfg_total c <= tp * DataTable.cfg_pageSize c /\
     (tp - 1) * DataTable.cfg_pageSize c < DataTable.cfg_total c) /\
    DataTable.startIndex cfg loc = (pg - 1) * DataTable.cfg_pageSize c + 1 /\
    DataTable.endIndex cfg loc =
      Z.min (pg * DataTable.cfg_pageSize c) (DataTable.cfg_total c) /\
    (forall p, DataTable.handlePageChange cfg loc p (loc, w)
               = (loc, DataTable.onPageChange c (clamp p) w)) /\
    (pg < tp -> DataTable.handleNextPage cfg loc (loc, w)
                = (loc, DataTable.onPageChange c (clamp (pg + 1)) w)) /\
    (~ pg < tp -> DataTable.handleNextPage cfg loc (loc, w) = (loc, w)) /\
    (1 < pg -> DataTable.handlePrevPage cfg loc (loc, w)
               = (loc, DataTable.onPageChange c (clamp (pg - 1)) w)) /\
    (~ 1 < pg -> DataTable.handlePrevPage cfg loc (loc, w) = (loc, w)) /\
    (1 <= tp ->
     forall (a : DataTable.PageAction) (log : list Z),
     exists new,
       snd (DataTable.runAction
              (Some (DataTable.recordingConfig pg (DataTable.cfg_pageSize c)
                       (DataTable.cfg_total c))) a (loc, log)) = new ++ log /\
       Forall (fun q => 1 <= q <= tp) new).
Proof.
  intros W c loc w Htotal Hsize cfg tp pg clamp.
  split; [| split; [| split; [| split; [| split; [| split; [| split; [| split]]]]]]].
  - apply ceil_div_spec. cbn. lia.
  - reflexivity.
  - reflexivity.
  - intros p. reflexivity.
  - intros Hlt. unfold DataTable.handleNextPage.
    change (DataTable.page cfg loc) with pg.
    change (DataTable.totalPages cfg loc) with tp.
    destruct (Z.ltb_spec pg tp); [reflexivity | lia].
  - intros Hge. unfold DataTable.handleNextPage.
    change (DataTable.page cfg loc) with pg.
    change (DataTable.totalPages cfg loc) with tp.
    destruct (Z.ltb_spec pg tp); [lia | reflexivity].
  - intros Hlt. unfold DataTable.handlePrevPage.
    change (DataTable.page cfg loc) with pg.
    destruct (Z.ltb_spec 1 pg); [reflexivity | lia].
  - intros Hge. unfold DataTable.handlePrevPage.
    change (DataTable.page cfg loc) with pg.
    destruct (Z.ltb_spec 1 pg); [lia | reflexivity].
  - intros Htp a log.
    apply (runAction_delivers_in_range pg (DataTable.cfg_pageSize c)
             (DataTable.cfg_total c) loc a log).
    exact Htp.
Qed.

Lemma C4_usePagination_arithmetic_witness :
  DataTable.totalPages (Some (DataTable.recordingConfig 2 10 25)) DataTable.initialLocal = 3 /\
  DataTable.handleNextPage (Some (DataTable.recordingConfig 2 10 25))
    DataTable.initialLocal (DataTable.initialLocal, []) = (DataTable.initialLocal, [3]) /\
  DataTable.handlePageChange (Some (DataTable.recordingConfig 2 10 25))
    DataTable.initialLocal 7 (DataTable.initialLocal, []) = (DataTable.initialLocal, [3]).
Proof.
  pose proof (C4_usePagination_arithmetic (list Z)
                (DataTable.recordingConfig 2 10 25) DataTable.initialLocal []
                ltac:(cbn; lia) ltac:(cbn; lia)) as H.
  cbv zeta in H.
  destruct H as (_ & _ & _ & Hset & Hnext & _).
  split; [reflexivity |]. split.
  - rewrite Hnext; [reflexivity | vm_compute; reflexivity].
  - rewrite Hset. reflexivity.
Defined.

(** ** DataTable: row selection *)

Section SelectionFacts.
Context {T : Type}.
Variable getRowKey : option (T -> Z -> DataTable.RowKey).

Lemma addAll_elem (rows : list T) (i : Z) (acc : gset DataTable.RowKey)
    (k : DataTable.RowKey) :
  k ∈ DataTable.addAll getRowKey rows i acc
  <-> k ∈ acc \/ k ∈ DataTable.keysFrom getRowKey rows i.
Proof.
  revert i acc. induction rows as [| row rest IH]; intros i acc.
  - cbn. rewrite elem_of_nil. tauto.
  - cbn [DataTable.addAll DataTable.keysFrom].
    rewrite IH, elem_of_union, elem_of_singleton, elem_of_cons. tauto.
Qed.

Lemma toggleRow_twice (row : T) (index : Z) (sel : gset DataTable.RowKey) :
  DataTable.toggleRow true getRowKey row index None
    (DataTable.toggleRow true getRowKey row index None sel) = sel.
Proof.
  unfold DataTable.toggleRow. cbn [negb].
  set (k := DataTable.keyOf getRowKey row index).
  destruct (decide (k ∈ sel)) as [Hin | Hout].
  - rewrite (bool_decide_eq_true_2 _ Hin).
    rewrite bool_decide_eq_false_2.
    + apply set_eq. intros x.
      rewrite elem_of_union, elem_of_difference, elem_of_singleton.
      destruct (decide (x = k)) as [-> | Hne]; tauto.
    + rewrite elem_of_difference, elem_of_singleton. tauto.
  - rewrite (bool_decide_eq_false_2 _ Hout).
    rewrite bool_decide_eq_true_2.
    + apply set_eq. intros x.
      rewrite elem_of_difference, elem_of_union, elem_of_singleton.
      destruct (decide (x = k)) as [-> | Hne]; tauto.
    + rewrite elem_of_union, elem_of_singleton. tauto.
Qed.
End SelectionFacts.

(** C9. With selection disabled, [toggleRow] and [toggleAllRows] leave
    the selection as it is and [isRowSelected] answers [false]. With
    selection enabled, toggling the same row twice without a flag, the
    second time from the render that follows the first, gives the
    selection back; a flag [true] puts the row's key in and a flag
    [false] takes it out; [toggleAllRows rows true] selects exactly the
    keys of [rows] and [toggleAllRows rows false] selects nothing. *)
Theorem C9_useRowSelection_consistent :
  forall (T : Type) (getRowKey : option (T -> Z -> DataTable.RowKey))
         (sel : gset DataTable.RowKey) (row : T) (index : Z) (rows : list T),
    let k := DataTable.keyOf getRowKey row index in
    (forall flag, DataTable.toggleRow false getRowKey row index flag sel = sel) /\
    (forall b, DataTable.toggleAllRows false getRowKey rows b sel = sel) /\
    DataTable.isRowSelected false getRowKey row index sel = false /\
    DataTable.toggleRow true getRowKey row index None
      (DataTable.toggleRow true getRowKey row index None sel) = sel /\
    (DataTable.toggleRow true getRowKey row index (Some true) sel = sel ∪ {[ k ]}) /\
    (k ∈ DataTable.toggleRow true getRowKey row index (Some true) sel) /\
    (DataTable.toggleRow true getRowKey row index (Some false) sel = sel ∖ {[ k ]}) /\
    (k ∉ DataTable.toggleRow true getRowKey row index (Some false) sel) /\
    (forall x, x ∈ DataTable.toggleAllRows true getRowKey rows true sel
               <-> x ∈ DataTable.keysFrom getRowKey rows 0) /\
    DataTable.toggleAllRows true getRowKey rows false sel = ∅.
Proof.
  intros T getRowKey sel row index rows k.
  split; [| split; [| split; [| split; [| split; [| split; [| split; [| split; [| split]]]]]]]].
  - intros flag. reflexivity.
  - intros b. reflexivity.
  - reflexivity.
  - apply toggleRow_twice.
  - reflexivity.
  - cbn. rewrite elem_of_union, elem_of_singleton. right. reflexivity.
  - reflexivity.
  - cbn. rewrite elem_of_difference, elem_of_singleton. tauto.
  - intros x. unfold DataTable.toggleAllRows. cbn [negb].
    rewrite addAll_elem, elem_of_empty. tauto.
  - reflexivity.
Qed.

(** ** DateRangePicker: comparing dates *)

Lemma isBefore_lt (a b : JSDate.Date) :
  JSDate.isBefore a b = true <-> JSDate.getTime a < JSDate.getTime b.
Proof. unfold JSDate.isBefore. apply Z.ltb_lt. Qed.

Lemma isAfter_gt (a b : JSDate.Date) :
  JSDate.isAfter a b = true <-> JSDate.getTime b < JSDate.getTime a.
Proof. unfold JSDate.isAfter. apply Z.ltb_lt. Qed.

(** The early returns of [isDateDisabled] amount to a disjunction. *)
Lemma isDateDisabled_orb (now d : JSDate.Date)
    (strategy : option DateRangePicker.DisabledDateStrategy)
    (minDate maxDate : option JSDate.Date)
    (customPredicate : option (JSDate.Date -> bool)) :
  DateRangePicker.isDateDisabled now d strategy minDate maxDate customPredicate
  = match customPredicate with Some p => p d | None => false end
    || match minDate with Some m => JSDate.isBefore d m | None => false end
    || match maxDate with Some m => JSDate.isAfter d m | None => false end
    || match strategy with
       | Some DateRangePicker.StrategyPast => JSDate.isBefore d now
       | Some DateRangePicker.StrategyFuture => JSDate.isAfter d now
       | Some (DateRangePicker.StrategyFn f) => f d
       | _ => false
       end.
Proof.
  unfold DateRangePicker.isDateDisabled.
  destruct (match customPredicate with Some p => p d | None => false end);
    [reflexivity |].
  destruct (match minDate with Some m => JSDate.isBefore d m | None => false end);
    [reflexivity |].
  destruct (match maxDate with Some m => JSDate.isAfter d m | None => false end);
    [reflexivity |].
  destruct strategy as [[ | | | f] |]; reflexivity.
Qed.

Lemma custom_matches (d : JSDate.Date) (customPredicate : option (JSDate.Date -> bool)) :
  match customPredicate with Some p => p d | None => false end = true
  <-> exists p, customPredicate = Some p /\ p d = true.
Proof.
  destruct customPredicate as [p |]; split.
  - intros H. exists p. auto.
  - intros (q & Hq & H). injection Hq as <-. exact H.
  - discriminate.
  - intros (q & Hq & _). discriminate.
Qed.

Lemma min_matches (d : JSDate.Date) (minDate : option JSDate.Date) :
  match minDate with Some m => JSDate.isBefore d m | None => false end = true
  <-> exists m, minDate = Some m /\ JSDate.getTime d < JSDate.getTime m.
Proof.
  destruct minDate as [m |]; split.
  - intros H. exists m. rewrite <- isBefore_lt. auto.
  - intros (q & Hq & H). injection Hq as <-. apply isBefore_lt. exact H.
  - discriminate.
  - intros (q & Hq & _). discriminate.
Qed.

Lemma max_matches (d : JSDate.Date) (maxDate : option JSDate.Date) :
  match maxDate with Some m => JSDate.isAfter d m | None => false end = true
  <-> exists m, maxDate = Some m /\ JSDate.getTime m < JSDate.getTime d.
Proof.
  destruct maxDate as [m |]; split.
  - intros H. exists m. rewrite <- isAfter_gt. auto.
  - intros (q & Hq & H). injection Hq as <-. apply isAfter_gt. exact H.
  - discriminate.
  - intros (q & Hq & _). discriminate.
Qed.

Lemma strategy_matches (now d : JSDate.Date)
    (strategy : option DateRangePicker.DisabledDateStrategy) :
  match strategy with
  | Some DateRangePicker.StrategyPast => JSDate.isBefore d now
  | Some DateRangePicker.StrategyFuture => JSDate.isAfter d now
  | Some (DateRangePicker.StrategyFn f) => f d
  | _ => false
  end = true
  <-> DateRangePicker.strategyMatches now d strategy.
Proof.
  destruct strategy as [[ | | | f] |]; cbn [DateRangePicker.strategyMatches].
  - split; [discriminate | contradiction].
  - apply isBefore_lt.
  - apply isAfter_gt.
  - reflexivity.
  - split; [discriminate | contradiction].
Qed.

(** C1. [isDateDisabled] answers [true] exactly when the custom
    predicate holds of the date, or the date precedes [minDate], or it
    follows [maxDate], or the strategy matches: ['past'] when the date
    is before the current date, ['future'] when it is after, a function
    when it returns [true], and never for ['none'] or no strategy. *)
Theorem C1_isDateDisabled_disjunction :
  forall (now d : JSDate.Date)
         (strategy : option DateRangePicker.DisabledDateStrategy)
         (minDate maxDate : option JSDate.Date)
         (customPredicate : option (JSDate.Date -> bool)),
    DateRangePicker.isDateDisabled now d strategy minDate maxDate customPredicate = true
    <-> DateRangePicker.disabledBySpec now d strategy minDate maxDate customPredicate.
Proof.
  intros now d strategy minDate maxDate customPredicate.
  rewrite isDateDisabled_orb. unfold DateRangePicker.disabledBySpec.
  rewrite !Bool.orb_true_iff.
  rewrite custom_matches, min_matches, max_matches, strategy_matches.
  tauto.
Qed.

(** C3. For a range with both ends set, [isDateInRange] does not depend
    on the order of the ends, holds of both ends, and holds of a date
    exactly when it lies between the earlier and the later end; a range
    with an end missing contains no date. *)
Theorem C3_isDateInRange_inclusive_symmetric :
  forall (d f t : JSDate.Date),
    DateRangePicker.isDateInRange d (DateRangePicker.mkRange (Some f) (Some t))
    = DateRangePicker.isDateInRange d (DateRangePicker.mkRange (Some t) (Some f)) /\
    DateRangePicker.isDateInRange f (DateRangePicker.mkRange (Some f) (Some t)) = true /\
    DateRangePicker.isDateInRange t (DateRangePicker.mkRange (Some f) (Some t)) = true /\
    (DateRangePicker.isDateInRange d (DateRangePicker.mkRange (Some f) (Some t)) = true
     <-> Z.min (JSDate.getTime f) (JSDate.getTime t) <= JSDate.getTime d
         <= Z.max (JSDate.getTime f) (JSDate.getTime t)) /\
    (forall r, DateRangePicker.from r = None \/ DateRangePicker.to r = None ->
               DateRangePicker.isDateInRange d r = false).
Proof.
  intros d f t.
  assert (Hchar : forall x a b,
            DateRangePicker.isDateInRange x (DateRangePicker.mkRange (Some a) (Some b)) = true
            <-> Z.min (JSDate.getTime a) (JSDate.getTime b) <= JSDate.getTime x
                <= Z.max (JSDate.getTime a) (JSDate.getTime b)).
  { intros x a b. unfold DateRangePicker.isDateInRange.
    cbn [DateRangePicker.from DateRangePicker.to].
    unfold JSDate.isBefore, JSDate.isAfter.
    rewrite Bool.andb_true_iff, !Bool.negb_true_iff.
    destruct (Z.ltb_spec (JSDate.getTime a) (JSDate.getTime b));
      destruct (Z.ltb_spec (JSDate.getTime b) (JSDate.getTime a));
      rewrite !Z.ltb_ge; lia. }
  split; [| split; [| split; [| split]]].
  - apply Bool.eq_true_iff_eq. rewrite !Hchar. lia.
  - apply Hchar. lia.
  - apply Hchar. lia.
  - apply Hchar.
  - intros r [H | H]; unfold DateRangePicker.isDateInRange; rewrite H;
      [reflexivity | destruct (DateRangePicker.from r); reflexivity].
Qed.

(** ** Clicks on disabled controls *)

Lemma Button_loading_ignores_click {W E} (p : @Button.ButtonProps W E) (e : E) (w : W) :
  Button.loading E p = true -> Button.handleClick E p e w = w.
Proof. intros H. unfold Button.handleClick. rewrite H. reflexivity. Qed.

Lemma Button_click_disabled {W E} (p : @Button.ButtonProps W E) (e : E) (w : W) :
  Button.isDisabled E p = true -> Button.click E (Button.render E p) e w = w.
Proof. intros H. unfold Button.click, Button.render. cbn. rewrite H. reflexivity. Qed.

Lemma DayCell_disabled_ignores_click {W} (c : DateRangePicker.DayCellProps W) (w : W) :
  DateRangePicker.isDisabled c = true -> DateRangePicker.handleClick c w = w.
Proof. intros H. unfold DateRangePicker.handleClick. rewrite H. reflexivity. Qed.

(** C5. A click on a disabled control is ignored. The click handler of
    a Button is the [onClick] of the button element it renders, whose
    [disabled] attribute is [disabled || loading]: for a Button that
    is [disabled] or [loading], a click on that element never calls the
    user's [onClick], whatever that callback is, and the world the
    callbacks act on is as it was. A [loading] Button's handler returns
    before it reaches [onClick]. A DayCell whose [isDisabled] flag is
    set ignores the click, from the mouse or from the keyboard, and
    leaves what its callbacks can observe unchanged. *)
Theorem C5_disabled_controls_ignore_clicks :
  forall (W E : Type) (p : @Button.ButtonProps W E) (e : E)
         (c : DateRangePicker.DayCellProps W) (w : W),
    (Button.loading E p = true -> Button.handleClick E p e w = w) /\
    Button.el_disabled E (Button.render E p)
      = (Button.disabled E p || Button.loading E p) /\
    (Button.disabled E p || Button.loading E p = true ->
       Button.click E (Button.render E p) e w = w) /\
    (DateRangePicker.isDisabled c = true ->
       DateRangePicker.handleClick c w = w /\
       forall b, DateRangePicker.handleKeyDown c b w = w).
Proof.
  intros W E p e c w. split; [| split; [| split]].
  - apply Button_loading_ignores_click.
  - reflexivity.
  - apply Button_click_disabled.
  - intros H. split.
    + apply DayCell_disabled_ignores_click. exact H.
    + intros b. unfold DateRangePicker.handleKeyDown. rewrite H.
      rewrite Bool.andb_false_r. reflexivity.
Qed.

(** ** Modal.CloseButton *)

(** C7. Without a handler from its props or from the context,
    [Modal.CloseButton] logs one warning and renders nothing. With a
    handler it renders a button whose click is exactly that handler and
    logs nothing; the [onClose] prop wins over the context's handler,
    and inside a [Modal] the context's handler is the modal's own
    [onClose]. *)
Theorem C7_close_button_fallback :
  forall (W : Type) (cls : string) (custom fromContext : W -> W)
         (ctx : Modal.ModalContextType W) (console : list string),
    @Modal.ModalCloseButton W (Modal.mkCloseProps cls None) Modal.defaultContext console
      = (None, console ++ [Modal.warning]) /\
    @Modal.ModalCloseButton W (Modal.mkCloseProps cls None) (Modal.mkContext None) console
      = (None, console ++ [Modal.warning]) /\
    @Modal.ModalCloseButton W (Modal.mkCloseProps cls (Some custom)) ctx console
      = (Some (Modal.mkCloseButton custom "Close modal"), console) /\
    @Modal.ModalCloseButton W (Modal.mkCloseProps cls None)
        (Modal.mkContext (Some fromContext)) console
      = (Some (Modal.mkCloseButton fromContext "Close modal"), console) /\
    (forall w,
       option_map (fun b => Modal.btn_onClick b w)
         (fst (@Modal.ModalCloseButton W (Modal.mkCloseProps cls None)
                 (Modal.providedContext fromContext) console))
       = Some (fromContext w)).
Proof.
  intros W cls custom fromContext ctx console.
  repeat split.
Qed.

(** ** The calendar *)

Module CalendarFacts.
Import JSDate.

(** Case analysis on the tests of a table, dropping impossible cases. *)
Ltac table_cases :=
  repeat (match goal with
          | |- context [if ?a <? ?b then _ else _] => destruct (Z.ltb_spec a b)
          | |- context [if ?a <=? ?b then _ else _] => destruct (Z.leb_spec a b)
          | |- context [if ?a =? ?b then _ else _] => destruct (Z.eqb_spec a b)
          end; try lia).

Lemma DaysInYear_cases (y : Z) : DaysInYear y = 365 \/ DaysInYear y = 366.
Proof.
  unfold DaysInYear.
  repeat match goal with |- context [if ?b then _ else _] => destruct b end; auto.
Qed.

Lemma InLeapYear_cases (y : Z) : InLeapYear y = 0 \/ InLeapYear y = 1.
Proof. unfold InLeapYear. destruct (DaysInYear_cases y); lia. Qed.

(** A year is as long as the distance between two first days. *)
Lemma DayFromYear_succ (y : Z) : DayFromYear (y + 1) = DayFromYear y + DaysInYear y.
Proof.
  unfold DayFromYear, DaysInYear.
  repeat match goal with
         | |- context [negb (?a =? ?b)] => destruct (Z.eqb_spec a b); cbn [negb]
         end;
    Z.div_mod_to_equations; lia.
Qed.

Lemma DayFromYear_mono (y1 y2 : Z) :
  y1 <= y2 -> DayFromYear y1 + 365 * (y2 - y1) <= DayFromYear y2.
Proof. intros H. unfold DayFromYear. Z.div_mod_to_equations. lia. Qed.

(** [YearFromDay d] is the year whose days include [d]. *)
Lemma YearFromDay_spec (d : Z) :
  DayFromYear (YearFromDay d) <= d < DayFromYear (YearFromDay d + 1).
Proof.
  unfold YearFromDay.
  set (y := 1970 + 400 * d / 146097).
  assert (Hy : 146097 * (y - 1970) <= 400 * d < 146097 * (y - 1970) + 146097).
  { unfold y. Z.div_mod_to_equations. lia. }
  clearbody y.
  assert (H1 : DayFromYear (y - 1) <= d).
  { unfold DayFromYear. Z.div_mod_to_equations. lia. }
  assert (H2 : d < DayFromYear (y + 2)).
  { unfold DayFromYear. Z.div_mod_to_equations. lia. }
  destruct (Z.ltb_spec d (DayFromYear y)).
  - replace (y - 1 + 1) with y by lia. lia.
  - destruct (Z.ltb_spec d (DayFromYear (y + 1))).
    + lia.
    + replace (y + 1 + 1) with (y + 2) by lia. lia.
Qed.

Lemma YearFromDay_unique (d y : Z) :
  DayFromYear y <= d < DayFromYear (y + 1) -> YearFromDay d = y.
Proof.
  intros Hy. pose proof (YearFromDay_spec d) as Hs.
  destruct (Z.lt_trichotomy (YearFromDay d) y) as [Hlt | [Heq | Hgt]]; [| exact Heq |].
  - pose proof (DayFromYear_mono (YearFromDay d + 1) y ltac:(lia)). lia.
  - pose proof (DayFromYear_mono (y + 1) (YearFromDay d) ltac:(lia)). lia.
Qed.

Lemma DayWithinYear_bounds (d : Z) :
  0 <= DayWithinYear d < 365 + InLeapYear (YearFromDay d).
Proof.
  unfold DayWithinYear, InLeapYear.
  pose proof (YearFromDay_spec d) as Hs.
  rewrite DayFromYear_succ in Hs. lia.
Qed.

(** The month table: [monthOfDay] inverts [monthStart]. *)
Lemma monthOfDay_spec (leap dwy : Z) :
  0 <= leap <= 1 -> 0 <= dwy < 365 + leap ->
  0 <= monthOfDay leap dwy <= 11 /\
  monthStart leap (monthOfDay leap dwy) <= dwy
    < monthStart leap (monthOfDay leap dwy + 1).
Proof.
  intros Hl Hd. unfold monthOfDay, monthStart. table_cases.
Qed.

Lemma monthOfDay_unique (leap dwy m : Z) :
  0 <= leap <= 1 -> 0 <= m <= 11 ->
  monthStart leap m <= dwy < monthStart leap (m + 1) ->
  monthOfDay leap dwy = m.
Proof.
  intros Hl Hm.
  unfold monthOfDay, monthStart. table_cases.
Qed.

Lemma monthStart_bounds (leap m : Z) :
  0 <= leap <= 1 -> 0 <= m <= 11 ->
  0 <= monthStart leap m /\ monthStart leap m + 28 <= monthStart leap (m + 1)
  /\ monthStart leap (m + 1) <= 365 + leap.
Proof. intros Hl Hm. unfold monthStart. table_cases. Qed.

Lemma TimeWithinDay_bounds (t : Z) : 0 <= TimeWithinDay t < msPerDay.
Proof. unfold TimeWithinDay, msPerDay. apply Z.mod_pos_bound. lia. Qed.

Lemma Day_MakeDate (day time : Z) :
  0 <= time < msPerDay -> Day (MakeDate day time) = day.
Proof.
  intros Ht. unfold Day, MakeDate, msPerDay in *. Z.div_mod_to_equations. lia.
Qed.

Lemma TimeWithinDay_MakeDate (day time : Z) :
  0 <= time < msPerDay -> TimeWithinDay (MakeDate day time) = time.
Proof.
  intros Ht. unfold TimeWithinDay, MakeDate, msPerDay in *.
  Z.div_mod_to_equations. lia.
Qed.

Lemma Day_time_split (t : Z) : t = Day t * msPerDay + TimeWithinDay t.
Proof. unfold Day, TimeWithinDay, msPerDay. Z.div_mod_to_equations. lia. Qed.

Lemma getMonth_bounds (d : Date) : 0 <= getMonth d <= 11.
Proof.
  unfold getMonth, MonthFromTime, YearFromTime.
  apply monthOfDay_spec; [| apply DayWithinYear_bounds].
  destruct (InLeapYear_cases (YearFromDay (Day (getTime d)))); lia.
Qed.

Lemma MakeDay_in_year (y m dt : Z) :
  0 <= m <= 11 ->
  MakeDay y m dt = DayFromYear y + monthStart (InLeapYear y) m + dt - 1.
Proof.
  intros Hm. unfold MakeDay.
  replace (m / 12) with 0 by (Z.div_mod_to_equations; lia).
  replace (m mod 12) with m by (Z.div_mod_to_equations; lia).
  rewrite Z.add_0_r. reflexivity.
Qed.

(** Day 0 of the month after [m] is the last day of [m], also in
    December. *)
Lemma MakeDay_next_month (y m : Z) :
  0 <= m <= 11 ->
  MakeDay y (m + 1) 0 = DayFromYear y + monthStart (InLeapYear y) (m + 1) - 1.
Proof.
  intros Hm. destruct (Z.eq_dec m 11) as [-> | Hne].
  - unfold MakeDay. change ((11 + 1) / 12) with 1. change ((11 + 1) mod 12) with 0.
    rewrite DayFromYear_succ. unfold InLeapYear at 2.
    change (monthStart (InLeapYear (y + 1)) 0) with 0.
    change (monthStart (DaysInYear y - 365) (11 + 1)) with (365 + (DaysInYear y - 365)).
    lia.
  - rewrite MakeDay_in_year by lia. lia.
Qed.

(** The day number of the first day of the month of [d]. *)
Lemma dayOf_first (d : Date) :
  dayOf d - getDate d + 1
  = DayFromYear (getFullYear d) + monthStart (InLeapYear (getFullYear d)) (getMonth d).
Proof.
  unfold dayOf, getDate, DateFromTime, getFullYear, getMonth, MonthFromTime,
    YearFromTime, DayWithinYear. lia.
Qed.

(** [setDate] moves a date by whole days within its month's frame:
    the day of the month [n] lands [n - getDate d] days away. *)
Lemma dayOf_setDate (d : Date) (n : Z) :
  dayOf (setDate d n) = dayOf d - getDate d + n.
Proof.
  unfold dayOf at 1, setDate. cbn [getTime].
  rewrite Day_MakeDate by apply TimeWithinDay_bounds.
  rewrite MakeDay_in_year by apply getMonth_bounds.
  pose proof (dayOf_first d). lia.
Qed.

Lemma time_setDate (d : Date) (n : Z) :
  TimeWithinDay (getTime (setDate d n)) = TimeWithinDay (getTime d).
Proof.
  unfold setDate. cbn [getTime].
  apply TimeWithinDay_MakeDate, TimeWithinDay_bounds.
Qed.

Lemma getTime_split (d : Date) :
  getTime d = dayOf d * msPerDay + TimeWithinDay (getTime d).
Proof. apply Day_time_split. Qed.

Lemma getTime_midnight (d : Date) (h m s ms : Z) :
  getTime (setHours d h m s ms) = dayOf d * msPerDay + MakeTime h m s ms.
Proof. reflexivity. Qed.

(** [getDate] of a date is a day of its month. *)
Lemma getDate_bounds (d : Date) :
  1 <= getDate d
  /\ dayOf d - getDate d + 1 <= dayOf d <= MakeDay (getFullYear d) (getMonth d + 1) 0.
Proof.
  pose proof (getMonth_bounds d) as Hm.
  rewrite MakeDay_next_month by exact Hm.
  rewrite dayOf_first.
  unfold dayOf, getDate, DateFromTime, getFullYear, getMonth, MonthFromTime,
    YearFromTime in *.
  set (z := Day (getTime d)) in *.
  pose proof (DayWithinYear_bounds z) as Hb.
  assert (Hl : 0 <= InLeapYear (YearFromDay z) <= 1)
    by (destruct (InLeapYear_cases (YearFromDay z)); lia).
  pose proof (monthOfDay_spec _ _ Hl Hb) as [_ Hs].
  unfold DayWithinYear in *. lia.
Qed.

(** The days of a month are those between its first and its last. *)
Lemma same_month_iff (d x : Date) :
  isSameMonth x d = true
  <-> dayOf d - getDate d + 1 <= dayOf x <= MakeDay (getFullYear d) (getMonth d + 1) 0.
Proof.
  pose proof (getMonth_bounds d) as Hm.
  rewrite MakeDay_next_month by exact Hm.
  rewrite dayOf_first.
  unfold isSameMonth. rewrite Bool.andb_true_iff, !Z.eqb_eq.
  set (y := getFullYear d) in *. set (m := getMonth d) in *.
  assert (Hl : 0 <= InLeapYear y <= 1) by (destruct (InLeapYear_cases y); lia).
  pose proof (monthStart_bounds _ _ Hl Hm) as (Hs0 & Hs1 & Hs2).
  split.
  - intros [Hy Hmx].
    pose proof (YearFromDay_spec (dayOf x)) as Hspec.
    pose proof (DayWithinYear_bounds (dayOf x)) as Hb.
    unfold getFullYear, YearFromTime in Hy. fold (dayOf x) in Hy.
    unfold getMonth, MonthFromTime, YearFromTime in Hmx. fold (dayOf x) in Hmx.
    rewrite Hy in *.
    pose proof (monthOfDay_spec _ _ Hl Hb) as [_ Hs].
    rewrite Hmx in Hs. unfold DayWithinYear in Hs. rewrite Hy in Hs. lia.
  - intros Hx.
    assert (Hy : YearFromDay (dayOf x) = y).
    { apply YearFromDay_unique. rewrite DayFromYear_succ. unfold InLeapYear in *. lia. }
    split; [exact Hy |].
    unfold getMonth, MonthFromTime, YearFromTime. fold (dayOf x). rewrite Hy.
    apply monthOfDay_unique; [exact Hl | exact Hm |].
    unfold DayWithinYear. rewrite Hy. lia.
Qed.
End CalendarFacts.

(** ** The month grid *)

Module GridFacts.
Import JSDate DateRangePicker CalendarFacts.

Lemma setHours_eq (d : Date) (h m s ms : Z) :
  setHours d h m s ms = mkDate (MakeDate (dayOf d) (MakeTime h m s ms)).
Proof. reflexivity. Qed.

Lemma MakeTime_midnight : MakeTime 0 0 0 0 = 0.
Proof. reflexivity. Qed.

Lemma MakeTime_end_of_day : MakeTime 23 59 59 999 = 86399999.
Proof. reflexivity. Qed.

Lemma midnight_bounds : 0 <= 0 < msPerDay.
Proof. unfold msPerDay. lia. Qed.

Lemma end_of_day_bounds : 0 <= 86399999 < msPerDay.
Proof. unfold msPerDay. lia. Qed.

Lemma dayOf_at (z t : Z) :
  0 <= t < msPerDay -> dayOf (mkDate (MakeDate z t)) = z.
Proof. intros Ht. unfold dayOf. cbn [getTime]. apply Day_MakeDate, Ht. Qed.

Lemma startOfMonth_eq (d : Date) :
  startOfMonth d = mkDate (MakeDate (dayOf d - getDate d + 1) 0).
Proof.
  unfold startOfMonth.
  rewrite setHours_eq, dayOf_setDate, MakeTime_midnight. reflexivity.
Qed.

Lemma endOfMonth_eq (d : Date) :
  endOfMonth d
  = mkDate (MakeDate (MakeDay (getFullYear d) (getMonth d + 1) 0) 86399999).
Proof.
  unfold endOfMonth. rewrite setHours_eq, MakeTime_end_of_day.
  unfold setFullYear.
  rewrite (dayOf_at _ _ (TimeWithinDay_bounds (getTime d))). reflexivity.
Qed.

(** One turn of the loop of [eachDayOfInterval] is one day further. *)
Lemma next_day (z : Z) :
  setHours (setDate (mkDate (MakeDate z 0)) (getDate (mkDate (MakeDate z 0)) + 1))
    0 0 0 0
  = mkDate (MakeDate (z + 1) 0).
Proof.
  rewrite setHours_eq, MakeTime_midnight.
  rewrite (dayOf_setDate (mkDate (MakeDate z 0))).
  rewrite (dayOf_at z 0 midnight_bounds).
  do 2 f_equal. lia.
Qed.

Lemma MakeDate_le (c e t : Z) :
  0 <= t < msPerDay -> (MakeDate c 0 <= MakeDate e t <-> c <= e).
Proof. unfold MakeDate, msPerDay. lia. Qed.

(** The loop stops by its own test: with enough fuel it lists the days
    from the current one to the day of [endTime], each at midnight. *)
Lemma eachDayLoop_enough (fuel : nat) (c e t : Z) :
  0 <= t < msPerDay -> e - c + 1 <= Z.of_nat fuel ->
  eachDayLoop fuel (mkDate (MakeDate c 0)) (MakeDate e t)
  = map (fun z => mkDate (MakeDate z 0)) (seqZ c (e - c + 1)).
Proof.
  intros Ht. revert c. induction fuel as [| fuel IH]; intros c Hfuel.
  - rewrite seqZ_nil by lia. reflexivity.
  - cbn [eachDayLoop getTime].
    destruct (Z.leb_spec (MakeDate c 0) (MakeDate e t)) as [Hle | Hgt].
    + apply (MakeDate_le c e t Ht) in Hle.
      rewrite next_day, IH by lia.
      rewrite (seqZ_cons c) by lia. cbn [map].
      replace (e - (c + 1) + 1) with (Z.pred (e - c + 1)) by lia.
      reflexivity.
    + assert (Hce : ~ c <= e) by (rewrite <- (MakeDate_le c e t Ht); lia).
      rewrite seqZ_nil by lia. reflexivity.
Qed.

Lemma eachDayOfInterval_month (d : Date) :
  eachDayOfInterval (startOfMonth d) (endOfMonth d)
  = map (fun z => mkDate (MakeDate z 0))
        (seqZ (dayOf d - getDate d + 1)
              (MakeDay (getFullYear d) (getMonth d + 1) 0
               - (dayOf d - getDate d + 1) + 1)).
Proof.
  unfold eachDayOfInterval.
  rewrite startOfMonth_eq, endOfMonth_eq.
  rewrite setHours_eq, MakeTime_midnight.
  rewrite (dayOf_at _ 0 midnight_bounds).
  cbn [getTime].
  rewrite (Day_MakeDate _ _ end_of_day_bounds), (Day_MakeDate _ _ midnight_bounds).
  apply eachDayLoop_enough; [apply end_of_day_bounds | lia].
Qed.

Lemma prependLoop_days (prevMonthEnd : Date) (i : nat) :
  map dayOf (prependLoop prevMonthEnd i)
  = seqZ (dayOf prevMonthEnd + 1 - Z.of_nat i) (Z.of_nat i).
Proof.
  induction i as [| i IH]; [reflexivity |].
  cbn [prependLoop map]. rewrite IH, dayOf_setDate.
  rewrite (seqZ_cons _ (Z.of_nat (S i))) by lia.
  f_equal; [lia | f_equal; lia].
Qed.

Lemma appendLoop_days (nextMonthStart : Date) (i : Z) (n : nat) :
  map dayOf (appendLoop nextMonthStart i n)
  = seqZ (dayOf nextMonthStart + i) (Z.of_nat n).
Proof.
  revert i. induction n as [| n IH]; intros i; [reflexivity |].
  cbn [appendLoop map]. rewrite IH, dayOf_setDate.
  rewrite (seqZ_cons _ (Z.of_nat (S n))) by lia.
  f_equal; [lia | f_equal; lia].
Qed.

(** The weeks are the list of days cut every seven, in order. *)
Lemma weeksLoop_concat (days : list Date) (fuel i : nat) :
  (length days <= fuel + i)%nat ->
  concat (weeksLoop fuel i days) = drop i days.
Proof.
  revert i. induction fuel as [| fuel IH]; intros i Hfuel.
  - cbn. rewrite drop_ge by lia. reflexivity.
  - cbn [weeksLoop]. destruct (Nat.ltb_spec i (length days)) as [Hlt | Hge].
    + cbn [concat]. rewrite IH by lia. unfold slice.
      replace (i + 7 - i)%nat with 7%nat by lia.
      rewrite <- (take_drop 7 (drop i days)) at 2.
      rewrite drop_drop. reflexivity.
    + rewrite drop_ge by lia. reflexivity.
Qed.

Lemma weeksLoop_sizes (days : list Date) (fuel i : nat) :
  Forall (fun w => (1 <= length w <= 7)%nat) (weeksLoop fuel i days).
Proof.
  revert i. induction fuel as [| fuel IH]; intros i; [constructor |].
  cbn [weeksLoop]. destruct (Nat.ltb_spec i (length days)) as [Hlt | Hge];
    [| constructor].
  constructor; [| apply IH].
  unfold slice. rewrite length_take, length_drop. lia.
Qed.

Lemma weeksLoop_full (days : list Date) (fuel i k : nat) :
  (length days = i + 7 * k)%nat ->
  Forall (fun w => length w = 7%nat) (weeksLoop fuel i days).
Proof.
  revert i k. induction fuel as [| fuel IH]; intros i k Hlen; [constructor |].
  cbn [weeksLoop]. destruct (Nat.ltb_spec i (length days)) as [Hlt | Hge];
    [| constructor].
  constructor.
  - unfold slice. rewrite length_take, length_drop. lia.
  - apply (IH (i + 7)%nat (k - 1)%nat). lia.
Qed.

Lemma map_dayOf_midnight (l : list Z) :
  map dayOf (map (fun z => mkDate (MakeDate z 0)) l) = l.
Proof.
  induction l as [| z l IH]; [reflexivity |].
  cbn [map]. rewrite IH, (dayOf_at z 0 midnight_bounds). reflexivity.
Qed.

Lemma getDay_at (z t : Z) :
  0 <= t < msPerDay -> getDay (mkDate (MakeDate z t)) = (z + 4) mod 7.
Proof.
  intros Ht. unfold getDay, WeekDay. cbn [getTime].
  rewrite (Day_MakeDate z t Ht). reflexivity.
Qed.

Lemma getDay_dayOf (d : Date) : getDay d = (dayOf d + 4) mod 7.
Proof. reflexivity. Qed.

Lemma isSameDay_iff (a b : Date) : isSameDay a b = true <-> dayOf a = dayOf b.
Proof.
  unfold isSameDay, startOfDay. rewrite !setHours_eq, MakeTime_midnight.
  cbn [getTime]. rewrite Z.eqb_eq. unfold MakeDate, msPerDay. lia.
Qed.

(** Within the month of [d], the day of the month counts from its
    first day. *)
Lemma getDate_in_month (d x : Date) :
  isSameMonth x d = true ->
  getDate x = dayOf x - (dayOf d - getDate d + 1) + 1.
Proof.
  intros Hsame. pose proof (dayOf_first x) as Hx. pose proof (dayOf_first d) as Hd.
  unfold isSameMonth in Hsame.
  apply Bool.andb_true_iff in Hsame as [Hy Hm].
  apply Z.eqb_eq in Hy. apply Z.eqb_eq in Hm.
  rewrite Hy, Hm in Hx. lia.
Qed.

Lemma month_nonempty (month : Date) :
  monthFirstDay month <= dayOf month <= monthLastDay month.
Proof. apply getDate_bounds. Qed.

Lemma month_at_least_28 (month : Date) :
  monthFirstDay month + 27 <= monthLastDay month.
Proof.
  unfold monthFirstDay, monthLastDay. pose proof (getMonth_bounds month) as Hm.
  rewrite MakeDay_next_month by exact Hm. rewrite dayOf_first.
  assert (Hl : 0 <= InLeapYear (getFullYear month) <= 1)
    by (destruct (InLeapYear_cases (getFullYear month)); lia).
  pose proof (monthStart_bounds _ _ Hl Hm). lia.
Qed.

Lemma pad_bounds (month : Date) :
  0 <= daysBefore month <= 6 /\ 0 <= daysAfter month <= 6.
Proof. unfold daysBefore, daysAfter. Z.div_mod_to_equations. lia. Qed.

Lemma startOfMonth_first (month : Date) :
  startOfMonth month = mkDate (MakeDate (monthFirstDay month) 0).
Proof. apply startOfMonth_eq. Qed.

Lemma endOfMonth_last (month : Date) :
  endOfMonth month = mkDate (MakeDate (monthLastDay month) 86399999).
Proof. apply endOfMonth_eq. Qed.

Lemma getDate_start (month : Date) : getDate (startOfMonth month) = 1.
Proof.
  rewrite (getDate_in_month month).
  - rewrite startOfMonth_eq, (dayOf_at _ 0 midnight_bounds). lia.
  - apply same_month_iff.
    rewrite startOfMonth_eq, (dayOf_at _ 0 midnight_bounds).
    pose proof (month_nonempty month) as H.
    unfold monthFirstDay, monthLastDay in H. lia.
Qed.

Lemma getDay_start (month : Date) :
  getDay (startOfMonth month) = daysBefore month.
Proof. rewrite startOfMonth_first. apply (getDay_at _ 0 midnight_bounds). Qed.

Lemma getDay_end (month : Date) :
  6 - getDay (endOfMonth month) = daysAfter month.
Proof.
  rewrite endOfMonth_last, (getDay_at _ _ end_of_day_bounds). reflexivity.
Qed.

(** The body of [getDaysInMonth], its local names replaced by their
    values. *)
Lemma getDaysInMonth_unfold (month : Date) (showOutsideDays : bool) :
  getDaysInMonth month showOutsideDays
  = let days :=
      (if showOutsideDays && (0 <? getDay (startOfMonth month))
       then prependLoop (setDate (startOfMonth month) 0)
              (Z.to_nat (getDay (startOfMonth month)))
       else [])
      ++ eachDayOfInterval (startOfMonth month) (endOfMonth month) in
    let days :=
      if showOutsideDays && (0 <? 6 - getDay (endOfMonth month))
      then days ++ appendLoop (setDate (endOfMonth month)
                                 (getDate (endOfMonth month) + 1))
                     0 (Z.to_nat (6 - getDay (endOfMonth month)))
      else days in
    weeksLoop (length days) 0 days.
Proof. reflexivity. Qed.

(** Skipping a loop of zero turns changes nothing. *)
Lemma skip_prepend (b : bool) (k : Z) (prevMonthEnd : Date) :
  0 <= k ->
  (if b && (0 <? k) then prependLoop prevMonthEnd (Z.to_nat k) else [])
  = if b then prependLoop prevMonthEnd (Z.to_nat k) else [].
Proof.
  intros Hk. destruct b; [| reflexivity]. cbn [andb].
  destruct (Z.ltb_spec 0 k) as [Hlt | Hge]; [reflexivity |].
  replace k with 0 by lia. reflexivity.
Qed.

Lemma skip_append (b : bool) (a : Z) (nextMonthStart : Date) (days : list Date) :
  0 <= a ->
  (if b && (0 <? a) then days ++ appendLoop nextMonthStart 0 (Z.to_nat a) else days)
  = days ++ (if b then appendLoop nextMonthStart 0 (Z.to_nat a) else []).
Proof.
  intros Ha. destruct b; [| rewrite app_nil_r; reflexivity]. cbn [andb].
  destruct (Z.ltb_spec 0 a) as [Hlt | Hge]; [reflexivity |].
  replace a with 0 by lia. cbn [Z.to_nat appendLoop]. rewrite app_nil_r. reflexivity.
Qed.

(** The weeks are cut from [daysOf]. *)
Lemma getDaysInMonth_weeks (month : Date) (showOutsideDays : bool) :
  getDaysInMonth month showOutsideDays
  = weeksLoop (length (daysOf month showOutsideDays)) 0
      (daysOf month showOutsideDays).
Proof.
  rewrite getDaysInMonth_unfold. cbv zeta.
  pose proof (pad_bounds month) as [Hkb Hab].
  rewrite skip_prepend by (rewrite getDay_start; lia).
  rewrite skip_append by (rewrite getDay_end; lia).
  unfold daysOf. rewrite <- app_assoc. reflexivity.
Qed.

Lemma daysOf_true_days (month : Date) :
  map dayOf (daysOf month true)
  = seqZ (monthFirstDay month - daysBefore month)
         (daysBefore month + (monthLastDay month - monthFirstDay month + 1)
          + daysAfter month).
Proof.
  pose proof (pad_bounds month) as [Hkb Hab].
  pose proof (month_at_least_28 month) as Hlen.
  unfold daysOf. cbv zeta.
  rewrite !map_app, prependLoop_days, appendLoop_days, eachDayOfInterval_month.
  rewrite map_dayOf_midnight, !dayOf_setDate, getDate_start.
  rewrite getDay_start, getDay_end.
  rewrite startOfMonth_first, endOfMonth_last.
  rewrite (dayOf_at _ 0 midnight_bounds), (dayOf_at _ _ end_of_day_bounds).
  rewrite !Z2Nat.id by lia.
  change (dayOf month - getDate month + 1) with (monthFirstDay month).
  change (MakeDay (getFullYear month) (getMonth month + 1) 0)
    with (monthLastDay month).
  set (s := monthFirstDay month) in *. set (e := monthLastDay month) in *.
  set (k := daysBefore month) in *. set (a := daysAfter month) in *.
  rewrite (seqZ_app (s - k) (k + (e - s + 1)) a) by lia.
  rewrite (seqZ_app (s - k) k (e - s + 1)) by lia.
  rewrite <- app_assoc.
  f_equal; [f_equal; lia |]. f_equal; [f_equal; lia | f_equal; lia].
Qed.

Lemma daysOf_false_eq (month : Date) :
  daysOf month false
  = map (fun z => mkDate (MakeDate z 0))
        (seqZ (monthFirstDay month)
              (monthLastDay month - monthFirstDay month + 1)).
Proof.
  unfold daysOf. cbv zeta. rewrite app_nil_r. cbn [app].
  apply eachDayOfInterval_month.
Qed.

Lemma daysOf_false_days (month : Date) :
  map dayOf (daysOf month false)
  = seqZ (monthFirstDay month) (monthLastDay month - monthFirstDay month + 1).
Proof. rewrite daysOf_false_eq. apply map_dayOf_midnight. Qed.

(** ** Lists of dates on consecutive days *)

Lemma days_lookup (l : list Date) (lo n : Z) (i : nat) (x : Date) :
  map dayOf l = seqZ lo n -> l !! i = Some x ->
  dayOf x = lo + Z.of_nat i /\ Z.of_nat i < n.
Proof.
  intros Hmap Hx.
  assert (H : map dayOf l !! i = Some (dayOf x))
    by (rewrite list_lookup_fmap, Hx; reflexivity).
  rewrite Hmap in H. apply lookup_seqZ in H. exact H.
Qed.

Lemma days_consecutive (l : list Date) (lo n : Z) :
  map dayOf l = seqZ lo n -> consecutiveDays l.
Proof.
  intros Hmap i x y Hx Hy.
  destruct (days_lookup l lo n i x Hmap Hx) as [Hdx _].
  destruct (days_lookup l lo n (S i) y Hmap Hy) as [Hdy _].
  assert (Hstep : dayOf y = dayOf x + 1) by lia.
  split; [exact Hstep |].
  rewrite (getTime_split x), (getTime_split y), Hstep.
  pose proof (TimeWithinDay_bounds (getTime x)).
  pose proof (TimeWithinDay_bounds (getTime y)).
  unfold msPerDay in *. lia.
Qed.

Lemma days_appear_once (l : list Date) (lo n : Z) (d : Date) :
  map dayOf l = seqZ lo n -> lo <= dayOf d < lo + n -> appearsOnce d l.
Proof.
  intros Hmap Hd. exists (Z.to_nat (dayOf d - lo)). split.
  - assert (H : map dayOf l !! Z.to_nat (dayOf d - lo) = Some (dayOf d)).
    { rewrite Hmap. rewrite lookup_seqZ. lia. }
    rewrite list_lookup_fmap in H.
    destruct (l !! Z.to_nat (dayOf d - lo)) as [x |] eqn:Hx; [| discriminate].
    exists x. split; [reflexivity |]. apply isSameDay_iff.
    cbn in H. congruence.
  - intros j y Hy Hsame. apply isSameDay_iff in Hsame.
    destruct (days_lookup l lo n j y Hmap Hy) as [Hdy _]. lia.
Qed.

Lemma grid_concat (month : Date) (showOutsideDays : bool) :
  concat (getDaysInMonth month showOutsideDays) = daysOf month showOutsideDays.
Proof.
  rewrite getDaysInMonth_weeks, weeksLoop_concat by lia. apply drop_0.
Qed.

(** With the outside days the number of days is a multiple of seven. *)
Lemma daysOf_true_length (month : Date) :
  exists q : nat, length (daysOf month true) = (0 + 7 * q)%nat.
Proof.
  pose proof (pad_bounds month) as [Hkb Hab].
  pose proof (month_at_least_28 month) as Hlen.
  exists (Z.to_nat ((monthLastDay month + 4) / 7 - (monthFirstDay month + 4) / 7 + 1)).
  rewrite <- (length_map dayOf), daysOf_true_days, length_seqZ.
  unfold daysBefore, daysAfter in *.
  Z.div_mod_to_equations. lia.
Qed.

Lemma same_month_range (month d : Date) :
  isSameMonth d month = true
  <-> monthFirstDay month <= dayOf d <= monthLastDay month.
Proof. apply same_month_iff. Qed.

Lemma grid_weeks_full (month : Date) :
  Forall (fun week => length week = 7%nat) (getDaysInMonth month true).
Proof.
  rewrite getDaysInMonth_weeks.
  destruct (daysOf_true_length month) as [q Hq].
  apply (weeksLoop_full _ _ 0%nat q Hq).
Qed.

Lemma days_first (l : list Date) (lo n : Z) :
  map dayOf l = seqZ lo n -> 0 < n ->
  exists x, head l = Some x /\ dayOf x = lo.
Proof.
  intros Hmap Hn. destruct l as [| x l].
  - rewrite seqZ_cons in Hmap by lia. discriminate.
  - exists x. split; [reflexivity |].
    destruct (days_lookup (x :: l) lo n 0%nat x Hmap eq_refl) as [Hx _]. lia.
Qed.

Lemma days_last (l : list Date) (lo n : Z) :
  map dayOf l = seqZ lo n -> 0 < n ->
  exists x, last l = Some x /\ dayOf x = lo + n - 1.
Proof.
  intros Hmap Hn.
  assert (Hlen : length l = Z.to_nat n).
  { rewrite <- (length_map dayOf), Hmap. apply length_seqZ. }
  rewrite last_lookup.
  destruct (lookup_lt_is_Some_2 l (Init.Nat.pred (length l)) ltac:(lia)) as [x Hx].
  exists x. split; [exact Hx |].
  destruct (days_lookup l lo n _ x Hmap Hx) as [Hdx _]. lia.
Qed.

Lemma grid_starts_sunday (month : Date) :
  exists sunday,
    head (daysOf month true) = Some sunday /\ getDay sunday = 0 /\
    dayOf sunday <= dayOf (startOfMonth month) < dayOf sunday + 7.
Proof.
  pose proof (pad_bounds month) as [Hkb Hab].
  pose proof (month_at_least_28 month) as Hlen.
  destruct (days_first _ _ _ (daysOf_true_days month) ltac:(lia)) as (x & Hx & Hd).
  exists x. split; [exact Hx |].
  rewrite getDay_dayOf, startOfMonth_first, (dayOf_at _ 0 midnight_bounds), Hd.
  unfold daysBefore in *. split; [| lia].
  Z.div_mod_to_equations. lia.
Qed.

Lemma grid_ends_saturday (month : Date) :
  exists saturday,
    last (daysOf month true) = Some saturday /\ getDay saturday = 6.
Proof.
  pose proof (pad_bounds month) as [Hkb Hab].
  pose proof (month_at_least_28 month) as Hlen.
  destruct (days_last _ _ _ (daysOf_true_days month) ltac:(lia)) as (x & Hx & Hd).
  exists x. split; [exact Hx |].
  rewrite getDay_dayOf, Hd.
  unfold daysAfter, daysBefore in *.
  Z.div_mod_to_equations. lia.
Qed.

Lemma grid_has_month (month d : Date) (showOutsideDays : bool) :
  isSameMonth d month = true -> appearsOnce d (daysOf month showOutsideDays).
Proof.
  intros Hd. apply same_month_range in Hd.
  pose proof (pad_bounds month) as [Hkb Hab].
  destruct showOutsideDays.
  - apply (days_appear_once _ _ _ d (daysOf_true_days month)). lia.
  - apply (days_appear_once _ _ _ d (daysOf_false_days month)). lia.
Qed.

Lemma grid_only_month (month x : Date) :
  x ∈ daysOf month false -> isSameMonth x month = true.
Proof.
  intros Hx. apply list_elem_of_lookup in Hx as [i Hi].
  destruct (days_lookup _ _ _ i x (daysOf_false_days month) Hi) as [Hdx Hin].
  apply same_month_range. lia.
Qed.
End GridFacts.

(** ** The shape of the grid *)

Module GridShape.
Import JSDate DateRangePicker CalendarFacts GridFacts.

(** The [j]-th week is the [j]-th run of seven days. *)
Lemma weeksLoop_lookup (days : list Date) (fuel i j : nat) (week : list Date) :
  weeksLoop fuel i days !! j = Some week ->
  week = take 7 (drop (i + 7 * j) days).
Proof.
  revert i j. induction fuel as [| fuel IH]; intros i j Hj; [discriminate |].
  cbn [weeksLoop] in Hj.
  destruct (Nat.ltb_spec i (length days)) as [Hlt | Hge]; [| discriminate].
  destruct j as [| j].
  - injection Hj as <-. unfold slice.
    replace (i + 7 - i)%nat with 7%nat by lia.
    replace (i + 7 * 0)%nat with i by lia. reflexivity.
  - cbn [lookup list_lookup] in Hj. apply IH in Hj.
    replace (i + 7 * S j)%nat with (i + 7 + 7 * j)%nat by lia. exact Hj.
Qed.

Lemma week_cell (days : list Date) (fuel j c : nat) (week : list Date) (d : Date) :
  weeksLoop fuel 0 days !! j = Some week -> week !! c = Some d ->
  (c < 7)%nat /\ days !! (7 * j + c)%nat = Some d.
Proof.
  intros Hj Hc. apply weeksLoop_lookup in Hj. subst week.
  rewrite lookup_take, lookup_drop in Hc.
  destruct (decide (c < 7)%nat) as [Hlt | Hge]; [| discriminate].
  split; [exact Hlt | exact Hc].
Qed.

Lemma month_at_most_31 (month : Date) :
  monthLastDay month <= monthFirstDay month + 30.
Proof.
  unfold monthFirstDay, monthLastDay. pose proof (getMonth_bounds month) as Hm.
  rewrite MakeDay_next_month by exact Hm. rewrite dayOf_first.
  assert (Hl : 0 <= InLeapYear (getFullYear month) <= 1)
    by (destruct (InLeapYear_cases (getFullYear month)); lia).
  revert Hm Hl. generalize (getMonth month) (InLeapYear (getFullYear month)).
  intros m leap Hm Hl. unfold monthStart. table_cases.
Qed.

Lemma concat_length_weeks (grid : list (list Date)) :
  Forall (fun week => length week = 7%nat) grid ->
  length (concat grid) = (7 * length grid)%nat.
Proof.
  induction 1 as [| week grid Hw _ IH]; [reflexivity |].
  cbn [concat length]. rewrite length_app, IH, Hw. lia.
Qed.

(** The columns of the grid are the days of the week. *)
Lemma cell_weekday (month : Date) (j k : nat) (week : list Date) (d : Date) :
  getDaysInMonth month true !! j = Some week -> week !! k = Some d ->
  (k < 7)%nat /\ getDay d = Z.of_nat k.
Proof.
  intros Hj Hk.
  rewrite getDaysInMonth_weeks in Hj.
  destruct (week_cell _ _ _ _ _ _ Hj Hk) as [Hlt Hd].
  split; [exact Hlt |].
  destruct (days_lookup _ _ _ _ _ (daysOf_true_days month) Hd) as [Hday _].
  rewrite getDay_dayOf, Hday.
  unfold daysBefore. Z.div_mod_to_equations. lia.
Qed.

(** The grid has four to six weeks, and the month 28 to 31 days. *)
Lemma grid_size (month : Date) :
  (4 <= length (getDaysInMonth month true) <= 6)%nat /\
  (28 <= length (concat (getDaysInMonth month false)) <= 31)%nat.
Proof.
  pose proof (pad_bounds month) as [Hkb Hab].
  pose proof (month_at_least_28 month) as Hlo.
  pose proof (month_at_most_31 month) as Hhi.
  split.
  - pose proof (concat_length_weeks _ (grid_weeks_full month)) as Hlen.
    rewrite grid_concat in Hlen.
    rewrite <- (length_map dayOf), daysOf_true_days, length_seqZ in Hlen.
    lia.
  - rewrite grid_concat.
    rewrite <- (length_map dayOf), daysOf_false_days, length_seqZ.
    lia.
Qed.
End GridShape.

(** ** [Date] objects away from the ends of the range and from any
    change of the zone's offset *)

(** Around a month that is forty days inside the range of [Date], in
    a zone that keeps one offset for forty days before and after it,
    the methods of [Host] are the functions of [JSDate] on the local
    date, and the grid of the objects is the grid of the local dates. *)
Module HostFacts.
Import JSDate DateRangePicker CalendarFacts GridFacts.

(** Lists under [map]. *)
Lemma lookup_map {A B : Type} (f : A -> B) (l : list A) (i : nat) (y : B) :
  map f l !! i = Some y -> exists x, l !! i = Some x /\ y = f x.
Proof.
  rewrite list_lookup_fmap. destruct (l !! i) as [x |]; [| discriminate].
  intros Hy. injection Hy as <-. exists x. split; reflexivity.
Qed.

Lemma map_lookup {A B : Type} (f : A -> B) (l : list A) (i : nat) (x : A) :
  l !! i = Some x -> map f l !! i = Some (f x).
Proof. intros Hx. rewrite list_lookup_fmap, Hx. reflexivity. Qed.

Lemma Forall_length_map {A B : Type} (f : A -> B) (P : nat -> Prop)
    (g : list (list A)) :
  Forall (fun w => P (length w)) g ->
  Forall (fun w => P (length w)) (map (map f) g).
Proof.
  induction 1 as [| w g Hw _ IH]; cbn [map]; constructor; [| exact IH].
  rewrite length_map. exact Hw.
Qed.

Lemma head_lookup_0 {A : Type} (l : list A) (x : A) :
  head l = Some x -> l !! 0%nat = Some x.
Proof. destruct l; [discriminate |]. intros H. exact H. Qed.

Lemma head_map {A B : Type} (f : A -> B) (l : list A) (x : A) :
  head l = Some x -> head (map f l) = Some (f x).
Proof. destruct l; [discriminate |]. intros H. injection H as ->. reflexivity. Qed.

Lemma last_map {A B : Type} (f : A -> B) (l : list A) (x : A) :
  last l = Some x -> last (map f l) = Some (f x).
Proof. intros H. rewrite fmap_last, H. reflexivity. Qed.

Lemma elem_of_map {A B : Type} (f : A -> B) (l : list A) (y : B) :
  y ∈ map f l -> exists x, y = f x /\ x ∈ l.
Proof. intros H. apply list_elem_of_fmap in H. exact H. Qed.

(** The calendar. *)
Lemma first_last_near (m : Date) :
  dayOf m - 30 <= monthFirstDay m <= dayOf m /\
  dayOf m <= monthLastDay m <= dayOf m + 30.
Proof.
  pose proof (month_nonempty m). pose proof (GridShape.month_at_most_31 m). lia.
Qed.

Lemma getDay_range (d : Date) : 0 <= getDay d <= 6.
Proof. rewrite getDay_dayOf. Z.div_mod_to_equations. lia. Qed.

Lemma dayOf_setHours (d : Date) (h mi s ms : Z) :
  0 <= MakeTime h mi s ms < msPerDay -> dayOf (setHours d h mi s ms) = dayOf d.
Proof. intros Ht. rewrite setHours_eq. apply dayOf_at, Ht. Qed.

Lemma dayOf_setFullYear (d : Date) (y mo dt : Z) :
  dayOf (setFullYear d y mo dt) = MakeDay y mo dt.
Proof.
  unfold setFullYear, dayOf. cbn [getTime]. apply Day_MakeDate, TimeWithinDay_bounds.
Qed.

(** Objects and their time values. *)
Lemma lt_obj (c : Z) (a b : Date) :
  Host.lt (Host.objectAt c a) (Host.objectAt c b) = (getTime a <? getTime b).
Proof.
  unfold Host.lt, Host.objectAt.
  destruct (Z.ltb_spec (getTime a - c) (getTime b - c));
    destruct (Z.ltb_spec (getTime a) (getTime b)); lia || reflexivity.
Qed.

Lemma le_obj (c : Z) (a : Date) (e : Z) :
  Host.le (Host.objectAt c a) (Some (e - c)) = (getTime a <=? e).
Proof.
  unfold Host.le, Host.objectAt.
  destruct (Z.leb_spec (getTime a - c) (e - c));
    destruct (Z.leb_spec (getTime a) e); lia || reflexivity.
Qed.

(** A valid object is the object of its local date. *)
Lemma object_of_local (c t : Z) : Some t = Host.objectAt c (mkDate (t + c)).
Proof. unfold Host.objectAt. cbn [getTime]. f_equal. lia. Qed.

Lemma safe_local (c t : Z) :
  Z.abs t <= Host.maxTime - 40 * msPerDay ->
  Z.abs (getTime (mkDate (t + c)) - c) <= Host.maxTime - 40 * msPerDay.
Proof. cbn [getTime]. intros H. replace (t + c - c) with t by lia. exact H. Qed.

Lemma steady_local (LocalTZA : Z -> bool -> Z) (c t : Z) :
  Host.steady LocalTZA c t ->
  Host.steady LocalTZA c (getTime (mkDate (t + c)) - c).
Proof. cbn [getTime]. intros H. replace (t + c - c) with t by lia. exact H. Qed.

Lemma fixedOffset_steady (c t : Z) : Host.steady (Host.fixedOffset c) c t.
Proof. intros u. split; intros _; reflexivity. Qed.

Lemma weeksLoop_obj (c : Z) (days : list Date) (fuel i : nat) :
  Host.weeksLoop fuel i (map (Host.objectAt c) days)
  = map (map (Host.objectAt c)) (weeksLoop fuel i days).
Proof.
  revert i. induction fuel as [| fuel IH]; intros i; [reflexivity |].
  cbn [Host.weeksLoop weeksLoop]. rewrite length_map.
  destruct (i <? length days)%nat; [| reflexivity].
  cbn [map]. rewrite IH. f_equal.
  unfold slice. rewrite skipn_map, firstn_map. reflexivity.
Qed.

Lemma grid_unfold (zone : Z -> bool -> Z) (month : Host.DateObject)
    (showOutsideDays : bool) :
  Host.getDaysInMonth zone month showOutsideDays
  = let start := Host.startOfMonth zone month in
    let end_ := Host.endOfMonth zone month in
    let days :=
      (if showOutsideDays && Host.lt (Some 0) (Host.getDay zone start)
       then Host.prependLoop zone (Host.setDate zone start (Some 0))
              (Host.turns (Host.getDay zone start))
       else [])
      ++ Host.eachDayOfInterval zone start end_ in
    let days :=
      if showOutsideDays && Host.lt (Some 0) (Host.sub (Some 6) (Host.getDay zone end_))
      then days ++ Host.appendLoop zone
                     (Host.setDate zone end_ (Host.plus (Host.getDate zone end_) 1))
                     0 (Host.turns (Host.sub (Some 6) (Host.getDay zone end_)))
      else days in
    Host.weeksLoop (length days) 0 days.
Proof. reflexivity. Qed.

(** *** Around the month *)

Section Steady.
Variables (LocalTZA : Z -> bool -> Z) (c : Z) (m : Date).
Hypothesis safe : Z.abs (getTime m - c) <= Host.maxTime - 40 * msPerDay.
Hypothesis steady : Host.steady LocalTZA c (getTime m - c).

Lemma near_month : Host.near m m.
Proof. unfold Host.near. lia. Qed.

Lemma near_day (d : Date) (z : Z) :
  dayOf d = z -> dayOf m - 38 <= z <= dayOf m + 38 -> Host.near m d.
Proof. intros <- H. exact H. Qed.

Lemma near_time (d : Date) :
  Host.near m d -> Z.abs (getTime d - getTime m) <= 40 * msPerDay.
Proof.
  unfold Host.near. intros Hd.
  rewrite (getTime_split d), (getTime_split m).
  pose proof (TimeWithinDay_bounds (getTime d)).
  pose proof (TimeWithinDay_bounds (getTime m)).
  unfold msPerDay in *. lia.
Qed.

Lemma near_in_range (d : Date) : Host.near m d -> Host.inRange c d.
Proof.
  intros Hd. apply near_time in Hd. unfold Host.inRange.
  unfold Host.maxTime, msPerDay in *. lia.
Qed.

(** Near the month, the methods of the objects are the functions of
    [JSDate] on the local date. *)
Lemma localDate_obj (d : Date) :
  Host.near m d -> Host.localDate LocalTZA (Host.objectAt c d) = Some d.
Proof.
  intros Hd. apply near_time in Hd.
  destruct d as [t]. cbn [getTime] in Hd.
  unfold Host.localDate, Host.objectAt, Host.LocalTime. cbn [getTime option_map].
  destruct (steady (t - c)) as [Hutc _].
  rewrite Hutc by (replace (t - c - (getTime m - c)) with (t - getTime m) by lia;
                   exact Hd).
  f_equal. f_equal. lia.
Qed.

Lemma ofLocal_obj (d : Date) :
  Host.near m d -> Host.ofLocal LocalTZA d = Host.objectAt c d.
Proof.
  intros Hd. pose proof (near_in_range d Hd) as Hr. apply near_time in Hd.
  unfold Host.ofLocal, Host.UTC.
  destruct (steady (getTime d)) as [_ Hloc].
  rewrite Hloc by (replace (getTime m - c + c) with (getTime m) by lia; exact Hd).
  unfold Host.TimeClip, Host.inRange, Host.objectAt in *.
  destruct (Z.ltb_spec Host.maxTime (Z.abs (getTime d - c))); [lia | reflexivity].
Qed.

Lemma getFullYear_obj (d : Date) :
  Host.near m d ->
  Host.getFullYear LocalTZA (Host.objectAt c d) = Some (getFullYear d).
Proof.
  intros Hd. unfold Host.getFullYear. rewrite localDate_obj by exact Hd. reflexivity.
Qed.

Lemma getMonth_obj (d : Date) :
  Host.near m d -> Host.getMonth LocalTZA (Host.objectAt c d) = Some (getMonth d).
Proof.
  intros Hd. unfold Host.getMonth. rewrite localDate_obj by exact Hd. reflexivity.
Qed.

Lemma getDate_obj (d : Date) :
  Host.near m d -> Host.getDate LocalTZA (Host.objectAt c d) = Some (getDate d).
Proof.
  intros Hd. unfold Host.getDate. rewrite localDate_obj by exact Hd. reflexivity.
Qed.

Lemma getDay_obj (d : Date) :
  Host.near m d -> Host.getDay LocalTZA (Host.objectAt c d) = Some (getDay d).
Proof.
  intros Hd. unfold Host.getDay. rewrite localDate_obj by exact Hd. reflexivity.
Qed.

Lemma dayOf_obj (d : Date) :
  Host.near m d -> Host.dayOf LocalTZA (Host.objectAt c d) = Some (dayOf d).
Proof.
  intros Hd. unfold Host.dayOf. rewrite localDate_obj by exact Hd. reflexivity.
Qed.

Lemma setDate_obj (d : Date) (n : Z) :
  Host.near m d -> Host.near m (setDate d n) ->
  Host.setDate LocalTZA (Host.objectAt c d) (Some n) = Host.objectAt c (setDate d n).
Proof.
  intros Hd Hn. unfold Host.setDate. rewrite localDate_obj by exact Hd.
  apply ofLocal_obj, Hn.
Qed.

Lemma setHours_obj (d : Date) (h mi s ms : Z) :
  Host.near m d -> Host.near m (setHours d h mi s ms) ->
  Host.setHours LocalTZA (Host.objectAt c d) h mi s ms
  = Host.objectAt c (setHours d h mi s ms).
Proof.
  intros Hd Hn. unfold Host.setHours. rewrite localDate_obj by exact Hd.
  apply ofLocal_obj, Hn.
Qed.

Lemma setFullYear_obj (d : Date) (y mo dt : Z) :
  Host.near m d -> Host.near m (setFullYear d y mo dt) ->
  Host.setFullYear LocalTZA (Host.objectAt c d) (Some y) (Some mo) dt
  = Host.objectAt c (setFullYear d y mo dt).
Proof.
  intros Hd Hn. unfold Host.setFullYear. rewrite localDate_obj by exact Hd.
  apply ofLocal_obj, Hn.
Qed.

(** What is near the month. *)
Lemma near_at (z t : Z) :
  0 <= t < msPerDay -> dayOf m - 38 <= z <= dayOf m + 38 ->
  Host.near m (mkDate (MakeDate z t)).
Proof. intros Ht Hz. apply (near_day _ z); [apply dayOf_at, Ht | exact Hz]. Qed.

Lemma near_start : Host.near m (startOfMonth m).
Proof.
  pose proof (first_last_near m). rewrite startOfMonth_first.
  apply near_at; [exact midnight_bounds | lia].
Qed.

Lemma near_end : Host.near m (endOfMonth m).
Proof.
  pose proof (first_last_near m). rewrite endOfMonth_last.
  apply near_at; [exact end_of_day_bounds | lia].
Qed.

Lemma near_prevMonthEnd : Host.near m (setDate (startOfMonth m) 0).
Proof.
  pose proof (first_last_near m).
  apply (near_day _ (monthFirstDay m - 1)); [| lia].
  rewrite dayOf_setDate, getDate_start, startOfMonth_first,
    dayOf_at by exact midnight_bounds. lia.
Qed.

Lemma nextMonthStart_day :
  dayOf (setDate (endOfMonth m) (getDate (endOfMonth m) + 1)) = monthLastDay m + 1.
Proof.
  rewrite dayOf_setDate, endOfMonth_last, dayOf_at by exact end_of_day_bounds. lia.
Qed.

Lemma near_nextMonthStart :
  Host.near m (setDate (endOfMonth m) (getDate (endOfMonth m) + 1)).
Proof.
  pose proof (first_last_near m).
  apply (near_day _ _ nextMonthStart_day). lia.
Qed.

(** Dates on a run of days close to the month are near it. *)
Lemma days_near (l : list Date) (lo n : Z) :
  map dayOf l = seqZ lo n ->
  dayOf m - 38 <= lo -> lo + n - 1 <= dayOf m + 38 ->
  Forall (Host.near m) l.
Proof.
  intros Hmap Hlo Hhi. apply Forall_lookup. intros i x Hx.
  destruct (days_lookup l lo n i x Hmap Hx) as [Hday Hlt].
  unfold Host.near. lia.
Qed.

Lemma near_prepended :
  Forall (Host.near m)
    (prependLoop (setDate (startOfMonth m) 0) (Z.to_nat (getDay (startOfMonth m)))).
Proof.
  pose proof (first_last_near m) as Hn. pose proof (pad_bounds m) as [Hkb Hab].
  assert (Hday : dayOf (setDate (startOfMonth m) 0) = monthFirstDay m - 1).
  { rewrite dayOf_setDate, getDate_start, startOfMonth_first,
      dayOf_at by exact midnight_bounds. lia. }
  apply (days_near _ _ _ (prependLoop_days _ _));
    rewrite Hday, getDay_start; lia.
Qed.

Lemma near_appended :
  Forall (Host.near m)
    (appendLoop (setDate (endOfMonth m) (getDate (endOfMonth m) + 1)) 0
       (Z.to_nat (6 - getDay (endOfMonth m)))).
Proof.
  pose proof (first_last_near m) as Hn. pose proof (pad_bounds m) as [Hkb Hab].
  apply (days_near _ _ _ (appendLoop_days _ _ _));
    rewrite nextMonthStart_day, ?getDay_end; lia.
Qed.

(** Every cell of the grid is within a week of the month. *)
Lemma cell_near (b : bool) (i : nat) (x : Date) :
  daysOf m b !! i = Some x -> Host.near m x.
Proof.
  intros Hx. pose proof (pad_bounds m) as [Hkb Hab].
  pose proof (first_last_near m) as Hn. unfold Host.near.
  destruct b.
  - destruct (days_lookup _ _ _ _ _ (daysOf_true_days m) Hx). lia.
  - destruct (days_lookup _ _ _ _ _ (daysOf_false_days m) Hx). lia.
Qed.

Lemma near_startOfDay (x : Date) : Host.near m x -> Host.near m (startOfDay x).
Proof.
  intros Hx. apply (near_day _ (dayOf x)); [| exact Hx].
  unfold startOfDay. apply dayOf_setHours.
  rewrite MakeTime_midnight. exact midnight_bounds.
Qed.

(** The functions of date-fns and the loops. *)
Lemma startOfMonth_obj :
  Host.startOfMonth LocalTZA (Host.objectAt c m) = Host.objectAt c (startOfMonth m).
Proof.
  pose proof (first_last_near m) as Hn.
  assert (H1 : Host.near m (setDate m 1)).
  { apply (near_day _ (monthFirstDay m)); [| lia].
    rewrite dayOf_setDate. unfold monthFirstDay. lia. }
  unfold Host.startOfMonth.
  rewrite setDate_obj by (exact near_month || exact H1).
  apply setHours_obj; [exact H1 | exact near_start].
Qed.

Lemma endOfMonth_obj :
  Host.endOfMonth LocalTZA (Host.objectAt c m) = Host.objectAt c (endOfMonth m).
Proof.
  pose proof (first_last_near m) as Hn.
  assert (H1 : Host.near m (setFullYear m (getFullYear m) (getMonth m + 1) 0)).
  { apply (near_day _ (monthLastDay m)); [| lia]. apply dayOf_setFullYear. }
  unfold Host.endOfMonth. cbv zeta.
  rewrite getMonth_obj, getFullYear_obj by exact near_month.
  cbn [Host.plus option_map].
  rewrite setFullYear_obj by (exact near_month || exact H1).
  apply setHours_obj; [exact H1 | exact near_end].
Qed.

Lemma eachDayLoop_obj (fuel : nat) (z e t : Z) :
  0 <= t < msPerDay -> dayOf m - 38 <= z -> e + 1 <= dayOf m + 38 ->
  Host.eachDayLoop LocalTZA fuel
    (Host.objectAt c (mkDate (MakeDate z 0))) (Some (MakeDate e t - c))
  = map (Host.objectAt c) (eachDayLoop fuel (mkDate (MakeDate z 0)) (MakeDate e t)).
Proof.
  intros Ht. revert z. induction fuel as [| fuel IH]; intros z Hlo Hhi; [reflexivity |].
  cbn [Host.eachDayLoop eachDayLoop]. rewrite le_obj. cbn [getTime].
  destruct (Z.leb_spec (MakeDate z 0) (MakeDate e t)) as [Hle | Hgt]; [| reflexivity].
  apply MakeDate_le in Hle; [| exact Ht].
  cbn [map]. f_equal.
  assert (Hz : Host.near m (mkDate (MakeDate z 0)))
    by (apply near_at; [exact midnight_bounds | lia]).
  assert (Hstep : Host.near m (setDate (mkDate (MakeDate z 0))
                                 (getDate (mkDate (MakeDate z 0)) + 1))).
  { apply (near_day _ (z + 1)); [| lia].
    rewrite dayOf_setDate, dayOf_at by exact midnight_bounds. lia. }
  assert (Hnext : Host.near m (mkDate (MakeDate (z + 1) 0)))
    by (apply near_at; [exact midnight_bounds | lia]).
  rewrite getDate_obj by exact Hz. cbn [Host.plus option_map].
  rewrite setDate_obj by (exact Hz || exact Hstep).
  rewrite setHours_obj by (exact Hstep || (rewrite next_day; exact Hnext)).
  rewrite next_day. apply IH; lia.
Qed.

Lemma eachDayOfInterval_obj :
  Host.eachDayOfInterval LocalTZA
    (Host.objectAt c (startOfMonth m)) (Host.objectAt c (endOfMonth m))
  = map (Host.objectAt c) (eachDayOfInterval (startOfMonth m) (endOfMonth m)).
Proof.
  pose proof (first_last_near m) as Hn.
  pose proof near_start as Hs. pose proof near_end as He.
  rewrite startOfMonth_first in Hs. rewrite endOfMonth_last in He.
  unfold Host.eachDayOfInterval, eachDayOfInterval. cbv zeta.
  rewrite lt_obj, startOfMonth_first, endOfMonth_last. cbn [getTime].
  assert (Hrev : (MakeDate (monthLastDay m) 86399999 <? MakeDate (monthFirstDay m) 0)
                 = false).
  { apply Z.ltb_ge. apply MakeDate_le; [exact end_of_day_bounds | lia]. }
  rewrite Hrev.
  assert (Hcur : setHours (mkDate (MakeDate (monthFirstDay m) 0)) 0 0 0 0
                 = mkDate (MakeDate (monthFirstDay m) 0)).
  { rewrite setHours_eq, MakeTime_midnight, dayOf_at by exact midnight_bounds.
    reflexivity. }
  rewrite setHours_obj by (exact Hs || (rewrite Hcur; exact Hs)).
  rewrite Hcur, !dayOf_obj by (exact Hs || exact He).
  rewrite !dayOf_at by (exact midnight_bounds || exact end_of_day_bounds).
  cbn [Host.sub Host.plus option_map Host.turns getTime].
  rewrite !Day_MakeDate by (exact midnight_bounds || exact end_of_day_bounds).
  apply eachDayLoop_obj; [exact end_of_day_bounds | lia | lia].
Qed.

Lemma prependLoop_obj (p : Date) (i : nat) :
  Host.near m p -> Forall (Host.near m) (prependLoop p i) ->
  Host.prependLoop LocalTZA (Host.objectAt c p) i
  = map (Host.objectAt c) (prependLoop p i).
Proof.
  intros Hp. induction i as [| i IH]; intros Hall; [reflexivity |].
  cbn [prependLoop] in Hall. apply Forall_cons in Hall as [Hx Hall].
  cbn [Host.prependLoop prependLoop map].
  rewrite getDate_obj by exact Hp. cbn [Host.sub Host.plus option_map].
  rewrite setDate_obj by (exact Hp || exact Hx). rewrite IH by exact Hall.
  reflexivity.
Qed.

Lemma appendLoop_obj (p : Date) (i : Z) (n : nat) :
  Host.near m p -> Forall (Host.near m) (appendLoop p i n) ->
  Host.appendLoop LocalTZA (Host.objectAt c p) i n
  = map (Host.objectAt c) (appendLoop p i n).
Proof.
  intros Hp. revert i. induction n as [| n IH]; intros i Hall; [reflexivity |].
  cbn [appendLoop] in Hall. apply Forall_cons in Hall as [Hx Hall].
  cbn [Host.appendLoop appendLoop map].
  rewrite getDate_obj by exact Hp. cbn [Host.plus option_map].
  rewrite setDate_obj by (exact Hp || exact Hx). rewrite IH by exact Hall.
  reflexivity.
Qed.

(** The grid of the objects is the grid of the local dates. *)
Lemma getDaysInMonth_obj (b : bool) :
  Host.getDaysInMonth LocalTZA (Host.objectAt c m) b
  = map (map (Host.objectAt c)) (getDaysInMonth m b).
Proof.
  rewrite grid_unfold. cbv zeta.
  rewrite startOfMonth_obj, endOfMonth_obj.
  rewrite !getDay_obj, getDate_obj by (exact near_start || exact near_end).
  cbn [Host.lt Host.sub Host.plus Host.turns option_map].
  rewrite eachDayOfInterval_obj.
  rewrite !setDate_obj
    by (exact near_start || exact near_end || exact near_prevMonthEnd
        || exact near_nextMonthStart).
  rewrite prependLoop_obj by (exact near_prevMonthEnd || exact near_prepended).
  rewrite appendLoop_obj by (exact near_nextMonthStart || exact near_appended).
  rewrite getDaysInMonth_unfold. cbv zeta.
  destruct (b && (0 <? getDay (startOfMonth m)));
    destruct (b && (0 <? 6 - getDay (endOfMonth m)));
    cbn [app]; rewrite <- ?map_app, ?length_map; apply weeksLoop_obj.
Qed.

Lemma cells_obj (b : bool) :
  concat (Host.getDaysInMonth LocalTZA (Host.objectAt c m) b)
  = map (Host.objectAt c) (daysOf m b).
Proof.
  rewrite getDaysInMonth_obj, <- concat_map, grid_concat. reflexivity.
Qed.

(** Comparing by month and by day. *)
Lemma isSameMonth_local (t : Z) :
  Host.isSameMonth LocalTZA (Some t) (Host.objectAt c m)
  = isSameMonth (mkDate (Host.LocalTime LocalTZA t)) m.
Proof.
  unfold Host.isSameMonth.
  rewrite (getFullYear_obj m), (getMonth_obj m) by exact near_month.
  reflexivity.
Qed.

Lemma isSameMonth_obj (a : Date) :
  Host.near m a ->
  Host.isSameMonth LocalTZA (Host.objectAt c a) (Host.objectAt c m) = isSameMonth a m.
Proof.
  intros Ha. unfold Host.isSameMonth.
  rewrite (getFullYear_obj m), (getMonth_obj m) by exact near_month.
  rewrite (getFullYear_obj a), (getMonth_obj a) by exact Ha.
  reflexivity.
Qed.

Lemma startOfDay_obj (x : Date) :
  Host.near m x ->
  Host.startOfDay LocalTZA (Host.objectAt c x) = Host.objectAt c (startOfDay x).
Proof.
  intros Hx. unfold Host.startOfDay.
  apply setHours_obj; [exact Hx | apply near_startOfDay, Hx].
Qed.

Lemma startOfDay_local (t : Z) :
  Host.near m (mkDate (Host.LocalTime LocalTZA t)) ->
  Host.startOfDay LocalTZA (Some t)
  = Host.objectAt c (startOfDay (mkDate (Host.LocalTime LocalTZA t))).
Proof.
  intros Hd. unfold Host.startOfDay, Host.setHours. cbn [Host.localDate option_map].
  apply ofLocal_obj, near_startOfDay, Hd.
Qed.

Lemma isSameDay_local (x : Date) (t : Z) :
  Host.near m x -> Host.near m (mkDate (Host.LocalTime LocalTZA t)) ->
  Host.isSameDay LocalTZA (Host.objectAt c x) (Some t)
  = isSameDay x (mkDate (Host.LocalTime LocalTZA t)).
Proof.
  intros Hx Hd. unfold Host.isSameDay.
  rewrite startOfDay_obj by exact Hx. rewrite startOfDay_local by exact Hd.
  unfold Host.objectAt, isSameDay.
  generalize (getTime (startOfDay x))
    (getTime (startOfDay (mkDate (Host.LocalTime LocalTZA t)))).
  intros u v.
  destruct (Z.eqb_spec (u - c) (v - c)); destruct (Z.eqb_spec u v);
    lia || reflexivity.
Qed.

(** *** The properties of the grid *)

Lemma consecutive_obj (l : list Date) (lo n : Z) :
  map dayOf l = seqZ lo n -> Forall (Host.near m) l ->
  Host.consecutiveDays LocalTZA (map (Host.objectAt c) l).
Proof.
  intros Hmap Hnear i a b Ha Hb.
  apply lookup_map in Ha as (x & Hx & ->).
  apply lookup_map in Hb as (y & Hy & ->).
  destruct (days_consecutive l lo n Hmap i x y Hx Hy) as [Hday Hlt].
  pose proof (proj1 (Forall_lookup _ _) Hnear i x Hx) as Hnx.
  pose proof (proj1 (Forall_lookup _ _) Hnear (S i) y Hy) as Hny.
  split.
  - exists (dayOf x). rewrite !dayOf_obj by (exact Hnx || exact Hny).
    rewrite Hday. split; reflexivity.
  - rewrite lt_obj. apply Z.ltb_lt, Hlt.
Qed.

Lemma cells_near (b : bool) : Forall (Host.near m) (daysOf m b).
Proof. apply Forall_lookup. intros i x. apply cell_near. Qed.

Lemma weeks_full :
  Forall (fun week => length week = 7%nat)
    (Host.getDaysInMonth LocalTZA (Host.objectAt c m) true).
Proof.
  rewrite getDaysInMonth_obj.
  apply (Forall_length_map _ (fun n => n = 7%nat)), grid_weeks_full.
Qed.

Lemma weeks_sizes :
  Forall (fun week => (1 <= length week <= 7)%nat)
    (Host.getDaysInMonth LocalTZA (Host.objectAt c m) false).
Proof.
  rewrite getDaysInMonth_obj.
  apply (Forall_length_map _ (fun n => (1 <= n <= 7)%nat)).
  rewrite getDaysInMonth_weeks. apply weeksLoop_sizes.
Qed.

Lemma cells_consecutive (b : bool) :
  Host.consecutiveDays LocalTZA
    (concat (Host.getDaysInMonth LocalTZA (Host.objectAt c m) b)).
Proof.
  rewrite cells_obj. destruct b.
  - apply (consecutive_obj _ _ _ (daysOf_true_days m)), cells_near.
  - apply (consecutive_obj _ _ _ (daysOf_false_days m)), cells_near.
Qed.

Lemma starts_sunday :
  exists sunday s f,
    head (concat (Host.getDaysInMonth LocalTZA (Host.objectAt c m) true))
    = Some sunday /\
    Host.getDay LocalTZA sunday = Some 0 /\
    Host.dayOf LocalTZA sunday = Some s /\
    Host.dayOf LocalTZA (Host.startOfMonth LocalTZA (Host.objectAt c m)) = Some f /\
    s <= f < s + 7.
Proof.
  rewrite cells_obj, startOfMonth_obj.
  destruct (grid_starts_sunday m) as (s0 & Hhead & Hday & Hle).
  pose proof (cell_near true 0 s0 (head_lookup_0 _ _ Hhead)) as Hs0.
  exists (Host.objectAt c s0), (dayOf s0), (dayOf (startOfMonth m)).
  split; [| split; [| split; [| split]]].
  - apply head_map, Hhead.
  - rewrite getDay_obj by exact Hs0. rewrite Hday. reflexivity.
  - apply dayOf_obj, Hs0.
  - apply dayOf_obj, near_start.
  - exact Hle.
Qed.

Lemma first_of_month :
  Host.getDate LocalTZA (Host.startOfMonth LocalTZA (Host.objectAt c m)) = Some 1 /\
  Host.isSameMonth LocalTZA
    (Host.startOfMonth LocalTZA (Host.objectAt c m)) (Host.objectAt c m) = true.
Proof.
  rewrite startOfMonth_obj. split.
  - rewrite getDate_obj by exact near_start. rewrite getDate_start. reflexivity.
  - rewrite isSameMonth_obj by exact near_start. apply same_month_range.
    rewrite startOfMonth_first, dayOf_at by exact midnight_bounds.
    pose proof (month_at_least_28 m). lia.
Qed.

Lemma ends_saturday :
  exists saturday,
    last (concat (Host.getDaysInMonth LocalTZA (Host.objectAt c m) true))
    = Some saturday /\
    Host.getDay LocalTZA saturday = Some 6.
Proof.
  rewrite cells_obj.
  destruct (grid_ends_saturday m) as (s0 & Hlast & Hday).
  assert (Hs0 : Host.near m s0).
  { rewrite last_lookup in Hlast. exact (cell_near true _ s0 Hlast). }
  exists (Host.objectAt c s0). split.
  - apply last_map, Hlast.
  - rewrite getDay_obj by exact Hs0. rewrite Hday. reflexivity.
Qed.

Lemma has_month (b : bool) (d : Host.DateObject) :
  Host.isSameMonth LocalTZA d (Host.objectAt c m) = true ->
  Host.appearsOnce LocalTZA d
    (concat (Host.getDaysInMonth LocalTZA (Host.objectAt c m) b)).
Proof.
  rewrite cells_obj. intros Hsame.
  destruct d as [t |]; [| discriminate].
  rewrite isSameMonth_local in Hsame.
  assert (Hdl : Host.near m (mkDate (Host.LocalTime LocalTZA t))).
  { pose proof (first_last_near m) as Hn.
    apply same_month_range in Hsame. unfold Host.near. lia. }
  destruct (grid_has_month m _ b Hsame) as (i & (x & Hx & Hxd) & Huniq).
  exists i. split.
  - exists (Host.objectAt c x). split.
    + apply map_lookup, Hx.
    + rewrite isSameDay_local by (exact (cell_near b i x Hx) || exact Hdl).
      exact Hxd.
  - intros j y Hy Hyd. apply lookup_map in Hy as (y0 & Hy0 & ->).
    rewrite isSameDay_local in Hyd by (exact (cell_near b j y0 Hy0) || exact Hdl).
    exact (Huniq j y0 Hy0 Hyd).
Qed.

Lemma only_month (x : Host.DateObject) :
  x ∈ concat (Host.getDaysInMonth LocalTZA (Host.objectAt c m) false) ->
  Host.isSameMonth LocalTZA x (Host.objectAt c m) = true.
Proof.
  rewrite cells_obj. intros Hx.
  apply elem_of_map in Hx as (x0 & -> & Hx0).
  apply list_elem_of_lookup in Hx0 as (i & Hi).
  rewrite isSameMonth_obj by exact (cell_near false i x0 Hi).
  apply grid_only_month. apply list_elem_of_lookup. exists i. exact Hi.
Qed.

Lemma cell_weekday_obj (j k : nat) (week : list Host.DateObject)
    (d : Host.DateObject) :
  Host.getDaysInMonth LocalTZA (Host.objectAt c m) true !! j = Some week ->
  week !! k = Some d ->
  (k < 7)%nat /\ Host.getDay LocalTZA d = Some (Z.of_nat k).
Proof.
  rewrite getDaysInMonth_obj. intros Hj Hk.
  apply lookup_map in Hj as (week0 & Hj0 & ->).
  apply lookup_map in Hk as (d0 & Hk0 & ->).
  destruct (GridShape.cell_weekday _ _ _ _ _ Hj0 Hk0) as [Hlt Hday].
  split; [exact Hlt |].
  rewrite getDaysInMonth_weeks in Hj0.
  destruct (GridShape.week_cell _ _ _ _ _ _ Hj0 Hk0) as [_ Hd0].
  rewrite getDay_obj by exact (cell_near true _ d0 Hd0).
  rewrite Hday. reflexivity.
Qed.

Lemma grid_size_obj :
  (4 <= length (Host.getDaysInMonth LocalTZA (Host.objectAt c m) true) <= 6)%nat /\
  (28 <= length (concat (Host.getDaysInMonth LocalTZA (Host.objectAt c m) false))
     <= 31)%nat.
Proof.
  rewrite cells_obj, getDaysInMonth_obj.
  rewrite !length_map, <- grid_concat.
  apply GridShape.grid_size.
Qed.

(** *** The weekday header *)

Section Weekdays.
Variable format : Z -> string -> string.

Lemma weekdaysLoop_obj (s : Date) (pattern : string) (i : Z) (n : nat) :
  Host.near m s -> Forall (Host.near m) (appendLoop s i n) ->
  Host.weekdaysLoop LocalTZA format (Host.objectAt c s) pattern i n
  = map (fun d => format (getTime d - c) pattern) (appendLoop s i n).
Proof.
  intros Hs. revert i. induction n as [| n IH]; intros i Hall; [reflexivity |].
  cbn [appendLoop] in Hall. apply Forall_cons in Hall as [Hx Hall].
  cbn [Host.weekdaysLoop appendLoop map].
  rewrite getDate_obj by exact Hs. cbn [Host.plus option_map].
  rewrite setDate_obj by (exact Hs || exact Hx). rewrite IH by exact Hall.
  reflexivity.
Qed.

(** Here [m] is the current date. *)
Lemma getWeekdays_obj (fmt : WeekdayFormat) :
  exists times : list Z,
    Host.getWeekdays LocalTZA format fmt (Host.objectAt c m)
    = map (fun t => format t
                      (match fmt with
                       | long => "EEEE"
                       | short => "EEE"
                       | narrow => "EEEEE"
                       end))
          times /\
    length times = 7%nat /\
    (forall (i : nat) (t : Z),
        times !! i = Some t -> Host.getDay LocalTZA (Some t) = Some (Z.of_nat i)).
Proof.
  set (sunday := setDate m (getDate m - getDay m)).
  pose proof (getDay_range m) as Hwd.
  assert (Hsun : dayOf sunday = dayOf m - getDay m).
  { unfold sunday. rewrite dayOf_setDate. lia. }
  assert (Hns : Host.near m sunday) by (apply (near_day _ _ Hsun); lia).
  assert (Hdays : map dayOf (appendLoop sunday 0 7) = seqZ (dayOf sunday + 0) 7)
    by apply appendLoop_days.
  assert (Hnear : Forall (Host.near m) (appendLoop sunday 0 7))
    by (apply (days_near _ _ _ Hdays); lia).
  exists (map (fun d => getTime d - c) (appendLoop sunday 0 7)).
  split; [| split].
  - unfold Host.getWeekdays. cbv zeta.
    rewrite getDate_obj, getDay_obj by exact near_month. cbn [Host.sub].
    rewrite setDate_obj by (exact near_month || exact Hns).
    fold sunday. rewrite weekdaysLoop_obj by (exact Hns || exact Hnear).
    rewrite map_map. reflexivity.
  - rewrite length_map, <- (length_map dayOf), Hdays, length_seqZ. reflexivity.
  - intros i u Hu. apply lookup_map in Hu as (d & Hd & ->).
    destruct (days_lookup _ _ _ _ _ Hdays Hd) as [Hday Hlt].
    change (Some (getTime d - c)) with (Host.objectAt c d).
    rewrite getDay_obj by exact (proj1 (Forall_lookup _ _) Hnear i d Hd).
    f_equal. rewrite getDay_dayOf, Hday, Hsun, getDay_dayOf.
    Z.div_mod_to_equations. lia.
Qed.
End Weekdays.

End Steady.
End HostFacts.

(** ** A zone that changes its offset *)

Module ApiaFacts.
Import JSDate.

Lemma apiaChange_value : Host.apiaChange = 1325239200000.
Proof. vm_compute. reflexivity. Qed.

(** Eighty days after the change, Apia has kept its new offset for
    forty days and keeps it for forty more. *)
Lemma apia_steady_after :
  Host.steady Host.apia 50400000 (Host.apiaChange + 80 * msPerDay).
Proof.
  intros t. rewrite apiaChange_value. unfold Host.apia, msPerDay.
  rewrite apiaChange_value.
  split; intros Ht.
  - destruct (Z.ltb_spec t 1325239200000); [lia | reflexivity].
  - destruct (Z.ltb_spec t (1325239200000 + 50400000)); [lia | reflexivity].
Qed.
End ApiaFacts.




(** December 2011 in Pacific/Apia, where 30 December is no day: the
    last week has six cells, and the cell at position 5, under Friday,
    is the 31st, a Saturday. *)
Lemma grid_of_Apia_in_December_2011 :
  let grid := Host.getDaysInMonth Host.apia
                (Some (Host.apiaChange - 15 * JSDate.msPerDay)) true in
  map length grid = [7%nat; 7%nat; 7%nat; 7%nat; 6%nat] /\
  (exists week d,
      last grid = Some week /\ week !! 5%nat = Some d /\
      Host.getDate Host.apia d = Some 31 /\ Host.getDay Host.apia d = Some 6).
Proof.
  cbv zeta. split; [vm_compute; reflexivity |].
  eexists _, _. split; [vm_compute; reflexivity |].
  split; [vm_compute; reflexivity |]. split; vm_compute; reflexivity.
Qed.

(** ** Modal: the focus trap *)

Module FocusFacts.
Import Modal.

Lemma nextIn_found (l1 l2 : list Element) (a b : Element) :
  a ∉ l1 -> nextIn (l1 ++ a :: b :: l2) a = Some b.
Proof.
  induction l1 as [| x l1 IH]; intros Hnot; cbn [app nextIn].
  - rewrite Nat.eqb_refl. reflexivity.
  - rewrite not_elem_of_cons in Hnot. destruct Hnot as [Hne Hnot].
    destruct (Nat.eqb_spec x a) as [-> | _]; [contradiction |].
    apply IH, Hnot.
Qed.

(** Inside a run [seg] of the tab order, every element but the last
    has its successor in [seg]. *)
Lemma nextIn_segment (l1 seg l2 : list Element) (x d : Element) :
  NoDup (l1 ++ seg ++ l2) -> x ∈ seg -> x <> List.last seg d ->
  exists y, nextIn (l1 ++ seg ++ l2) x = Some y /\ y ∈ seg.
Proof.
  intros Hnd Hx Hlast.
  apply list_elem_of_split in Hx as (f1 & f2 & ->).
  destruct f2 as [| b f2].
  - exfalso. apply Hlast. symmetry. apply last_last.
  - exists b. split.
    + replace (l1 ++ (f1 ++ x :: b :: f2) ++ l2)
        with ((l1 ++ f1) ++ x :: b :: (f2 ++ l2))
        by (rewrite <- !app_assoc; reflexivity).
      apply nextIn_found.
      rewrite app_assoc in Hnd. apply NoDup_app in Hnd as (Hnd & _ & _).
      rewrite app_assoc in Hnd. apply NoDup_app in Hnd as (_ & Hdisj & _).
      intros Hin. apply (Hdisj x Hin). apply elem_of_cons. left. reflexivity.
    + rewrite elem_of_app, !elem_of_cons. right. right. left. reflexivity.
Qed.

Lemma last_in (first : Element) (rest : list Element) :
  List.last (first :: rest) first ∈ first :: rest.
Proof.
  destruct (exists_last (l := first :: rest) ltac:(discriminate)) as (l' & a & Heq).
  rewrite Heq, last_last, elem_of_app, elem_of_cons. right. left. reflexivity.
Qed.

(** [focus] on an element that can take it. *)
Lemma focus_taken (el : Element) (pg : Page) :
  el ∈ focusable pg ->
  focus el pg = mkPage (tabOrder pg) (focusable pg) (Some el) (keydownListener pg).
Proof.
  intros Hel. unfold focus. rewrite bool_decide_eq_true_2 by exact Hel. reflexivity.
Qed.

(** Whatever [focus] does, the listener stays as it is. *)
Lemma focus_listener (el : Element) (pg : Page) :
  keydownListener (focus el pg) = keydownListener pg.
Proof. unfold focus. case_bool_decide; reflexivity. Qed.

(** The effect on an open modal whose selector finds [first :: rest],
    when [first] can take focus. *)
Lemma effect_opened (first : Element) (rest : list Element) (t : Trap) (pg : Page) :
  first ∈ focusable pg ->
  effect true true (Some (first :: rest)) t pg
  = (mkTrap (activeElement pg) true,
     mkPage (tabOrder pg) (focusable pg) (Some first)
       (Some (mkListener first (List.last (first :: rest) first)))).
Proof.
  intros Hfirst. unfold effect. cbn [negb orb].
  rewrite focus_taken by exact Hfirst. reflexivity.
Qed.

Section Trap.
Variables (pre rest post canFocus : list Element) (first : Element).
Hypothesis distinct : NoDup (pre ++ (first :: rest) ++ post).
Hypothesis first_focusable : first ∈ canFocus.
Hypothesis last_focusable : List.last (first :: rest) first ∈ canFocus.

Lemma keydown_trapped (e : KeyboardEvent) (pg : Page) :
  trapped (pre ++ (first :: rest) ++ post) canFocus (first :: rest)
    (mkListener first (List.last (first :: rest) first)) pg ->
  trapped (pre ++ (first :: rest) ++ post) canFocus (first :: rest)
    (mkListener first (List.last (first :: rest) first)) (keydown e pg).
Proof.
  intros (Hord & Hfoc & Hlis & x & Hact & Hx).
  unfold keydown. rewrite Hlis. unfold handleKeyDown.
  cbn [firstElement lastElement].
  destruct (String.eqb_spec (key e) "Tab") as [Htab | Hother]; cbn [negb];
    [| split; [exact Hord | split; [exact Hfoc | split; [exact Hlis | exists x; auto]]]].
  destruct (shiftKey e) eqn:Hshift.
  - case_bool_decide as Hfirst.
    + rewrite focus_taken by (rewrite Hfoc; exact last_focusable).
      split; [exact Hord | split; [exact Hfoc | split; [exact Hlis |]]].
      exists (List.last (first :: rest) first). split; [reflexivity | apply last_in].
    + unfold defaultTab. cbn [tabOrder focusable activeElement keydownListener].
      split; [exact Hord | split; [exact Hfoc | split; [exact Hlis |]]].
      rewrite Hact, Hord. cbn [sequentialNext].
      assert (Hrev : reverse (pre ++ (first :: rest) ++ post)
                     = reverse post ++ reverse (first :: rest) ++ reverse pre).
      { rewrite !reverse_app, <- app_assoc. reflexivity. }
      rewrite Hrev.
      destruct (nextIn_segment (reverse post) (reverse (first :: rest))
                  (reverse pre) x first) as (y & Hy & Hin).
      * rewrite <- Hrev, reverse_Permutation. exact distinct.
      * apply elem_of_reverse, Hx.
      * rewrite reverse_cons, last_last. congruence.
      * rewrite Hy. exists y. split; [reflexivity |].
        apply elem_of_reverse, Hin.
  - case_bool_decide as Hlast.
    + rewrite focus_taken by (rewrite Hfoc; exact first_focusable).
      split; [exact Hord | split; [exact Hfoc | split; [exact Hlis |]]].
      exists first. split; [reflexivity |]. apply elem_of_cons. left. reflexivity.
    + unfold defaultTab. cbn [tabOrder focusable activeElement keydownListener].
      split; [exact Hord | split; [exact Hfoc | split; [exact Hlis |]]].
      rewrite Hact, Hord. cbn [sequentialNext].
      destruct (nextIn_segment pre (first :: rest) post x first distinct Hx)
        as (y & Hy & Hin).
      * congruence.
      * rewrite Hy. exists y. split; [reflexivity | exact Hin].
Qed.

(** However many keys are pressed, focus stays in the dialog. *)
Lemma keydowns_trapped (es : list KeyboardEvent) (pg : Page) :
  trapped (pre ++ (first :: rest) ++ post) canFocus (first :: rest)
    (mkListener first (List.last (first :: rest) first)) pg ->
  trapped (pre ++ (first :: rest) ++ post) canFocus (first :: rest)
    (mkListener first (List.last (first :: rest) first)) (keydowns es pg).
Proof.
  revert pg. induction es as [| e es IH]; intros pg Hpg; [exact Hpg |].
  unfold keydowns in *. cbn [fold_left]. apply IH, keydown_trapped, Hpg.
Qed.
End Trap.
End FocusFacts.

(** C6. The trap does not hold for every dialog with a focusable
    element. The selector of [useFocusTrap] goes by tag and attribute,
    so it also finds a disabled button. Here the page's tab order is
    1, 2, 3, 5 and the dialog holds 2, 3 and the disabled button 4;
    elements 1 and 5 are outside. Opening the modal moves focus to 2.
    The listener waits for focus on 4, which never has it: the second
    Tab moves focus from 3 to 5, outside the dialog. Closing the modal
    still brings focus back to 1. *)
Theorem C6_disabled_last_button_lets_focus_out :
  let page := Modal.mkPage [1%nat; 2%nat; 3%nat; 5%nat] [1%nat; 2%nat; 3%nat; 5%nat]
                (Some 1%nat) None in
  let inside := [2%nat; 3%nat; 4%nat] in
  let opened := Modal.effect true true (Some inside) Modal.initialTrap page in
  let tab := Modal.mkKey "Tab" false in
  Modal.activeElement (snd opened) = Some 2%nat /\
  Modal.keydownListener (snd opened) = Some (Modal.mkListener 2%nat 4%nat) /\
  Modal.activeElement (Modal.keydowns [tab] (snd opened)) = Some 3%nat /\
  Modal.activeElement (Modal.keydowns [tab; tab] (snd opened)) = Some 5%nat /\
  (5%nat ∉ inside) /\
  Modal.activeElement
    (Modal.cleanup (fst opened) (Modal.keydowns [tab; tab] (snd opened)))
  = Some 1%nat.
Proof.
  cbv zeta. split; [reflexivity |]. split; [reflexivity |].
  split; [reflexivity |]. split; [reflexivity |]. split; [| reflexivity].
  compute_done.
Qed.

(* ===================================================================== *)
(** * Further properties *)
(* ===================================================================== *)

(** ** More on sorting *)

Lemma clicks_snoc {W} (cb : option (DataTable.SortState -> W -> W))
    (ks : list string) (k : string) (st : DataTable.SortState * W) :
  DataTable.clicks cb (ks ++ [k]) st
  = DataTable.handleSort cb k (DataTable.clicks cb ks st).
Proof. unfold DataTable.clicks. rewrite fold_left_app. reflexivity. Qed.

(** X1. After at least one click the table is always sorted: the
    direction is never [null] again, the clicked column is the only
    one [isSorted] holds of, and the only one with an [aria-sort]
    attribute. *)
Theorem X1_sorted_column_is_last_clicked :
  forall (W : Type) (cb : option (DataTable.SortState -> W -> W))
         (st0 : DataTable.SortState * W) (ks : list string) (k k' : string),
    let sort := fst (DataTable.clicks cb (ks ++ [k]) st0) in
    DataTable.direction sort <> None /\
    (DataTable.isSorted sort k' = true <-> k' = k) /\
    (DataTable.getSortDirection sort k' <> None <-> k' = k) /\
    (DataTable.ariaSort sort k' <> None <-> k' = k).
Proof.
  intros W cb st0 ks k k' sort.
  assert (Hkey : DataTable.key sort = k).
  { unfold sort. rewrite clicks_snoc. reflexivity. }
  assert (Hdir : DataTable.direction sort <> None).
  { unfold sort. rewrite clicks_snoc. cbn.
    destruct (negb _); [discriminate |].
    destruct (DataTable.direction _) as [[|]|]; discriminate. }
  assert (Hsorted : DataTable.isSorted sort k' = true <-> k' = k).
  { unfold DataTable.isSorted. rewrite Hkey, Bool.andb_true_iff.
    rewrite bool_decide_eq_true. split.
    - intros [H _]. apply String.eqb_eq in H. congruence.
    - intros ->. split; [apply String.eqb_refl | exact Hdir]. }
  split; [exact Hdir |]. split; [exact Hsorted |]. split.
  - unfold DataTable.getSortDirection. rewrite Hkey.
    destruct (String.eqb_spec k k') as [-> | Hne].
    + split; [reflexivity | intros _; exact Hdir].
    + split; [intros H; contradiction | intros ->; contradiction].
  - unfold DataTable.ariaSort.
    destruct (DataTable.isSorted sort k') eqn:Hs.
    + split; [intros _; apply Hsorted; reflexivity | discriminate].
    + split; [intros H; contradiction |].
      intros Hk. apply Hsorted in Hk. congruence.
Qed.

(** X2. Once a column is sorted, two more clicks on it bring the sort
    state back: on a sorted column the direction alternates between
    [asc] and [desc] and never leaves these two. *)
Theorem X2_two_clicks_restore_sort :
  forall (W : Type) (cb : option (DataTable.SortState -> W -> W))
         (st0 : DataTable.SortState * W) (ks : list string) (k : string),
    fst (DataTable.clicks cb ((ks ++ [k]) ++ [k; k]) st0)
    = fst (DataTable.clicks cb (ks ++ [k]) st0).
Proof.
  intros W cb st0 ks k.
  unfold DataTable.clicks. rewrite (fold_left_app _ (ks ++ [k]) [k; k]).
  fold (DataTable.clicks cb (ks ++ [k]) st0).
  rewrite clicks_snoc.
  set (st := DataTable.clicks cb ks st0).
  cbn [fold_left DataTable.handleSort fst snd].
  unfold DataTable.nextSort. cbn [DataTable.key DataTable.direction].
  rewrite !String.eqb_refl. cbn [negb].
  destruct (negb (DataTable.key st.1 =? k)%string); [reflexivity |].
  destruct (DataTable.direction st.1) as [[|]|]; reflexivity.
Qed.

(** ** More on pagination *)

Lemma ceil_div_zero (b : Z) : DataTable.ceil_div 0 b = 0.
Proof. unfold DataTable.ceil_div. destruct b; reflexivity. Qed.

(** Without a configuration one action leaves the page at 1 and the
    world as it is. *)
Lemma runAction_uncontrolled {W} (a : DataTable.PageAction)
    (loc : DataTable.PaginationLocal) (w : W) :
  DataTable.localPage loc = 1 ->
  DataTable.localPage (fst (DataTable.runAction None a (loc, w))) = 1 /\
  snd (DataTable.runAction None a (loc, w)) = w.
Proof.
  intros Hp. destruct a as [p | s | |]; cbn [DataTable.runAction fst snd].
  - unfold DataTable.handlePageChange, DataTable.totalPages, DataTable.total.
    rewrite ceil_div_zero. cbn [fst snd DataTable.localPage]. split; [lia | reflexivity].
  - split; reflexivity.
  - unfold DataTable.handleNextPage, DataTable.page, DataTable.totalPages,
      DataTable.total. rewrite ceil_div_zero, Hp.
    cbn. split; [exact Hp | reflexivity].
  - unfold DataTable.handlePrevPage, DataTable.page. rewrite Hp.
    cbn. split; [exact Hp | reflexivity].
Qed.

(** X3. Used without a configuration the hook has no rows to count
    ([total] is 0, so [totalPages] is 0): whatever is requested, with
    page sizes of at least 1, the page stays 1 and nothing outside the
    hook changes. *)
Theorem X3_uncontrolled_page_stays_first :
  forall (W : Type) (acts : list DataTable.PageAction) (w : W),
    Forall (fun a => match a with
                     | DataTable.SetPageSize s => 1 <= s
                     | _ => True
                     end) acts ->
    DataTable.localPage
      (fst (DataTable.runActions None acts (DataTable.initialLocal, w))) = 1 /\
    snd (DataTable.runActions None acts (DataTable.initialLocal, w)) = w.
Proof.
  intros W acts w _.
  assert (H : forall loc, DataTable.localPage loc = 1 ->
            DataTable.localPage (fst (DataTable.runActions None acts (loc, w))) = 1 /\
            snd (DataTable.runActions None acts (loc, w)) = w).
  { induction acts as [| a acts IH]; intros loc Hloc; [split; [exact Hloc | reflexivity] |].
    unfold DataTable.runActions in *. cbn [fold_left].
    destruct (runAction_uncontrolled a loc w Hloc) as [H1 H2].
    destruct (DataTable.runAction None a (loc, w)) as [loc' w'].
    cbn [fst snd] in H1, H2. subst w'. apply IH, H1. }
  apply H. reflexivity.
Qed.

Lemma X3_uncontrolled_page_stays_first_witness :
  DataTable.localPage
    (fst (DataTable.runActions None
            [DataTable.SetPageSize 25; DataTable.SetPage 3; DataTable.NextPage]
            (DataTable.initialLocal, tt))) = 1.
Proof.
  apply (X3_uncontrolled_page_stays_first unit
           [DataTable.SetPageSize 25; DataTable.SetPage 3; DataTable.NextPage] tt).
  repeat constructor. cbn. lia.
Defined.

(** X4. With a configuration the page and the page size belong to the
    parent: no run of requests changes the hook's own state. *)
Theorem X4_controlled_keeps_local_state :
  forall (W : Type) (c : DataTable.PaginationConfig W)
         (acts : list DataTable.PageAction)
         (loc : DataTable.PaginationLocal) (w : W),
    fst (DataTable.runActions (Some c) acts (loc, w)) = loc.
Proof.
  intros W c acts. induction acts as [| a acts IH]; intros loc w; [reflexivity |].
  unfold DataTable.runActions in *. cbn [fold_left].
  assert (Hstep : fst (DataTable.runAction (Some c) a (loc, w)) = loc).
  { destruct a as [p | s | |]; cbn [DataTable.runAction]; try reflexivity.
    - unfold DataTable.handleNextPage. destruct (_ <? _); reflexivity.
    - unfold DataTable.handlePrevPage. destruct (_ <? _); reflexivity. }
  destruct (DataTable.runAction (Some c) a (loc, w)) as [loc' w'].
  cbn [fst] in Hstep. subst loc'. apply IH.
Qed.

(** X5. On a page that exists, "Showing [startIndex] to [endIndex] of
    [total]" names a block of rows that is not empty, lies within
    [1 .. total] and has at most [pageSize] rows; before the last page
    it has exactly [pageSize] rows and the next page starts right
    after it, and the last page ends at [total]. *)
Theorem X5_page_blocks_tile_the_rows :
  forall (W : Type) (c : DataTable.PaginationConfig W)
         (loc : DataTable.PaginationLocal),
    1 <= DataTable.cfg_pageSize c ->
    1 <= DataTable.cfg_page c <= DataTable.totalPages (Some c) loc ->
    let first := DataTable.startIndex (Some c) loc in
    let last := DataTable.endIndex (Some c) loc in
    let next := DataTable.mkConfig (DataTable.cfg_page c + 1)
                  (DataTable.cfg_pageSize c) (DataTable.cfg_total c)
                  (DataTable.onPageChange c) (DataTable.onPageSizeChange c) in
    1 <= first <= last /\ last <= DataTable.cfg_total c /\
    last - first + 1 <= DataTable.cfg_pageSize c /\
    (DataTable.cfg_page c < DataTable.totalPages (Some c) loc ->
       last - first + 1 = DataTable.cfg_pageSize c /\
       DataTable.startIndex (Some next) loc = last + 1) /\
    (DataTable.cfg_page c = DataTable.totalPages (Some c) loc ->
       last = DataTable.cfg_total c).
Proof.
  intros W c loc Hsize Hpage first last next.
  unfold first, last, DataTable.startIndex, DataTable.endIndex, DataTable.page,
    DataTable.pageSize, DataTable.total, DataTable.totalPages in *.
  cbn [DataTable.cfg_page DataTable.cfg_pageSize DataTable.cfg_total next] in *.
  destruct (ceil_div_spec (DataTable.cfg_total c) (DataTable.cfg_pageSize c)
              ltac:(lia)) as [H1 H2].
  set (tp := DataTable.ceil_div _ _) in *.
  set (p := DataTable.cfg_page c) in *. set (ps := DataTable.cfg_pageSize c) in *.
  set (t := DataTable.cfg_total c) in *.
  assert (Hp1 : (p - 1) * ps < t) by nia.
  split; [nia |]. split; [lia |]. split; [nia |]. split.
  - intros Hlt. assert (p * ps <= t) by nia. split; nia.
  - intros Heq. assert (t <= p * ps) by nia. lia.
Qed.

Lemma X5_page_blocks_tile_the_rows_witness :
  DataTable.startIndex (Some (DataTable.recordingConfig 2 10 25)) DataTable.initialLocal = 11 /\
  DataTable.endIndex (Some (DataTable.recordingConfig 2 10 25)) DataTable.initialLocal = 20 /\
  DataTable.startIndex (Some (DataTable.recordingConfig 3 10 25)) DataTable.initialLocal = 21.
Proof.
  pose proof (X5_page_blocks_tile_the_rows (list Z)
                (DataTable.recordingConfig 2 10 25) DataTable.initialLocal
                ltac:(cbn; lia) ltac:(vm_compute; split; discriminate)) as H.
  cbv zeta in H. destruct H as (_ & _ & _ & Hnext & _).
  destruct (Hnext ltac:(vm_compute; reflexivity)) as [_ Hn].
  split; [reflexivity |]. split; [reflexivity |]. exact Hn.
Defined.

(** X6. A table with no rows has no page: [totalPages] is 0, neither
    [nextPage] nor (on page 1) [prevPage] hands the parent anything,
    the footer reads "1 to 0 of 0", and [setPage] hands the parent
    page 1 whatever page is asked for. *)
Theorem X6_empty_table_pagination :
  forall (W : Type) (c : DataTable.PaginationConfig W)
         (loc : DataTable.PaginationLocal) (w : W) (p : Z),
    DataTable.cfg_total c = 0 ->
    1 <= DataTable.cfg_pageSize c ->
    DataTable.cfg_page c = 1 ->
    DataTable.totalPages (Some c) loc = 0 /\
    DataTable.canNextPage (Some c) loc = false /\
    DataTable.canPrevPage (Some c) loc = false /\
    DataTable.handleNextPage (Some c) loc (loc, w) = (loc, w) /\
    DataTable.handlePrevPage (Some c) loc (loc, w) = (loc, w) /\
    DataTable.startIndex (Some c) loc = 1 /\
    DataTable.endIndex (Some c) loc = 0 /\
    DataTable.handlePageChange (Some c) loc p (loc, w)
      = (loc, DataTable.onPageChange c 1 w).
Proof.
  intros W c loc w p Ht Hs Hp.
  assert (Htp : DataTable.totalPages (Some c) loc = 0).
  { unfold DataTable.totalPages, DataTable.total. rewrite Ht. apply ceil_div_zero. }
  unfold DataTable.canNextPage, DataTable.canPrevPage, DataTable.handleNextPage,
    DataTable.handlePrevPage, DataTable.handlePageChange, DataTable.startIndex,
    DataTable.endIndex.
  rewrite Htp. unfold DataTable.page, DataTable.pageSize, DataTable.total.
  rewrite Hp, Ht. cbn [fst snd].
  repeat split; try reflexivity.
  - lia.
  - f_equal. f_equal. lia.
Qed.

Lemma X6_empty_table_pagination_witness :
  DataTable.handlePageChange (Some (DataTable.recordingConfig 1 10 0))
    DataTable.initialLocal 5 (DataTable.initialLocal, [])
  = (DataTable.initialLocal, [1]).
Proof.
  apply (X6_empty_table_pagination (list Z) (DataTable.recordingConfig 1 10 0)
           DataTable.initialLocal [] 5); [reflexivity | cbn; lia | reflexivity].
Defined.

(** ** More on row selection *)

(** X7. Toggling a row touches that row's key only: every other key
    is selected after the call exactly if it was before. With a flag
    the row then reads as the flag says, and without one as the
    opposite of what it read before. *)
Theorem X7_toggleRow_touches_one_key :
  forall (T : Type) (getRowKey : option (T -> Z -> DataTable.RowKey))
         (sel : gset DataTable.RowKey) (row : T) (index : Z)
         (flag : option bool) (other : DataTable.RowKey),
    (other <> DataTable.keyOf getRowKey row index ->
       (other ∈ DataTable.toggleRow true getRowKey row index flag sel
        <-> other ∈ sel)) /\
    DataTable.isRowSelected true getRowKey row index
      (DataTable.toggleRow true getRowKey row index flag sel)
    = match flag with
      | Some b => b
      | None => negb (DataTable.isRowSelected true getRowKey row index sel)
      end.
Proof.
  intros T getRowKey sel row index flag other.
  unfold DataTable.toggleRow, DataTable.isRowSelected. cbn [negb].
  set (k := DataTable.keyOf getRowKey row index).
  split.
  - intros Hne. destruct flag as [[|] |]; [| | case_bool_decide];
      rewrite ?elem_of_union, ?elem_of_difference, ?elem_of_singleton; tauto.
  - destruct flag as [[|] |].
    + apply bool_decide_eq_true. rewrite elem_of_union, elem_of_singleton. tauto.
    + apply bool_decide_eq_false. rewrite elem_of_difference, elem_of_singleton. tauto.
    + destruct (decide (k ∈ sel)) as [Hin | Hout].
      * rewrite (bool_decide_eq_true_2 _ Hin). cbn [negb].
        apply bool_decide_eq_false.
        rewrite elem_of_difference, elem_of_singleton. tauto.
      * rewrite (bool_decide_eq_false_2 _ Hout). cbn [negb].
        apply bool_decide_eq_true.
        rewrite elem_of_union, elem_of_singleton. tauto.
Qed.

Lemma keysFrom_lookup {T} (getRowKey : option (T -> Z -> DataTable.RowKey))
    (rows : list T) (start : Z) (i : nat) (r : T) :
  rows !! i = Some r ->
  DataTable.keyOf getRowKey r (start + Z.of_nat i)
    ∈ DataTable.keysFrom getRowKey rows start.
Proof.
  revert start i. induction rows as [| x rows IH]; intros start i Hi; [discriminate |].
  cbn [DataTable.keysFrom]. destruct i as [| i].
  - injection Hi as ->. replace (start + Z.of_nat 0) with start by lia.
    apply elem_of_cons. left. reflexivity.
  - apply elem_of_cons. right.
    replace (start + Z.of_nat (S i)) with (start + 1 + Z.of_nat i) by lia.
    apply IH, Hi.
Qed.

(** X8. After [toggleAllRows rows true] every row of [rows] reads as
    selected at its position, and after [clearSelection] or
    [toggleAllRows rows false] no row does. *)
Theorem X8_select_all_then_every_row_is_selected :
  forall (T : Type) (getRowKey : option (T -> Z -> DataTable.RowKey))
         (sel : gset DataTable.RowKey) (rows : list T) (i : nat) (r : T)
         (index : Z),
    (rows !! i = Some r ->
       DataTable.isRowSelected true getRowKey r (Z.of_nat i)
         (DataTable.toggleAllRows true getRowKey rows true sel) = true) /\
    DataTable.isRowSelected true getRowKey r index
      (DataTable.toggleAllRows true getRowKey rows false sel) = false /\
    DataTable.isRowSelected true getRowKey r index
      (DataTable.clearSelection sel) = false.
Proof.
  intros T getRowKey sel rows i r index. split; [| split].
  - intros Hi. unfold DataTable.isRowSelected, DataTable.toggleAllRows. cbn [negb].
    apply bool_decide_eq_true. apply addAll_elem. right.
    apply (keysFrom_lookup getRowKey rows 0 i r Hi).
  - reflexivity.
  - reflexivity.
Qed.

Section SelectAll.
Context {T : Type}.
Variable rowKey : T -> DataTable.RowKey.

(** Keys that do not depend on the position. *)
Let byRow : option (T -> Z -> DataTable.RowKey) := Some (fun r _ => rowKey r).

Lemma keysFrom_by_row (rows : list T) (start : Z) :
  DataTable.keysFrom byRow rows start = map rowKey rows.
Proof.
  revert start. induction rows as [| r rows IH]; intros start; [reflexivity |].
  cbn [DataTable.keysFrom map]. rewrite IH. reflexivity.
Qed.

Lemma allRowsSelected_after_select_all
    (rows : list (DataTable.RowWithKey T)) (sel : gset DataTable.RowKey) :
  rows <> [] ->
  DataTable.allRowsSelected true byRow rows
    (DataTable.toggleAllRows true byRow (map DataTable.row rows) true sel) = true.
Proof.
  intros Hne. unfold DataTable.allRowsSelected. cbn [negb orb].
  destruct rows as [| r0 rows0]; [contradiction |].
  cbn [length Nat.eqb]. apply forallb_forall. intros r Hr.
  unfold DataTable.isRowSelected, DataTable.toggleAllRows. cbn [negb].
  apply bool_decide_eq_true. apply addAll_elem. right.
  rewrite keysFrom_by_row. cbn [DataTable.keyOf byRow].
  apply list_elem_of_In. apply in_map_iff. exists (DataTable.row r).
  split; [reflexivity |]. apply in_map, Hr.
Qed.
End SelectAll.

(** X9. When the row keys do not depend on the position of the row
    and there is a row to show, the header checkbox toggles between
    "all selected" and "none selected": after [handleSelectAll], all
    displayed rows are selected exactly if they were not all selected
    before, and if they were, nothing is selected any more. *)
Theorem X9_select_all_checkbox_toggles :
  forall (T : Type) (rowKey : T -> DataTable.RowKey)
         (rows : list (DataTable.RowWithKey T)) (sel : gset DataTable.RowKey),
    rows <> [] ->
    let getRowKey := Some (fun (r : T) (_ : Z) => rowKey r) in
    DataTable.allRowsSelected true getRowKey rows
      (DataTable.handleSelectAll true getRowKey rows sel)
    = negb (DataTable.allRowsSelected true getRowKey rows sel) /\
    (DataTable.allRowsSelected true getRowKey rows sel = true ->
       DataTable.handleSelectAll true getRowKey rows sel = ∅).
Proof.
  intros T rowKey rows sel Hne getRowKey.
  unfold DataTable.handleSelectAll. cbn [negb].
  destruct (DataTable.allRowsSelected true getRowKey rows sel) eqn:Hall; cbn [negb].
  - split; [| intros _; reflexivity].
    unfold DataTable.toggleAllRows. cbn [negb].
    unfold DataTable.allRowsSelected. cbn [negb orb].
    destruct rows as [| r0 rows0]; [contradiction |].
    cbn [length Nat.eqb forallb]. unfold DataTable.isRowSelected at 1. cbn [negb].
    rewrite bool_decide_eq_false_2 by apply not_elem_of_empty. reflexivity.
  - split; [| discriminate].
    apply (allRowsSelected_after_select_all rowKey rows sel Hne).
Qed.

Lemma X9_select_all_checkbox_toggles_witness :
  DataTable.allRowsSelected true (Some (fun (r : Z) (_ : Z) => DataTable.KNum r))
    [DataTable.mkRow 7 10; DataTable.mkRow 9 11]
    (DataTable.handleSelectAll true (Some (fun (r : Z) (_ : Z) => DataTable.KNum r))
       [DataTable.mkRow 7 10; DataTable.mkRow 9 11] ∅)
  = true.
Proof.
  pose proof (X9_select_all_checkbox_toggles Z DataTable.KNum
                [DataTable.mkRow 7 10; DataTable.mkRow 9 11] ∅
                ltac:(discriminate)) as H.
  cbv zeta in H. destruct H as [H _]. rewrite H. reflexivity.
Defined.

Lemma selectedRowsFrom_all {T} (getRowKey : option (T -> Z -> DataTable.RowKey))
    (data : list T) (start : Z) (sel : gset DataTable.RowKey) :
  (forall k, k ∈ DataTable.keysFrom getRowKey data start -> k ∈ sel) ->
  DataTable.selectedRowsFrom getRowKey data start sel = data.
Proof.
  revert start. induction data as [| r data IH]; intros start Hall; [reflexivity |].
  cbn [DataTable.selectedRowsFrom DataTable.keysFrom] in *.
  rewrite bool_decide_eq_true_2
    by (apply Hall, elem_of_cons; left; reflexivity).
  f_equal. apply IH. intros k Hk. apply Hall, elem_of_cons. right. exact Hk.
Qed.

Lemma selectedRowsFrom_none {T} (getRowKey : option (T -> Z -> DataTable.RowKey))
    (data : list T) (start : Z) :
  DataTable.selectedRowsFrom getRowKey data start ∅ = [].
Proof.
  revert start. induction data as [| r data IH]; intros start; [reflexivity |].
  cbn [DataTable.selectedRowsFrom].
  rewrite bool_decide_eq_false_2 by apply not_elem_of_empty. apply IH.
Qed.

(** X10. The parent is told of the selection in terms of rows: after
    selecting all of [data] it is handed exactly [data], in order;
    after clearing it is handed the empty list; and with selection
    disabled it is not called at all. *)
Theorem X10_selection_reported_as_rows :
  forall (T W : Type) (getRowKey : option (T -> Z -> DataTable.RowKey))
         (cb : list T -> W -> W) (data : list T)
         (sel : gset DataTable.RowKey) (w : W),
    DataTable.notifySelection true getRowKey (Some cb) data
      (DataTable.toggleAllRows true getRowKey data true sel) w = cb data w /\
    DataTable.notifySelection true getRowKey (Some cb) data
      (DataTable.clearSelection sel) w = cb [] w /\
    DataTable.notifySelection false getRowKey (Some cb) data sel w = w.
Proof.
  intros T W getRowKey cb data sel w. split; [| split].
  - unfold DataTable.notifySelection. cbn [negb]. f_equal.
    apply selectedRowsFrom_all. intros k Hk.
    unfold DataTable.toggleAllRows. cbn [negb]. apply addAll_elem. right. exact Hk.
  - unfold DataTable.notifySelection, DataTable.clearSelection. cbn [negb].
    rewrite selectedRowsFrom_none. reflexivity.
  - reflexivity.
Qed.

(** ** More on date ranges *)

Lemma isDateInRange_between (x a b : JSDate.Date) :
  DateRangePicker.isDateInRange x (DateRangePicker.mkRange (Some a) (Some b)) = true
  <-> Z.min (JSDate.getTime a) (JSDate.getTime b) <= JSDate.getTime x
      <= Z.max (JSDate.getTime a) (JSDate.getTime b).
Proof.
  unfold DateRangePicker.isDateInRange.
  cbn [DateRangePicker.from DateRangePicker.to].
  unfold JSDate.isBefore, JSDate.isAfter.
  rewrite Bool.andb_true_iff, !Bool.negb_true_iff.
  destruct (Z.ltb_spec (JSDate.getTime a) (JSDate.getTime b));
    destruct (Z.ltb_spec (JSDate.getTime b) (JSDate.getTime a));
    rewrite !Z.ltb_ge; lia.
Qed.

Lemma same_day_same_time (x y : JSDate.Date) :
  JSDate.TimeWithinDay (JSDate.getTime x) = JSDate.TimeWithinDay (JSDate.getTime y) ->
  JSDate.isSameDay x y = true -> JSDate.getTime x = JSDate.getTime y.
Proof.
  intros Htime Hday. apply GridFacts.isSameDay_iff in Hday.
  rewrite (CalendarFacts.getTime_split x), (CalendarFacts.getTime_split y).
  congruence.
Qed.


Lemma clampDate_cases (d : JSDate.Date) (minDate maxDate : option JSDate.Date) :
  let r := DateRangePicker.clampDate d minDate maxDate in
  (exists m, minDate = Some m /\ JSDate.getTime d < JSDate.getTime m /\ r = m) \/
  (exists m, maxDate = Some m /\ JSDate.getTime m < JSDate.getTime d /\ r = m /\
             forall mn, minDate = Some mn -> JSDate.getTime mn <= JSDate.getTime d) \/
  (r = d /\
   (forall mn, minDate = Some mn -> JSDate.getTime mn <= JSDate.getTime d) /\
   (forall mx, maxDate = Some mx -> JSDate.getTime d <= JSDate.getTime mx)).
Proof.
  unfold DateRangePicker.clampDate, JSDate.isBefore, JSDate.isAfter.
  destruct minDate as [mn |]; destruct maxDate as [mx |];
    repeat match goal with
           | |- context [if ?a <? ?b then _ else _] => destruct (Z.ltb_spec a b)
           end; cbv zeta.
  all: try (left; eexists; split; [reflexivity | split; [assumption | reflexivity]]).
  all: try (right; left; eexists; split; [reflexivity |];
            split; [assumption |]; split; [reflexivity |];
            intros m Hm; try discriminate; injection Hm as <-; assumption).
  all: right; right; split; [reflexivity |]; split; intros m Hm;
    try discriminate; injection Hm as <-; assumption.
Qed.

(** X12. When the bounds are given in order ([minDate] not after
    [maxDate]), [clampDate] returns a date inside the bounds, which the
    bounds of [isDateDisabled] therefore never disable; it leaves a
    date inside the bounds as it is, and clamping twice is clamping
    once. *)
Theorem X12_clampDate_lands_in_bounds :
  forall (now d : JSDate.Date) (minDate maxDate : option JSDate.Date),
    (forall mn mx, minDate = Some mn -> maxDate = Some mx ->
                   JSDate.getTime mn <= JSDate.getTime mx) ->
    let r := DateRangePicker.clampDate d minDate maxDate in
    (forall mn, minDate = Some mn -> JSDate.getTime mn <= JSDate.getTime r) /\
    (forall mx, maxDate = Some mx -> JSDate.getTime r <= JSDate.getTime mx) /\
    DateRangePicker.isDateDisabled now r (Some DateRangePicker.StrategyNone)
      minDate maxDate None = false /\
    (DateRangePicker.isDateDisabled now d (Some DateRangePicker.StrategyNone)
       minDate maxDate None = false -> r = d) /\
    DateRangePicker.clampDate r minDate maxDate = r.
Proof.
  intros now d minDate maxDate Hord r.
  assert (Hlo : forall mn, minDate = Some mn -> JSDate.getTime mn <= JSDate.getTime r).
  { intros mn Hmn.
    destruct (clampDate_cases d minDate maxDate)
      as [(m & Hm & Hlt & Hr) | [(m & Hm & Hlt & Hr & Hmin) | (Hr & Hmin & Hmax)]];
      fold r in Hr; rewrite Hr.
    - rewrite Hm in Hmn. injection Hmn as <-. lia.
    - apply (Hord mn m Hmn Hm).
    - apply Hmin, Hmn. }
  assert (Hhi : forall mx, maxDate = Some mx -> JSDate.getTime r <= JSDate.getTime mx).
  { intros mx Hmx.
    destruct (clampDate_cases d minDate maxDate)
      as [(m & Hm & Hlt & Hr) | [(m & Hm & Hlt & Hr & Hmin) | (Hr & Hmin & Hmax)]];
      fold r in Hr; rewrite Hr.
    - apply (Hord m mx Hm Hmx).
    - rewrite Hm in Hmx. injection Hmx as <-. lia.
    - apply Hmax, Hmx. }
  assert (Hfree : forall x,
            DateRangePicker.isDateDisabled now x (Some DateRangePicker.StrategyNone)
              minDate maxDate None = false
            <-> (forall mn, minDate = Some mn -> JSDate.getTime mn <= JSDate.getTime x) /\
                (forall mx, maxDate = Some mx -> JSDate.getTime x <= JSDate.getTime mx)).
  { intros x. unfold DateRangePicker.isDateDisabled, JSDate.isBefore, JSDate.isAfter.
    destruct minDate as [mn |]; destruct maxDate as [mx |];
      repeat match goal with
             | |- context [if ?a <? ?b then _ else _] => destruct (Z.ltb_spec a b)
             end.
    all: split;
      [ intros Hf; try discriminate; split; intros m Hm; try discriminate;
        injection Hm as <-; assumption
      | intros [H1 H2]; try reflexivity;
        try (specialize (H1 _ eq_refl); lia);
        try (specialize (H2 _ eq_refl); lia) ]. }
  assert (Hid : forall x,
            (forall mn, minDate = Some mn -> JSDate.getTime mn <= JSDate.getTime x) ->
            (forall mx, maxDate = Some mx -> JSDate.getTime x <= JSDate.getTime mx) ->
            DateRangePicker.clampDate x minDate maxDate = x).
  { intros x H1 H2.
    destruct (clampDate_cases x minDate maxDate)
      as [(m & Hm & Hlt & _) | [(m & Hm & Hlt & _) | (Hr & _)]].
    - specialize (H1 m Hm). lia.
    - specialize (H2 m Hm). lia.
    - exact Hr. }
  split; [exact Hlo |]. split; [exact Hhi |]. split; [| split].
  - apply Hfree. split; assumption.
  - intros Hd. apply Hfree in Hd as [H1 H2]. apply Hid; assumption.
  - apply Hid; assumption.
Qed.

Lemma X12_clampDate_lands_in_bounds_witness :
  DateRangePicker.clampDate (JSDate.mkDate 5)
    (Some (JSDate.mkDate 10)) (Some (JSDate.mkDate 20)) = JSDate.mkDate 10 /\
  DateRangePicker.isDateDisabled (JSDate.mkDate 0)
    (DateRangePicker.clampDate (JSDate.mkDate 5)
       (Some (JSDate.mkDate 10)) (Some (JSDate.mkDate 20)))
    (Some DateRangePicker.StrategyNone)
    (Some (JSDate.mkDate 10)) (Some (JSDate.mkDate 20)) None = false.
Proof.
  pose proof (X12_clampDate_lands_in_bounds (JSDate.mkDate 0) (JSDate.mkDate 5)
                (Some (JSDate.mkDate 10)) (Some (JSDate.mkDate 20))) as H.
  cbv zeta in H.
  destruct H as (_ & _ & Hfree & _).
  - intros mn mx Hmn Hmx. injection Hmn as <-. injection Hmx as <-. cbn. lia.
  - split; [reflexivity | exact Hfree].
Defined.

(** ** More on the month grid *)

(** X13. For a month at least forty days inside the range of [Date],
    in a zone whose offset does not change within forty days of it: in
    the grid with outside days the columns are the days of the week.
    The cell at position [k] of any week falls on weekday [k] (0 is
    Sunday), and no week has a cell beyond position 6. *)
Theorem X13_grid_columns_are_weekdays :
  forall (LocalTZA : Z -> bool -> Z) (offset time : Z) (j k : nat)
         (week : list Host.DateObject) (d : Host.DateObject),
    Z.abs time <= Host.maxTime - 40 * JSDate.msPerDay ->
    Host.steady LocalTZA offset time ->
    Host.getDaysInMonth LocalTZA (Some time) true !! j = Some week ->
    week !! k = Some d ->
    (k < 7)%nat /\ Host.getDay LocalTZA d = Some (Z.of_nat k).
Proof.
  intros zone c t j k week d Hsafe Hsteady Hj Hk.
  pose proof (HostFacts.safe_local c t Hsafe) as safe.
  pose proof (HostFacts.steady_local zone c t Hsteady) as steady.
  rewrite (HostFacts.object_of_local c t) in Hj.
  exact (HostFacts.cell_weekday_obj zone c _ safe steady j k week d Hj Hk).
Qed.

Lemma X13_grid_columns_are_weekdays_witness :
  exists week d,
    Host.getDaysInMonth (Host.fixedOffset 3600000) (Some 0) true !! 1%nat = Some week /\
    week !! 3%nat = Some d /\ Host.getDay (Host.fixedOffset 3600000) d = Some 3.
Proof.
  eexists _, _. split; [vm_compute; reflexivity |]. split; [vm_compute; reflexivity |].
  refine (proj2 (X13_grid_columns_are_weekdays (Host.fixedOffset 3600000) 3600000 0
                   1 3 _ _ _ (HostFacts.fixedOffset_steady _ _) _ _));
    vm_compute; (reflexivity || discriminate).
Defined.

(** X14. For a month at least forty days inside the range of [Date],
    in a zone whose offset does not change within forty days of it:
    the grid with outside days has four, five or six weeks, and the
    grid without outside days has as many cells as the month has days,
    between 28 and 31. *)
Theorem X14_grid_has_four_to_six_weeks :
  forall (LocalTZA : Z -> bool -> Z) (offset time : Z),
    Z.abs time <= Host.maxTime - 40 * JSDate.msPerDay ->
    Host.steady LocalTZA offset time ->
    (4 <= length (Host.getDaysInMonth LocalTZA (Some time) true) <= 6)%nat /\
    (28 <= length (concat (Host.getDaysInMonth LocalTZA (Some time) false))
       <= 31)%nat.
Proof.
  intros zone c t Hsafe Hsteady.
  pose proof (HostFacts.safe_local c t Hsafe) as safe.
  pose proof (HostFacts.steady_local zone c t Hsteady) as steady.
  rewrite (HostFacts.object_of_local c t).
  apply HostFacts.grid_size_obj; assumption.
Qed.

Lemma X14_grid_has_four_to_six_weeks_witness :
  (4 <= length (Host.getDaysInMonth (Host.fixedOffset (-18000000)%Z)
                  (Some 86400000%Z) true) <= 6)%nat.
Proof.
  exact (proj1 (X14_grid_has_four_to_six_weeks (Host.fixedOffset (-18000000))
                  (-18000000) 86400000
                  ltac:(vm_compute; discriminate)
                  (HostFacts.fixedOffset_steady _ _))).
Defined.

(** ** The weekday header *)

(** X15. For a current date at least forty days inside the range of
    [Date], in a zone whose offset does not change within forty days
    of it: [getWeekdays] returns seven labels, and the label at
    position [i] is the format, with the pattern of the chosen style
    (EEEE for long, EEE for short, EEEEE for narrow), of a date that
    falls on weekday [i], Sunday first. The header lines up with the
    columns of the grid, on whatever day it is computed. *)
Theorem X15_getWeekdays_sunday_first :
  forall (LocalTZA : Z -> bool -> Z) (format : Z -> string -> string)
         (fmt : DateRangePicker.WeekdayFormat) (offset now : Z),
    Z.abs now <= Host.maxTime - 40 * JSDate.msPerDay ->
    Host.steady LocalTZA offset now ->
    exists times : list Z,
      Host.getWeekdays LocalTZA format fmt (Some now)
      = map (fun t => format t
                        (match fmt with
                         | DateRangePicker.long => "EEEE"
                         | DateRangePicker.short => "EEE"
                         | DateRangePicker.narrow => "EEEEE"
                         end))
            times /\
      length times = 7%nat /\
      (forall (i : nat) (t : Z),
          times !! i = Some t ->
          Host.getDay LocalTZA (Some t) = Some (Z.of_nat i)).
Proof.
  intros zone format fmt c t Hsafe Hsteady.
  pose proof (HostFacts.safe_local c t Hsafe) as safe.
  pose proof (HostFacts.steady_local zone c t Hsteady) as steady.
  rewrite (HostFacts.object_of_local c t).
  apply HostFacts.getWeekdays_obj; assumption.
Qed.

Lemma X15_getWeekdays_sunday_first_witness :
  length (Host.getWeekdays (Host.fixedOffset 3600000) (fun _ p => p)
            DateRangePicker.short (Some 0)) = 7%nat.
Proof.
  destruct (X15_getWeekdays_sunday_first (Host.fixedOffset 3600000) (fun _ p => p)
              DateRangePicker.short 3600000 0 ltac:(vm_compute; discriminate)
              (HostFacts.fixedOffset_steady _ _)) as (times & Heq & Hlen & _).
  rewrite Heq, length_map. exact Hlen.
Defined.

(** ** More on disabled dates *)

Lemma isDateDisabled_true_iff (now d : JSDate.Date)
    (strategy : option DateRangePicker.DisabledDateStrategy)
    (minDate maxDate : option JSDate.Date)
    (customPredicate : option (JSDate.Date -> bool)) :
  DateRangePicker.isDateDisabled now d strategy minDate maxDate customPredicate = true
  <-> DateRangePicker.disabledBySpec now d strategy minDate maxDate customPredicate.
Proof.
  rewrite isDateDisabled_orb. unfold DateRangePicker.disabledBySpec.
  rewrite !Bool.orb_true_iff.
  rewrite custom_matches, min_matches, max_matches, strategy_matches.
  tauto.
Qed.

(** X19. The rules that look backwards disable an initial stretch of
    time and those that look forwards a final one: with no custom
    predicate and no [maxDate], under ['past'], ['none'] or no
    strategy, every date not later than a disabled date is disabled;
    with no custom predicate and no [minDate], under ['future'],
    ['none'] or no strategy, every date not earlier than a disabled
    date is disabled. The bounds themselves are allowed: a date at the
    instant of [minDate] or [maxDate] is not disabled by the bounds. *)
Theorem X19_disabled_dates_form_stretches :
  forall (now d1 d2 : JSDate.Date) (bound : option JSDate.Date)
         (strategy : option DateRangePicker.DisabledDateStrategy),
    JSDate.getTime d1 <= JSDate.getTime d2 ->
    (strategy = Some DateRangePicker.StrategyPast \/
     strategy = Some DateRangePicker.StrategyNone \/ strategy = None ->
     DateRangePicker.isDateDisabled now d2 strategy bound None None = true ->
     DateRangePicker.isDateDisabled now d1 strategy bound None None = true) /\
    (strategy = Some DateRangePicker.StrategyFuture \/
     strategy = Some DateRangePicker.StrategyNone \/ strategy = None ->
     DateRangePicker.isDateDisabled now d1 strategy None bound None = true ->
     DateRangePicker.isDateDisabled now d2 strategy None bound None = true) /\
    DateRangePicker.isDateDisabled now d1 (Some DateRangePicker.StrategyNone)
      (Some d1) (Some d1) None = false.
Proof.
  intros now d1 d2 bound strategy Hle.
  split; [| split].
  - intros Hs. rewrite !isDateDisabled_true_iff.
    unfold DateRangePicker.disabledBySpec.
    intros [(p & Hp & _) | [(m & Hm & Hlt) | [(m & Hm & _) | Hst]]];
      try discriminate.
    + right. left. exists m. split; [exact Hm | lia].
    + right. right. right.
      destruct Hs as [-> | [-> | ->]]; cbn in *; [lia | contradiction | contradiction].
  - intros Hs. rewrite !isDateDisabled_true_iff.
    unfold DateRangePicker.disabledBySpec.
    intros [(p & Hp & _) | [(m & Hm & _) | [(m & Hm & Hlt) | Hst]]];
      try discriminate.
    + right. right. left. exists m. split; [exact Hm | lia].
    + right. right. right.
      destruct Hs as [-> | [-> | ->]]; cbn in *; [lia | contradiction | contradiction].
  - unfold DateRangePicker.isDateDisabled, JSDate.isBefore, JSDate.isAfter.
    rewrite Z.ltb_irrefl. reflexivity.
Qed.

Lemma X19_disabled_dates_form_stretches_witness :
  DateRangePicker.isDateDisabled (JSDate.mkDate 100) (JSDate.mkDate 3)
    (Some DateRangePicker.StrategyPast) (Some (JSDate.mkDate 10)) None None = true.
Proof.
  refine (proj1 (X19_disabled_dates_form_stretches (JSDate.mkDate 100)
                   (JSDate.mkDate 3) (JSDate.mkDate 50) (Some (JSDate.mkDate 10))
                   (Some DateRangePicker.StrategyPast) _) _ _).
  - cbn. lia.
  - left. reflexivity.
  - reflexivity.
Defined.

(** ** Today's cell *)

Module TodayFacts.
Import JSDate DateRangePicker CalendarFacts GridFacts.

Lemma elem_of_days (l : list Date) (lo n : Z) (x : Date) :
  map dayOf l = seqZ lo n -> x ∈ l -> lo <= dayOf x < lo + n.
Proof.
  intros Hmap Hx. apply list_elem_of_lookup in Hx as [i Hi].
  destruct (days_lookup l lo n i x Hmap Hi). lia.
Qed.

(** The cells of the month itself are at midnight, with or without
    the outside days. *)
Lemma month_cell_at_midnight (month x : Date) (showOutsideDays : bool) :
  x ∈ daysOf month showOutsideDays -> isSameMonth x month = true ->
  getTime x = MakeDate (dayOf x) 0.
Proof.
  intros Hx Hsame. apply same_month_range in Hsame.
  pose proof (pad_bounds month) as [Hkb Hab].
  assert (Hmid : x ∈ eachDayOfInterval (startOfMonth month) (endOfMonth month)).
  { unfold daysOf in Hx. cbv zeta in Hx.
    rewrite !elem_of_app in Hx. destruct Hx as [Hpre | [Hmid | Hpost]].
    - exfalso. destruct showOutsideDays; [| apply elem_of_nil in Hpre; exact Hpre].
      apply (elem_of_days _ _ _ _ (prependLoop_days _ _)) in Hpre.
      rewrite getDay_start, dayOf_setDate, getDate_start, startOfMonth_first,
        (dayOf_at _ 0 midnight_bounds) in Hpre.
      rewrite Z2Nat.id in Hpre by lia. lia.
    - exact Hmid.
    - exfalso. destruct showOutsideDays; [| apply elem_of_nil in Hpost; exact Hpost].
      apply (elem_of_days _ _ _ _ (appendLoop_days _ _ _)) in Hpost.
      rewrite getDay_end, dayOf_setDate, endOfMonth_last,
        (dayOf_at _ _ end_of_day_bounds) in Hpost.
      lia. }
  rewrite eachDayOfInterval_month in Hmid.
  apply list_elem_of_In, in_map_iff in Hmid as (z & <- & _).
  rewrite (dayOf_at z 0 midnight_bounds). reflexivity.
Qed.
End TodayFacts.



(** ** Modal: scroll lock *)

(** X16. Locking the scroll hides the body's overflow, and the cleanup
    gives the body back the two style values it had, whatever was done
    to them in between. Two locks released in the reverse order of
    their taking leave the body as it first was; released in the order
    of their taking, the second cleanup puts the first lock's [hidden]
    back and the body stays locked. *)
Theorem X16_scroll_lock_restores_body_style :
  forall (vp vp2 : Modal.Viewport) (body later : Modal.BodyStyle),
    let locked := Modal.scrollLockEffect true true vp body in
    let nested := Modal.scrollLockEffect true true vp2 (fst locked) in
    Modal.overflow (fst locked) = "hidden" /\
    Modal.scrollLockCleanup (snd locked) later = body /\
    Modal.scrollLockCleanup (snd locked)
      (Modal.scrollLockCleanup (snd nested) (fst nested)) = body /\
    Modal.overflow
      (Modal.scrollLockCleanup (snd nested)
         (Modal.scrollLockCleanup (snd locked) (fst nested))) = "hidden" /\
    (Modal.innerWidth vp <= Modal.clientWidth vp ->
       Modal.paddingRight (fst locked) = Modal.paddingRight body).
Proof.
  intros vp vp2 [o p] later locked nested.
  split; [reflexivity |]. split; [reflexivity |]. split; [reflexivity |].
  split; [reflexivity |].
  intros Hw. cbn.
  destruct (Z.ltb_spec 0 (Modal.innerWidth vp - Modal.clientWidth vp)); [lia | reflexivity].
Qed.

(** ** Modal: when the trap holds *)

(** X21. The page's tab order is [pre ++ inside ++ post], distinct
    elements, where [inside] (not empty) is what the trap's selector
    finds in the dialog, and every element of [inside] can take focus.
    When the modal opens with the trap enabled, focus moves to the
    first element of [inside]; from then on, whatever keys are pressed,
    focus stays on an element of [inside]: Tab on the last one moves
    focus to the first, Shift+Tab on the first moves it to the last,
    and everywhere else Tab and Shift+Tab move to a neighbour inside
    the dialog. When the modal closes, the listener is removed, and
    focus is back on the element that had it before the modal opened
    if that element can still take focus. *)
Theorem X21_focus_trap_cycles :
  forall (pre rest post canFocus : list Modal.Element) (first : Modal.Element)
         (prev : option Modal.Element),
    NoDup (pre ++ (first :: rest) ++ post) ->
    (forall x, x ∈ first :: rest -> x ∈ canFocus) ->
    let inside := first :: rest in
    let order := pre ++ inside ++ post in
    let l := Modal.mkListener first (List.last inside first) in
    let opened := Modal.effect true true (Some inside) Modal.initialTrap
                    (Modal.mkPage order canFocus prev None) in
    Modal.activeElement (snd opened) = Some first /\
    (forall es,
        Modal.trapped order canFocus inside l (Modal.keydowns es (snd opened))) /\
    (forall pg, Modal.trapped order canFocus inside l pg ->
        (Modal.activeElement pg = Some (List.last inside first) ->
           Modal.activeElement (Modal.keydown (Modal.mkKey "Tab" false) pg)
           = Some first) /\
        (Modal.activeElement pg = Some first ->
           Modal.activeElement (Modal.keydown (Modal.mkKey "Tab" true) pg)
           = Some (List.last inside first))) /\
    (forall es p, prev = Some p -> p ∈ canFocus ->
        Modal.activeElement
          (Modal.cleanup (fst opened) (Modal.keydowns es (snd opened))) = Some p) /\
    (forall es,
        Modal.keydownListener
          (Modal.cleanup (fst opened) (Modal.keydowns es (snd opened))) = None).
Proof.
  intros pre rest post canFocus first prev Hnd Hfoc inside order l opened.
  assert (Hfirst : first ∈ canFocus).
  { apply Hfoc, elem_of_cons. left. reflexivity. }
  assert (Hlast : List.last inside first ∈ canFocus)
    by apply Hfoc, FocusFacts.last_in.
  assert (Heq : opened
                = (Modal.mkTrap prev true,
                   Modal.mkPage order canFocus (Some first) (Some l)))
    by (apply FocusFacts.effect_opened; exact Hfirst).
  assert (Hopen : Modal.trapped order canFocus inside l (snd opened)).
  { rewrite Heq. split; [reflexivity | split; [reflexivity | split; [reflexivity |]]].
    exists first. split; [reflexivity |]. apply elem_of_cons. left. reflexivity. }
  assert (Hall : forall es,
             Modal.trapped order canFocus inside l (Modal.keydowns es (snd opened))).
  { intros es. apply FocusFacts.keydowns_trapped; assumption. }
  split; [rewrite Heq; reflexivity |]. split; [exact Hall |]. split; [| split].
  - intros pg (Hord & Hcan & Hlis & _). split; intros Hact.
    + unfold Modal.keydown. rewrite Hlis. unfold Modal.handleKeyDown.
      cbn [Modal.key Modal.shiftKey String.eqb Ascii.eqb Bool.eqb negb
           Modal.lastElement Modal.firstElement l].
      rewrite bool_decide_eq_true_2 by exact Hact.
      rewrite FocusFacts.focus_taken by (rewrite Hcan; exact Hfirst). reflexivity.
    + unfold Modal.keydown. rewrite Hlis. unfold Modal.handleKeyDown.
      cbn [Modal.key Modal.shiftKey String.eqb Ascii.eqb Bool.eqb negb
           Modal.lastElement Modal.firstElement l].
      rewrite bool_decide_eq_true_2 by exact Hact.
      rewrite FocusFacts.focus_taken by (rewrite Hcan; exact Hlast). reflexivity.
  - intros es p -> Hp. destruct (Hall es) as (_ & Hcan & _).
    revert Hcan. rewrite Heq. cbn [fst snd]. intros Hcan.
    unfold Modal.cleanup. cbn [Modal.hasCleanup Modal.previouslyFocusedElement].
    rewrite FocusFacts.focus_taken by (cbn [Modal.focusable]; rewrite Hcan; exact Hp).
    reflexivity.
  - intros es. rewrite Heq. cbn [fst snd]. unfold Modal.cleanup.
    cbn [Modal.hasCleanup Modal.previouslyFocusedElement].
    destruct prev; [rewrite FocusFacts.focus_listener |]; reflexivity.
Qed.

Lemma X21_focus_trap_cycles_witness :
  Modal.activeElement
    (Modal.keydown (Modal.mkKey "Tab" false)
       (Modal.keydowns [Modal.mkKey "Tab" false; Modal.mkKey "Tab" false]
          (snd (Modal.effect true true (Some [2%nat; 3%nat; 4%nat])
                  Modal.initialTrap
                  (Modal.mkPage [1%nat; 2%nat; 3%nat; 4%nat; 5%nat]
                     [1%nat; 2%nat; 3%nat; 4%nat; 5%nat]
                     (Some 1%nat) None)))))
  = Some 2%nat.
Proof.
  pose proof (X21_focus_trap_cycles [1%nat] [3%nat; 4%nat] [5%nat]
                [1%nat; 2%nat; 3%nat; 4%nat; 5%nat] 2%nat (Some 1%nat)
                ltac:(compute_done)
                ltac:(intros x Hx; rewrite !elem_of_cons in *; tauto)) as H.
  cbv zeta in H. destruct H as (_ & Htrapped & Hwrap & _).
  apply (Hwrap _ (Htrapped _)). reflexivity.
Defined.

(** ** Modal: when the trap does not engage *)

(** X17. When the modal is closed, or the trap is switched off, or the
    dialog is not mounted, or nothing in it is focusable, the effect
    moves no focus and registers no listener, and it returns no
    cleanup: closing later moves no focus either, so focus is not
    brought back to where it was. *)
Theorem X17_focus_trap_not_engaged :
  forall (isOpen trapFocus : bool) (container : option (list Modal.Element))
         (t : Modal.Trap) (pg later : Modal.Page),
    isOpen = false \/ trapFocus = false \/ container = None \/ container = Some [] ->
    snd (Modal.effect isOpen trapFocus container t pg) = pg /\
    Modal.hasCleanup (fst (Modal.effect isOpen trapFocus container t pg)) = false /\
    Modal.cleanup (fst (Modal.effect isOpen trapFocus container t pg)) later = later.
Proof.
  intros isOpen trapFocus container t pg later H.
  assert (Hno : Modal.hasCleanup
                  (fst (Modal.effect isOpen trapFocus container t pg)) = false
                /\ snd (Modal.effect isOpen trapFocus container t pg) = pg).
  { unfold Modal.effect.
    destruct isOpen; [| split; reflexivity].
    destruct trapFocus; [| split; reflexivity]. cbn [negb orb].
    destruct H as [H | [H | [H | H]]]; try discriminate; subst container;
      split; reflexivity. }
  destruct Hno as [Hc Hp]. split; [exact Hp |]. split; [exact Hc |].
  unfold Modal.cleanup. rewrite Hc. reflexivity.
Qed.

Lemma X17_focus_trap_not_engaged_witness :
  Modal.activeElement
    (Modal.cleanup
       (fst (Modal.effect true true (Some []) Modal.initialTrap
               (Modal.mkPage [1%nat; 2%nat] [1%nat; 2%nat] (Some 1%nat) None)))
       (Modal.mkPage [1%nat; 2%nat] [1%nat; 2%nat] (Some 2%nat) None))
  = Some 2%nat.
Proof.
  rewrite (proj2 (proj2 (X17_focus_trap_not_engaged true true (Some [])
                           Modal.initialTrap
                           (Modal.mkPage [1%nat; 2%nat] [1%nat; 2%nat]
                              (Some 1%nat) None)
                           (Modal.mkPage [1%nat; 2%nat] [1%nat; 2%nat]
                              (Some 2%nat) None)
                           (or_intror (or_intror (or_intror eq_refl)))))).
  reflexivity.
Defined.

(** ** Modal: what closes it *)

Lemma keydown_other_key (e : Modal.KeyboardEvent) (pg : Modal.Page) :
  Modal.key e <> "Tab" -> Modal.keydown e pg = pg.
Proof.
  intros Hkey. unfold Modal.keydown, Modal.handleKeyDown.
  destruct (String.eqb_spec (Modal.key e) "Tab") as [Htab | _]; [contradiction |].
  cbn [negb]. destruct (Modal.keydownListener pg); reflexivity.
Qed.

(** X18. A key press closes the modal only when the modal is open,
    the key is Escape and [closeOnEsc] is set; the Escape key leaves
    the page, focus included, as it is, trap or no trap. A mouse press
    closes it only when the modal is open, [closeOnOverlayClick] is
    set, the dialog is mounted and the press is outside the dialog; a
    press on any node of the dialog never closes it. *)
Theorem X18_modal_closes_on_escape_or_outside_press :
  forall (W : Type) (onClose : W -> W) (isOpen flag shift : bool)
         (e : Modal.KeyboardEvent) (pg : Modal.Page)
         (container : option (list Modal.Element)) (nodes : list Modal.Element)
         (target : Modal.Element) (w : W),
    (fst (Modal.escapeListener onClose isOpen flag e w) <> w ->
       isOpen = true /\ flag = true /\ Modal.key e = "Escape") /\
    Modal.escapeListener onClose true true (Modal.mkKey "Escape" shift) w
      = (onClose w, true) /\
    Modal.keydown (Modal.mkKey "Escape" shift) pg = pg /\
    (fst (Modal.clickOutsideListener onClose isOpen flag container target w) <> w ->
       isOpen = true /\ flag = true /\
       exists inside, container = Some inside /\ target ∉ inside) /\
    (target ∈ nodes ->
       Modal.clickOutsideListener onClose isOpen flag (Some nodes) target w
       = (w, false)) /\
    (target ∉ nodes ->
       Modal.clickOutsideListener onClose true true (Some nodes) target w
       = (onClose w, true)).
Proof.
  intros W onClose isOpen flag shift e pg container nodes target w.
  split; [| split; [| split; [| split; [| split]]]].
  - unfold Modal.escapeListener, Modal.escapeKeyDown.
    destruct isOpen; [| intros H; contradiction].
    destruct (String.eqb_spec (Modal.key e) "Escape") as [Hk | Hk];
      destruct flag; cbn [andb fst]; intros H; try contradiction.
    auto.
  - reflexivity.
  - apply keydown_other_key. cbn. discriminate.
  - unfold Modal.clickOutsideListener, Modal.clickOutsideHandler.
    destruct isOpen; [| intros H; contradiction].
    destruct flag; cbn [negb]; [| intros H; contradiction].
    destruct container as [inside |]; [| intros H; contradiction].
    destruct (decide (target ∈ inside)) as [Hin | Hout].
    + rewrite (bool_decide_eq_true_2 _ Hin). intros H. contradiction.
    + intros _. split; [reflexivity |]. split; [reflexivity |].
      exists inside. split; [reflexivity | exact Hout].
  - intros Hin. unfold Modal.clickOutsideListener, Modal.clickOutsideHandler.
    destruct isOpen; [| reflexivity]. destruct flag; [| reflexivity].
    cbn [negb]. rewrite (bool_decide_eq_true_2 _ Hin). reflexivity.
  - intros Hout. unfold Modal.clickOutsideListener, Modal.clickOutsideHandler.
    cbn [negb]. rewrite (bool_decide_eq_false_2 _ Hout). reflexivity.
Qed.
